(** * AutoSMP: the hotplug decision loop of drivers/cpufreq/autosmp.c

    A shallow embedding of the AutoSMP driver: the periodic work function
    [asmp_work_fn], the core-selection helpers [get_offline_core] and
    [get_online_core], and the display notifier with [asmp_suspend] and
    [asmp_resume].  The driver's globals ([asmp_param], [cycle], [enabled],
    the online mask it observes, the state of its work items) are the fields
    of one state record that every function threads through; each call the
    driver makes to the hotplug core or to the workqueue is also appended to
    a log, so that statements about what the driver requests, and in which
    order, can be made. *)

From Stdlib Require Import ZArith Lia List Bool Sorted.
From stdpp Require Import base list.
Import ListNotations.
Local Open Scope Z_scope.

(** ** Constants of the driver *)

Definition UINT_MAX : Z := 4294967295.

(** Arithmetic on [unsigned int] wraps modulo 2^32. *)
Definition u32 (x : Z) : Z := x mod 4294967296.

Definition ASMP_STARTDELAY : Z := 20000.
Definition DELAY_CHECK : Z := 20.

Definition CLUSTER_LITTLE : Z := 0.
Definition CLUSTER_BIG : Z := 1.
Definition MAX_CLUSTERS : nat := 2.
Definition MAX_CPU_PER_CLUSTERS : Z := 4.

(** ** Data model *)

Record asmp_param_struct := {
  delay : Z;
  max_cpus : Z;
  min_cpus : Z;
  min_cpus_hmp : Z;
  cpufreq_up : Z;
  cpufreq_down : Z;
  cpufreq_up_hmp : Z;
  cpufreq_down_hmp : Z;
  cycle_up : Z;
  cycle_down : Z
}.

(** The initialiser of [asmp_param]; [asmp_init] overwrites [max_cpus] with
    [nr_cpu_ids], and [delay] is zero-initialised. *)
Definition asmp_param_default (nr_cpus : Z) : asmp_param_struct :=
  {| delay := 0; max_cpus := nr_cpus; min_cpus := 1; min_cpus_hmp := 0;
     cpufreq_up := 60; cpufreq_down := 30;
     cpufreq_up_hmp := 90; cpufreq_down_hmp := 60;
     cycle_up := 1; cycle_down := 1 |}.

(** The places of the source that call [cpu_up] or [cpu_down]. *)
Inductive call_site :=
| little_up      (* asmp_work_fn, efficiency scale-up *)
| little_down    (* asmp_work_fn, efficiency scale-down *)
| hmp_up         (* asmp_work_fn, HMP handler, cpu_up(get_offline_core(..)) *)
| hmp_down       (* asmp_work_fn, HMP handler, the while loop *)
| big_up         (* asmp_work_fn, performance scale-up *)
| big_down       (* asmp_work_fn, performance scale-down *)
| all_up         (* cpu_all_up *)
| suspend_down.  (* asmp_suspend *)

(** What the driver asks of the rest of the kernel. *)
Inductive call :=
| CpuUp (site : call_site) (cpu : nat)
| CpuDown (site : call_site) (cpu : nat)
| CancelDelayedWorkSync
| QueueDelayedWork (msecs : Z)
| ScheduleWork.

Record asmp_state := {
  cpu_online_mask : list bool;   (* bit [cpu] of the online mask *)
  asmp_param : asmp_param_struct;
  cycle : Z;
  enabled : bool;
  asmp_work_pending : bool;      (* asmp_work is queued on asmp_workq *)
  cpu_all_up_pending : bool;     (* cpu_all_up_work is queued *)
  calls : list call              (* oldest first *)
}.

Definition set_mask (m : list bool) (s : asmp_state) : asmp_state :=
  {| cpu_online_mask := m; asmp_param := asmp_param s; cycle := cycle s;
     enabled := enabled s; asmp_work_pending := asmp_work_pending s;
     cpu_all_up_pending := cpu_all_up_pending s; calls := calls s |}.

Definition set_cycle (c : Z) (s : asmp_state) : asmp_state :=
  {| cpu_online_mask := cpu_online_mask s; asmp_param := asmp_param s;
     cycle := c; enabled := enabled s;
     asmp_work_pending := asmp_work_pending s;
     cpu_all_up_pending := cpu_all_up_pending s; calls := calls s |}.

Definition set_work_pending (b : bool) (s : asmp_state) : asmp_state :=
  {| cpu_online_mask := cpu_online_mask s; asmp_param := asmp_param s;
     cycle := cycle s; enabled := enabled s; asmp_work_pending := b;
     cpu_all_up_pending := cpu_all_up_pending s; calls := calls s |}.

Definition set_all_up_pending (b : bool) (s : asmp_state) : asmp_state :=
  {| cpu_online_mask := cpu_online_mask s; asmp_param := asmp_param s;
     cycle := cycle s; enabled := enabled s;
     asmp_work_pending := asmp_work_pending s;
     cpu_all_up_pending := b; calls := calls s |}.

Definition log_call (c : call) (s : asmp_state) : asmp_state :=
  {| cpu_online_mask := cpu_online_mask s; asmp_param := asmp_param s;
     cycle := cycle s; enabled := enabled s;
     asmp_work_pending := asmp_work_pending s;
     cpu_all_up_pending := cpu_all_up_pending s; calls := calls s ++ [c] |}.

(** ** The kernel services the driver uses

    The hotplug core, the cpumask helpers and the workqueue are not part of
    the driver's file; they are modelled by what the driver relies on. *)

(** Modelled from the spec: [nr_cpu_ids] and [for_each_possible_cpu] of
    linux/cpumask.h; the possible cores are [0 .. nr_cpu_ids - 1], visited in
    increasing order, and the online mask has one bit per possible core. *)
Definition nr_cpu_ids (s : asmp_state) : nat := length (cpu_online_mask s).

Definition for_each_possible_cpu (s : asmp_state) : list nat :=
  seq 0 (nr_cpu_ids s).

(** Modelled from the spec: [cpu_online] of linux/cpumask.h (the lifecycle
    controller's [is_online]); a bit beyond the mask reads as offline. *)
Definition cpu_online (cpu : nat) (s : asmp_state) : bool :=
  match cpu_online_mask s !! cpu with
  | Some b => b
  | None => false
  end.

(** Modelled from the spec: [for_each_online_cpu] of linux/cpumask.h (the
    lifecycle controller's [enumerate_online_cores]), in increasing order. *)
Definition for_each_online_cpu (s : asmp_state) : list nat :=
  List.filter (fun cpu => cpu_online cpu s) (for_each_possible_cpu s).

(** Modelled from the spec: [cpu_up] of linux/cpu.h (the lifecycle
    controller's [online]); the request is synchronous, brings a possible
    core online and changes nothing for a core that is not possible. *)
Definition cpu_up (site : call_site) (cpu : nat) (s : asmp_state) : asmp_state :=
  set_mask (<[cpu := true]> (cpu_online_mask s)) (log_call (CpuUp site cpu) s).

(** Modelled from the spec: [cpu_down] of linux/cpu.h (the lifecycle
    controller's [offline]); the request is synchronous and takes an online
    core offline. *)
Definition cpu_down (site : call_site) (cpu : nat) (s : asmp_state) : asmp_state :=
  set_mask (<[cpu := false]> (cpu_online_mask s)) (log_call (CpuDown site cpu) s).

(** Modelled from the spec: [cpumask_next_zero(n, cpu_online_mask)] of
    linux/cpumask.h: the first core number after [n] whose bit is clear.
    The kernel's mask has [NR_CPUS] bits, and the bit of a core number that
    is not possible is never set: when every possible core after [n] is
    online, the first clear bit is that of the first core number after [n]
    that is not possible, [nr_cpu_ids] or [n + 1] if that is larger.  The
    search is taken not to start beyond the end of the mask ([NR_CPUS] is at
    least 4, the driver searching after core 0 and after core 3). *)
Definition cpumask_next_zero (n : nat) (s : asmp_state) : nat :=
  match List.find (fun cpu => negb (cpu_online cpu s))
                  (seq (S n) (nr_cpu_ids s - S n)) with
  | Some cpu => cpu
  | None => Nat.max (S n) (nr_cpu_ids s)
  end.

(** Modelled from the spec: [queue_delayed_work(asmp_workq, &asmp_work, ..)]
    of linux/workqueue.h: the tick becomes pending. *)
Definition queue_delayed_work (msecs : Z) (s : asmp_state) : asmp_state :=
  set_work_pending true (log_call (QueueDelayedWork msecs) s).

(** Modelled from the spec: [cancel_delayed_work_sync(&asmp_work)]: on
    return the tick is neither pending nor running. *)
Definition cancel_delayed_work_sync (s : asmp_state) : asmp_state :=
  set_work_pending false (log_call CancelDelayedWorkSync s).

(** Modelled from the spec: [schedule_work(&cpu_all_up_work)]: the
    bring-everything-online task is queued and the caller goes on. *)
Definition schedule_work (s : asmp_state) : asmp_state :=
  set_all_up_pending true (log_call ScheduleWork s).

(** ** The driver *)

(** The three arrays that [asmp_work_fn] keeps on its stack, indexed by
    cluster. *)
Record rate_limits := {
  max_rate : list Z;
  up_rate : list Z;
  down_rate : list Z
}.

(** What one sampling loop of [asmp_work_fn] leaves in its local variables
    ([slow_cpu], [slow_rate], [fast_rate], or their [_hmp] twins). *)
Record sample := {
  slow_cpu : nat;
  slow_rate : Z;
  fast_rate : Z
}.

(** The platform as one tick sees it: the cluster of each core, the current
    and the maximal frequency of each core as cpufreq reports them, and
    whatever the stack holds, word by word, where the three limit arrays are
    allocated. *)
Record platform := {
  topology_physical_package_id : nat -> Z;
  cpufreq_quick_get : nat -> Z;
  cpufreq_quick_get_max : nat -> Z;
  stack_garbage : nat -> Z
}.

Section Driver.

Variable pf : platform.

Definition num_online_cluster_cpus (cluster : Z) (s : asmp_state) : nat :=
  fold_left
    (fun cnt cpu =>
       if topology_physical_package_id pf cpu =? cluster then S cnt else cnt)
    (for_each_online_cpu s) 0%nat.

Fixpoint get_offline_core_from (cluster : Z) (s : asmp_state)
         (cpus : list nat) : nat :=
  match cpus with
  | [] => 0%nat
  | cpu :: rest =>
      if negb (topology_physical_package_id pf cpu =? cluster)
      then get_offline_core_from cluster s rest
      else if negb (cpu_online cpu s) then cpu
      else get_offline_core_from cluster s rest
  end.

Definition get_offline_core (cluster : Z) (s : asmp_state) : nat :=
  get_offline_core_from cluster s (for_each_possible_cpu s).

Fixpoint get_online_core_from (cluster : Z) (s : asmp_state)
         (cpus : list nat) : nat :=
  match cpus with
  | [] => 0%nat
  | cpu :: rest =>
      if (cpu =? 0)%nat then get_online_core_from cluster s rest
      else if negb (topology_physical_package_id pf cpu =? cluster)
      then get_online_core_from cluster s rest
      else if cpu_online cpu s then cpu
      else get_online_core_from cluster s rest
  end.

Definition get_online_core (cluster : Z) (s : asmp_state) : nat :=
  get_online_core_from cluster s (for_each_possible_cpu s).

Definition reschedule_asmp_workq (s : asmp_state) : asmp_state :=
  queue_delayed_work DELAY_CHECK s.

(** *** asmp_work_fn: maximum frequency and up/down limits *)

Definition limits_step (p : asmp_param_struct)
           (acc : Z * rate_limits) (cpu : nat) : Z * rate_limits :=
  let '(prev_cluster, lim) := acc in
  let cur_cluster := topology_physical_package_id pf cpu in
  if cur_cluster =? prev_cluster then acc
  else if cur_cluster =? CLUSTER_LITTLE then
    let m := cpufreq_quick_get_max pf cpu in
    (cur_cluster,
     {| max_rate := <[0%nat := m]> (max_rate lim);
        up_rate := <[0%nat := u32 (cpufreq_up p * m) / 100]> (up_rate lim);
        down_rate :=
          <[0%nat := u32 (cpufreq_down p * m) / 100]> (down_rate lim) |})
  else if cur_cluster =? CLUSTER_BIG then
    let m := cpufreq_quick_get_max pf cpu in
    (cur_cluster,
     {| max_rate := <[1%nat := m]> (max_rate lim);
        up_rate := <[1%nat := u32 (cpufreq_up_hmp p * m) / 100]> (up_rate lim);
        down_rate :=
          <[1%nat := u32 (cpufreq_down_hmp p * m) / 100]> (down_rate lim) |})
  else (cur_cluster, lim).

(** The arrays have [MAX_CLUSTERS] cells each and are not initialised. *)
Definition uninitialized_limits : rate_limits :=
  {| max_rate := [stack_garbage pf 0; stack_garbage pf 1];
     up_rate := [stack_garbage pf 2; stack_garbage pf 3];
     down_rate := [stack_garbage pf 4; stack_garbage pf 5] |}.

Definition compute_limits (s : asmp_state) : rate_limits :=
  snd (fold_left (limits_step (asmp_param s)) (for_each_possible_cpu s)
                 (-1, uninitialized_limits)).

Definition up_rate_of (lim : rate_limits) (cluster : nat) : Z :=
  up_rate lim !!! cluster.
Definition down_rate_of (lim : rate_limits) (cluster : nat) : Z :=
  down_rate lim !!! cluster.

(** *** asmp_work_fn: the sampling loop

    The loop is written twice in the source, once for each cluster, with
    different local variables; the two copies differ in the cluster, in the
    initial value of the slowest core (0, or 4 for the [_hmp] copy) and in
    the rate that [fast_rate] starts from. *)

Definition sample_step (cluster : Z) (acc : sample) (cpu : nat) : sample :=
  if negb (topology_physical_package_id pf cpu =? cluster) then acc
  else if (cpu =? 0)%nat then acc
  else
    let rate := cpufreq_quick_get pf cpu in
    if rate <=? slow_rate acc then
      {| slow_cpu := cpu; slow_rate := rate; fast_rate := fast_rate acc |}
    else if rate >? fast_rate acc then
      {| slow_cpu := slow_cpu acc; slow_rate := slow_rate acc;
         fast_rate := rate |}
    else acc.

Definition sample_loop (cluster : Z) (slow_cpu0 : nat) (first_rate : Z)
           (s : asmp_state) : sample :=
  fold_left (sample_step cluster) (for_each_online_cpu s)
            {| slow_cpu := slow_cpu0; slow_rate := UINT_MAX;
               fast_rate := first_rate |}.

Definition sample_cluster (cluster : Z) (slow_cpu0 : nat) (first_rate : Z)
           (s : asmp_state) : sample :=
  let acc := sample_loop cluster slow_cpu0 first_rate s in
  if first_rate <? slow_rate acc then
    {| slow_cpu := slow_cpu acc; slow_rate := first_rate;
       fast_rate := fast_rate acc |}
  else acc.

Definition sample_little (s : asmp_state) : sample :=
  sample_cluster CLUSTER_LITTLE 0 (cpufreq_quick_get pf 0) s.

Definition sample_big (s : asmp_state) : sample :=
  sample_cluster CLUSTER_BIG 4
                 (cpufreq_quick_get pf (get_online_core CLUSTER_BIG s)) s.

(** *** asmp_work_fn: the decision on the efficiency cluster *)

Definition little_engine (lim : rate_limits) (s : asmp_state) : asmp_state :=
  let nr_cpu_online := num_online_cluster_cpus CLUSTER_LITTLE s in
  let smp := sample_little s in
  if slow_rate smp >? up_rate_of lim 0 then
    if (Z.of_nat nr_cpu_online <? MAX_CPU_PER_CLUSTERS)
       && (cycle s >=? cycle_up (asmp_param s)) then
      let cpu := cpumask_next_zero 0 s in
      set_cycle 0 (if negb (cpu_online cpu s)
                   then cpu_up little_up cpu s else s)
    else s
  else if negb (slow_cpu smp =? 0)%nat
          && (fast_rate smp <? down_rate_of lim 0) then
    if (Z.of_nat nr_cpu_online >? min_cpus (asmp_param s))
       && (cycle s >=? cycle_down (asmp_param s)) then
      set_cycle 0 (if cpu_online (slow_cpu smp) s
                      && negb (slow_cpu smp =? 0)%nat
                   then cpu_down little_down (slow_cpu smp) s else s)
    else s
  else s.

(** *** asmp_work_fn: the HMP handler *)

(** [while (nr_cpu_online > 2) { cpu_down(get_online_core(CLUSTER_LITTLE));
    nr_cpu_online--; }] *)
Fixpoint hmp_trade_down (nr_cpu_online : nat) (s : asmp_state) : asmp_state :=
  match nr_cpu_online with
  | O => s
  | S n =>
      if (2 <? nr_cpu_online)%nat
      then hmp_trade_down n
             (cpu_down hmp_down (get_online_core CLUSTER_LITTLE s) s)
      else s
  end.

Definition hmp_trade (nr_cpu_online : nat) (s : asmp_state) : asmp_state :=
  if Z.of_nat nr_cpu_online >=? MAX_CPU_PER_CLUSTERS then
    hmp_trade_down nr_cpu_online
      (cpu_up hmp_up (get_offline_core CLUSTER_BIG s) s)
  else s.

Definition big_engine (lim : rate_limits) (nr_cpu_online_hmp : nat)
           (s : asmp_state) : asmp_state :=
  let smp := sample_big s in
  if slow_rate smp >? up_rate_of lim 1 then
    if (Z.of_nat nr_cpu_online_hmp <? MAX_CPU_PER_CLUSTERS)
       && (cycle s >=? cycle_up (asmp_param s)) then
      let cpu := cpumask_next_zero 3 s in
      set_cycle 0 (if negb (cpu_online cpu s)
                   then cpu_up big_up cpu s else s)
    else s
  else if negb (slow_cpu smp =? 0)%nat
          && (fast_rate smp <? down_rate_of lim 1) then
    if (Z.of_nat nr_cpu_online_hmp >? min_cpus_hmp (asmp_param s))
       && (cycle s >=? u32 (cycle_down (asmp_param s) * 3)) then
      set_cycle 0 (if cpu_online (slow_cpu smp) s
                   then cpu_down big_down (slow_cpu smp) s else s)
    else s
  else s.

Definition hmp_handler (lim : rate_limits) (s : asmp_state) : asmp_state :=
  let nr_cpu_online := num_online_cluster_cpus CLUSTER_LITTLE s in
  let nr_cpu_online_hmp := num_online_cluster_cpus CLUSTER_BIG s in
  if (nr_cpu_online_hmp =? 0)%nat
  then hmp_trade nr_cpu_online s
  else big_engine lim nr_cpu_online_hmp s.

(** *** asmp_work_fn *)

Definition asmp_work_fn (s : asmp_state) : asmp_state :=
  let s := set_cycle (u32 (cycle s + 1)) s in
  let lim := compute_limits s in
  let s := little_engine lim s in
  let s := hmp_handler lim s in
  reschedule_asmp_workq s.

(** Modelled from the spec: the workqueue runs [asmp_work_fn] when its
    delay expires, and only if the work is pending at that time. *)
Definition timer_fires (s : asmp_state) : asmp_state :=
  if asmp_work_pending s
  then asmp_work_fn (set_work_pending false s)
  else s.

End Driver.

(** ** Suspend, resume and the display notifier *)

(** [for_each_possible_cpu(cpu) { if (cpu_online(cpu)) continue; cpu_up(cpu); }] *)
Definition cpu_all_up (s : asmp_state) : asmp_state :=
  fold_left (fun s cpu => if cpu_online cpu s then s else cpu_up all_up cpu s)
            (for_each_possible_cpu s) s.

(** [for (cpu = nr_cpu_ids; cpu > -1; cpu--)] with its body; the argument is
    the current value of [cpu]. *)
Fixpoint asmp_suspend_loop (cpu : nat) (s : asmp_state) : asmp_state :=
  let s' := if negb (cpu_online cpu s) || (cpu =? 0)%nat then s
            else cpu_down suspend_down cpu s in
  match cpu with
  | O => s'
  | S prev => asmp_suspend_loop prev s'
  end.

Definition asmp_suspend (s : asmp_state) : asmp_state :=
  let s := asmp_suspend_loop (nr_cpu_ids s) s in
  if enabled s then cancel_delayed_work_sync s else s.

Definition asmp_resume (s : asmp_state) : asmp_state :=
  let s := schedule_work s in
  if enabled s then reschedule_asmp_workq s else s.

(** Modelled from the spec: the display events of linux/lcd_notify.h. *)
Inductive lcd_event :=
| LCD_EVENT_ON_START
| LCD_EVENT_ON_END
| LCD_EVENT_OFF_START
| LCD_EVENT_OFF_END.

Definition lcd_notifier_call (event : lcd_event) (s : asmp_state) : asmp_state :=
  match event with
  | LCD_EVENT_ON_START => asmp_resume s
  | LCD_EVENT_OFF_END => asmp_suspend s
  | _ => s
  end.

(** ** Runs and observations *)

(** Consecutive ticks; each one reads the platform as it is at that time. *)
Fixpoint run_ticks (pfs : list platform) (s : asmp_state) : asmp_state :=
  match pfs with
  | [] => s
  | pf :: rest => run_ticks rest (asmp_work_fn pf s)
  end.

(** The calls that a step added to the log. *)
Definition new_calls (before after : asmp_state) : list call :=
  drop (length (calls before)) (calls after).

Definition is_cpu_down_of (cpu : nat) (c : call) : bool :=
  match c with
  | CpuDown _ cpu' => (cpu' =? cpu)%nat
  | _ => false
  end.

Definition site_of (c : call) : option call_site :=
  match c with
  | CpuUp site _ => Some site
  | CpuDown site _ => Some site
  | _ => None
  end.

Definition call_site_eqb (a b : call_site) : bool :=
  match a, b with
  | little_up, little_up | little_down, little_down
  | hmp_up, hmp_up | hmp_down, hmp_down
  | big_up, big_up | big_down, big_down
  | all_up, all_up | suspend_down, suspend_down => true
  | _, _ => false
  end.

Definition from_site (site : call_site) (c : call) : bool :=
  match site_of c with
  | Some site' => call_site_eqb site' site
  | None => false
  end.

(** The requests issued by the decision engine, on either cluster. *)
Definition is_engine_call (c : call) : bool :=
  from_site little_up c || from_site little_down c
  || from_site big_up c || from_site big_down c.

(** The requests issued by the decision on the efficiency cluster. *)
Definition is_little_call (c : call) : bool :=
  from_site little_up c || from_site little_down c.

(** The requests of the HMP trade. *)
Definition is_trade_call (c : call) : bool :=
  from_site hmp_up c || from_site hmp_down c.

(** The online cores of a cluster, as a count and as a list. *)
Definition online_in (pf : platform) (cluster : Z) (s : asmp_state) : list nat :=
  List.filter (fun cpu => topology_physical_package_id pf cpu =? cluster)
              (for_each_online_cpu s).

(** Membership test behind [online_in]. *)
Definition in_cluster_online (pf : platform) (cluster : Z) (s : asmp_state)
           (cpu : nat) : bool :=
  cpu_online cpu s && (topology_physical_package_id pf cpu =? cluster).

(** [adds P s s']: going from [s] to [s'] only appended calls to the log,
    and every appended call satisfies [P]. *)
Definition adds (P : call -> Prop) (s s' : asmp_state) : Prop :=
  exists l, calls s' = calls s ++ l /\ Forall P l.

Definition not_down_of_anchor (c : call) : Prop := is_cpu_down_of 0 c = false.

(** The stages of one tick: the state that the efficiency decision reads
    (after [cycle++]), the limits of the tick, and the state that the HMP
    handler reads. *)
Definition tick_start (s : asmp_state) : asmp_state :=
  set_cycle (u32 (cycle s + 1)) s.

Definition tick_limits (pf : platform) (s : asmp_state) : rate_limits :=
  compute_limits pf (tick_start s).

Definition tick_middle (pf : platform) (s : asmp_state) : asmp_state :=
  little_engine pf (tick_limits pf s) (tick_start s).

(** The cores a sampling loop reads a rate for, in sampling order: the
    online cores of the cluster other than core 0. *)
Definition sampled_cores (pf : platform) (cluster : Z) (s : asmp_state)
  : list nat :=
  List.filter
    (fun cpu => (topology_physical_package_id pf cpu =? cluster)
                && negb (cpu =? 0)%nat)
    (for_each_online_cpu s).

(** [c] is a slowest core of [cores], and the last such in the order of the
    list (respectively the first). *)
Definition slowest_last (pf : platform) (cores : list nat) (c : nat) : Prop :=
  exists before after,
    cores = before ++ c :: after
    /\ Forall (fun x => cpufreq_quick_get pf c <= cpufreq_quick_get pf x) before
    /\ Forall (fun x => cpufreq_quick_get pf c < cpufreq_quick_get pf x) after.

Definition slowest_first (pf : platform) (cores : list nat) (c : nat) : Prop :=
  exists before after,
    cores = before ++ c :: after
    /\ Forall (fun x => cpufreq_quick_get pf c < cpufreq_quick_get pf x) before
    /\ Forall (fun x => cpufreq_quick_get pf c <= cpufreq_quick_get pf x) after.

(** The extreme rates over the online cores of a cluster. *)
Definition max_online_rate (pf : platform) (cluster : Z) (s : asmp_state) : Z :=
  fold_right Z.max 0 (map (cpufreq_quick_get pf) (online_in pf cluster s)).

Definition min_online_rate (pf : platform) (cluster : Z) (s : asmp_state) : Z :=
  fold_right Z.min UINT_MAX (map (cpufreq_quick_get pf) (online_in pf cluster s)).

(** A request of the decision engine was issued with the hysteresis counter
    at least at the threshold of its kind. *)
Definition respects_thresholds (p : asmp_param_struct) (counter : Z)
           (c : call) : Prop :=
  (from_site little_up c = true \/ from_site big_up c = true ->
   cycle_up p <= counter)
  /\ (from_site little_down c = true -> cycle_down p <= counter)
  /\ (from_site big_down c = true -> u32 (cycle_down p * 3) <= counter).

(** The cores that [asmp_suspend] takes offline, in the order of its
    requests: the online cores other than core 0, highest identifier first. *)
Definition suspend_order (s : asmp_state) : list nat :=
  rev (List.filter (fun cpu => negb (cpu =? 0)%nat) (for_each_online_cpu s)).

(** ** A concrete platform: four efficiency cores 0-3, four performance
    cores 4-7 *)

Definition topology8 (cpu : nat) : Z :=
  if (cpu <? 4)%nat then CLUSTER_LITTLE else CLUSTER_BIG.

Definition max_freq8 (cpu : nat) : Z :=
  if (cpu <? 4)%nat then 1555200 else 1958400.

Definition platform8 (freqs : list Z) : platform :=
  {| topology_physical_package_id := topology8;
     cpufreq_quick_get := fun cpu => nth cpu freqs 0;
     cpufreq_quick_get_max := max_freq8;
     stack_garbage := fun _ => 0 |}.

Definition state8 (mask : list bool) (p : asmp_param_struct) (cyc : Z)
  : asmp_state :=
  {| cpu_online_mask := mask; asmp_param := p; cycle := cyc;
     enabled := true; asmp_work_pending := true;
     cpu_all_up_pending := false; calls := [] |}.

Definition with_cycle_down (v : Z) (p : asmp_param_struct) : asmp_param_struct :=
  {| delay := delay p; max_cpus := max_cpus p; min_cpus := min_cpus p;
     min_cpus_hmp := min_cpus_hmp p; cpufreq_up := cpufreq_up p;
     cpufreq_down := cpufreq_down p; cpufreq_up_hmp := cpufreq_up_hmp p;
     cpufreq_down_hmp := cpufreq_down_hmp p; cycle_up := cycle_up p;
     cycle_down := v |}.

Definition with_min_cpus (v : Z) (p : asmp_param_struct) : asmp_param_struct :=
  {| delay := delay p; max_cpus := max_cpus p; min_cpus := v;
     min_cpus_hmp := min_cpus_hmp p; cpufreq_up := cpufreq_up p;
     cpufreq_down := cpufreq_down p; cpufreq_up_hmp := cpufreq_up_hmp p;
     cpufreq_down_hmp := cpufreq_down_hmp p; cycle_up := cycle_up p;
     cycle_down := cycle_down p |}.

(** Concrete inputs: the default parameters on eight cores; the four
    efficiency cores online and no performance core; the same with core 0
    reported offline. *)
Definition param8 : asmp_param_struct := asmp_param_default 8.

Definition little4_state : asmp_state :=
  state8 [true; true; true; true; false; false; false; false] param8 5.

Definition anchor_off_state : asmp_state :=
  state8 [false; true; true; true; false; false; false; false] param8 5.

(** Concrete inputs: rates exactly at the efficiency up limit (60% of
    1555200) on two online cores; a down-cycle count whose product with 3
    does not fit in 32 bits, with two performance cores idle; a moderately
    loaded efficiency cluster. *)
Definition at_up_rate_platform : platform := platform8 [933120; 933120].

Definition little2_state : asmp_state :=
  state8 [true; true; false; false; false; false; false; false] param8 5.

Definition wrapping_state : asmp_state :=
  state8 [true; true; false; false; true; true; false; false]
         (with_cycle_down 1431655766 param8) 1.

Definition moderate_platform : platform :=
  platform8 [700000; 700000; 700000; 700000].

(** Concrete inputs: a counter that has just been reset, and a configuration
    that asks for three efficiency cores at least. *)
Definition reset_state : asmp_state :=
  state8 [true; true; false; false; false; false; false; false] param8 0.

Definition min3_state : asmp_state :=
  state8 [true; true; true; true; false; false; false; false]
         (with_min_cpus 3 param8) 5.

(** Concrete input: the display goes off with cores 0, 1, 3, 4 and 5
    online. *)
Definition screen_on_state : asmp_state :=
  state8 [true; true; false; true; true; true; false; false] param8 1.

(** Concrete inputs: cores 0, 1 and 2 online with cores 1 and 2 at the same
    rate; core 0 slow and core 1 at the maximal rate. *)
Definition tie_platform : platform := platform8 [100; 300; 300].

Definition little3_state : asmp_state :=
  state8 [true; true; true; false; false; false; false; false] param8 5.

Definition uneven_platform : platform := platform8 [384000; 1555200].

(** ** The rest of the driver: the enabled parameter, sysfs, start-up *)

Definition EINVAL : Z := 22.
Definition ENOMEM : Z := 12.

Definition set_enabled_flag (b : bool) (s : asmp_state) : asmp_state :=
  {| cpu_online_mask := cpu_online_mask s; asmp_param := asmp_param s;
     cycle := cycle s; enabled := b;
     asmp_work_pending := asmp_work_pending s;
     cpu_all_up_pending := cpu_all_up_pending s; calls := calls s |}.

Definition set_asmp_param (p : asmp_param_struct) (s : asmp_state) : asmp_state :=
  {| cpu_online_mask := cpu_online_mask s; asmp_param := p;
     cycle := cycle s; enabled := enabled s;
     asmp_work_pending := asmp_work_pending s;
     cpu_all_up_pending := cpu_all_up_pending s; calls := calls s |}.

(** Modelled from the spec: [param_set_bool] of linux/moduleparam.h.
    [parsed] is what it makes of the text written to the parameter: a
    boolean, which it stores in [enabled] and returns 0, or nothing, and then
    it returns [-EINVAL] and leaves [enabled] alone. *)
Definition param_set_bool (parsed : option bool) (s : asmp_state)
  : Z * asmp_state :=
  match parsed with
  | Some b => (0, set_enabled_flag b s)
  | None => (- EINVAL, s)
  end.

Definition set_enabled (parsed : option bool) (s : asmp_state)
  : Z * asmp_state :=
  let '(ret, s) := param_set_bool parsed s in
  if enabled s then (ret, reschedule_asmp_workq s)
  else (ret, schedule_work (cancel_delayed_work_sync s)).

(** Modelled from the spec: the system workqueue runs [cpu_all_up] when
    [cpu_all_up_work] is pending. *)
Definition cpu_all_up_work_runs (s : asmp_state) : asmp_state :=
  if cpu_all_up_pending s
  then cpu_all_up (set_all_up_pending false s)
  else s.

(** The nine attributes of the [conf] group. *)
Inductive asmp_attr :=
| attr_max_cpus
| attr_min_cpus
| attr_min_cpus_hmp
| attr_cpufreq_up
| attr_cpufreq_down
| attr_cpufreq_up_hmp
| attr_cpufreq_down_hmp
| attr_cycle_up
| attr_cycle_down.

(** [asmp_param.object] read, and [asmp_param.object = input], for the
    object that the attribute names. *)
Definition param_of (a : asmp_attr) (p : asmp_param_struct) : Z :=
  match a with
  | attr_max_cpus => max_cpus p
  | attr_min_cpus => min_cpus p
  | attr_min_cpus_hmp => min_cpus_hmp p
  | attr_cpufreq_up => cpufreq_up p
  | attr_cpufreq_down => cpufreq_down p
  | attr_cpufreq_up_hmp => cpufreq_up_hmp p
  | attr_cpufreq_down_hmp => cpufreq_down_hmp p
  | attr_cycle_up => cycle_up p
  | attr_cycle_down => cycle_down p
  end.

Definition assign_param (a : asmp_attr) (input : Z) (p : asmp_param_struct)
  : asmp_param_struct :=
  {| delay := delay p;
     max_cpus := match a with attr_max_cpus => input | _ => max_cpus p end;
     min_cpus := match a with attr_min_cpus => input | _ => min_cpus p end;
     min_cpus_hmp :=
       match a with attr_min_cpus_hmp => input | _ => min_cpus_hmp p end;
     cpufreq_up :=
       match a with attr_cpufreq_up => input | _ => cpufreq_up p end;
     cpufreq_down :=
       match a with attr_cpufreq_down => input | _ => cpufreq_down p end;
     cpufreq_up_hmp :=
       match a with attr_cpufreq_up_hmp => input | _ => cpufreq_up_hmp p end;
     cpufreq_down_hmp :=
       match a with
       | attr_cpufreq_down_hmp => input
       | _ => cpufreq_down_hmp p
       end;
     cycle_up := match a with attr_cycle_up => input | _ => cycle_up p end;
     cycle_down :=
       match a with attr_cycle_down => input | _ => cycle_down p end |}.

(** [store_one]: [scanned] is the [unsigned int] that [sscanf(buf, "%u",
    &input)] read, if it read one; the result is the return value of the
    store function. *)
Definition store_one (a : asmp_attr) (scanned : option Z) (count : Z)
           (s : asmp_state) : Z * asmp_state :=
  match scanned with
  | None => (- EINVAL, s)
  | Some input => (count, set_asmp_param (assign_param a input (asmp_param s)) s)
  end.

(** [asmp_init]; [workq_allocated] tells whether [alloc_workqueue]
    succeeded.  Registering the notifier and creating the sysfs groups only
    print warnings when they fail. *)
Definition asmp_init (workq_allocated : bool) (s : asmp_state)
  : Z * asmp_state :=
  let s := set_asmp_param
             (assign_param attr_max_cpus (Z.of_nat (nr_cpu_ids s))
                           (asmp_param s)) s in
  if negb workq_allocated then (- ENOMEM, s)
  else (0, if enabled s then queue_delayed_work ASMP_STARTDELAY s else s).

(** What can happen to the driver once it is initialised: the timer of the
    tick expires, the display notifier is called, the enabled parameter or a
    sysfs attribute is written, the worker of [cpu_all_up_work] runs. *)
Inductive driver_event :=
| TimerExpires (pf : platform)
| DisplayEvent (event : lcd_event)
| EnabledWritten (parsed : option bool)
| AttrWritten (a : asmp_attr) (scanned : option Z) (count : Z)
| AllUpWorkRuns.

Definition driver_step (e : driver_event) (s : asmp_state) : asmp_state :=
  match e with
  | TimerExpires pf => timer_fires pf s
  | DisplayEvent event => lcd_notifier_call event s
  | EnabledWritten parsed => snd (set_enabled parsed s)
  | AttrWritten a scanned count => snd (store_one a scanned count s)
  | AllUpWorkRuns => cpu_all_up_work_runs s
  end.

Fixpoint driver_run (es : list driver_event) (s : asmp_state) : asmp_state :=
  match es with
  | [] => s
  | e :: rest => driver_run rest (driver_step e s)
  end.

(** The events whose handlers queue the tick: the display-on event
    ([asmp_resume]) and a write to the enabled parameter ([set_enabled]). *)
Definition queues_tick (e : driver_event) : bool :=
  match e with
  | DisplayEvent LCD_EVENT_ON_START => true
  | EnabledWritten _ => true
  | _ => false
  end.

(** While the driver is disabled the tick is not queued. *)
Definition tick_gated (s : asmp_state) : Prop :=
  enabled s = false -> asmp_work_pending s = false.

(** The efficiency cluster is made of cores 0 to 3 and the performance
    cluster of the cores from 4 on, as [asmp_work_fn] takes for granted when
    it searches the online mask after core 0 and after core 3. *)
Definition clusters_split_at_4 (pf : platform) : Prop :=
  forall cpu,
    (topology_physical_package_id pf cpu = CLUSTER_LITTLE <-> (cpu < 4)%nat)
    /\ (topology_physical_package_id pf cpu = CLUSTER_BIG <-> (4 <= cpu)%nat).

(** Every possible core is online. *)
Definition all_online (s : asmp_state) : Prop :=
  forall cpu, (cpu < nr_cpu_ids s)%nat -> cpu_online cpu s = true.

(** Concrete inputs: a platform with the four efficiency cores only, and one
    with four efficiency and two performance cores, all online. *)
Definition four_core_state : asmp_state :=
  state8 [true; true; true; true] param8 5.

Definition six_core_state : asmp_state :=
  state8 [true; true; true; true; true; true] param8 5.

Definition busy_big_platform : platform :=
  platform8 [700000; 700000; 700000; 700000; 1958400; 1958400].

(** Two states agree on everything but the online mask, the counter and the
    log. *)
Definition same_setup (s s' : asmp_state) : Prop :=
  asmp_param s' = asmp_param s /\ enabled s' = enabled s
  /\ nr_cpu_ids s' = nr_cpu_ids s
  /\ cpu_all_up_pending s' = cpu_all_up_pending s
  /\ asmp_work_pending s' = asmp_work_pending s.

(** Concrete inputs: a loaded efficiency cluster with three cores online; a
    loaded performance cluster; idle clusters. *)
Definition loaded_platform : platform :=
  platform8 [1555200; 1555200; 1555200; 0; 1958400; 1958400].

Definition idle_platform : platform := platform8 [0; 0; 0; 0; 0; 0].

Definition little3_big2_state : asmp_state :=
  state8 [true; true; true; false; true; true; false; false] param8 5.

(** Concrete inputs: a platform of two cores, core 0 in the efficiency
    cluster and core 1, loaded, in the performance cluster, both online. *)
Definition two_core_platform : platform :=
  {| topology_physical_package_id :=
       fun cpu => if (cpu =? 0)%nat then CLUSTER_LITTLE else CLUSTER_BIG;
     cpufreq_quick_get := fun cpu => nth cpu [300000; 1958400] 0;
     cpufreq_quick_get_max :=
       fun cpu => if (cpu =? 0)%nat then 1555200 else 1958400;
     stack_garbage := fun _ => 0 |}.

Definition two_core_state : asmp_state := state8 [true; true] param8 5.

(** * Properties *)

(** ** Small list facts *)

Lemma filter_length_ext (p q : nat -> bool) (l : list nat) :
  (forall c, In c l -> p c = q c) ->
  List.filter p l = List.filter q l.
Proof.
  induction l as [|a l IH]; intros H; simpl; [reflexivity|].
  rewrite (H a) by (left; reflexivity).
  rewrite IH by (intros c Hc; apply H; right; exact Hc).
  reflexivity.
Qed.

Lemma filter_none (p : nat -> bool) (l : list nat) :
  (forall c, In c l -> p c = false) -> List.filter p l = [].
Proof.
  induction l as [|a l IH]; intros H; simpl; [reflexivity|].
  rewrite (H a) by (left; reflexivity).
  apply IH. intros c Hc. apply H. right. exact Hc.
Qed.

Lemma filter_length_drop_one (p q : nat -> bool) (d : nat) (l : list nat) :
  List.NoDup l -> In d l ->
  (forall c, c <> d -> p c = q c) -> p d = true -> q d = false ->
  length (List.filter p l) = S (length (List.filter q l)).
Proof.
  intros Hnd Hin Hext Hp Hq.
  induction l as [|a l IH]; [destruct Hin|].
  inversion Hnd as [|? ? Hna Hnd']; subst.
  destruct (Nat.eq_dec a d) as [->|Hne].
  - simpl. rewrite Hp, Hq. simpl. f_equal. f_equal.
    apply filter_length_ext. intros c Hc. apply Hext.
    intros ->. contradiction.
  - destruct Hin as [->|Hin]; [congruence|].
    simpl. rewrite (Hext a Hne). destruct (q a); simpl; rewrite IH; auto.
Qed.

Lemma filter_length_le_one (p : nat -> bool) (d : nat) (l : list nat) :
  List.NoDup l -> (forall c, In c l -> p c = true -> c = d) ->
  (length (List.filter p l) <= 1)%nat.
Proof.
  intros Hnd H.
  induction l as [|a l IH]; simpl; [lia|].
  inversion Hnd as [|? ? Hna Hnd']; subst.
  destruct (p a) eqn:Hpa.
  - assert (a = d) by (apply H; [left; reflexivity|exact Hpa]). subst a.
    assert (List.filter p l = []) as ->; [|simpl; lia].
    apply filter_none. intros c Hc. destruct (p c) eqn:Hpc; [|reflexivity].
    assert (c = d) by (apply H; [right; exact Hc|exact Hpc]).
    subst c. contradiction.
  - apply IH; [exact Hnd'|]. intros c Hc. apply H. right. exact Hc.
Qed.

(** ** The hotplug model *)

Lemma nr_cpu_ids_cpu_up site cpu s : nr_cpu_ids (cpu_up site cpu s) = nr_cpu_ids s.
Proof. unfold nr_cpu_ids, cpu_up. simpl. apply length_insert. Qed.

Lemma nr_cpu_ids_cpu_down site cpu s :
  nr_cpu_ids (cpu_down site cpu s) = nr_cpu_ids s.
Proof. unfold nr_cpu_ids, cpu_down. simpl. apply length_insert. Qed.

Lemma cpu_online_lt cpu s : cpu_online cpu s = true -> (cpu < nr_cpu_ids s)%nat.
Proof.
  unfold cpu_online, nr_cpu_ids.
  destruct (cpu_online_mask s !! cpu) eqn:E; [|discriminate].
  intros _. eapply lookup_lt_Some. exact E.
Qed.

Lemma cpu_online_cpu_down site d s c :
  cpu_online c (cpu_down site d s)
  = if (c =? d)%nat then false else cpu_online c s.
Proof.
  unfold cpu_online, cpu_down. simpl.
  destruct (Nat.eqb_spec c d) as [->|Hne].
  - destruct (Nat.lt_ge_cases d (length (cpu_online_mask s))) as [Hlt|Hge].
    + rewrite list_lookup_insert_eq by exact Hlt. reflexivity.
    + rewrite list_insert_ge by exact Hge.
      rewrite (lookup_ge_None_2 _ _ Hge). reflexivity.
  - rewrite list_lookup_insert_ne by congruence. reflexivity.
Qed.

Lemma cpu_online_cpu_up site u s c :
  cpu_online c (cpu_up site u s)
  = if (c =? u)%nat then (u <? nr_cpu_ids s)%nat else cpu_online c s.
Proof.
  unfold cpu_online, cpu_up, nr_cpu_ids. simpl.
  destruct (Nat.eqb_spec c u) as [->|Hne].
  - destruct (Nat.ltb_spec u (length (cpu_online_mask s))) as [Hlt|Hge].
    + rewrite list_lookup_insert_eq by exact Hlt. reflexivity.
    + rewrite list_insert_ge by exact Hge.
      rewrite (lookup_ge_None_2 _ _ Hge). reflexivity.
  - rewrite list_lookup_insert_ne by congruence. reflexivity.
Qed.

Lemma in_for_each_online_cpu cpu s :
  In cpu (for_each_online_cpu s) <-> cpu_online cpu s = true.
Proof.
  unfold for_each_online_cpu, for_each_possible_cpu.
  rewrite List.filter_In, List.in_seq. split; [tauto|].
  intros H. split; [|exact H]. apply cpu_online_lt in H. lia.
Qed.

(** ** The call log *)

Lemma adds_refl P s : adds P s s.
Proof. exists []. rewrite app_nil_r. split; [reflexivity|constructor]. Qed.

Lemma adds_same P s s' : calls s' = calls s -> adds P s s'.
Proof. intros E. exists []. rewrite app_nil_r. split; [exact E|constructor]. Qed.

Lemma adds_trans P s1 s2 s3 : adds P s1 s2 -> adds P s2 s3 -> adds P s1 s3.
Proof.
  intros (l1 & E1 & F1) (l2 & E2 & F2). exists (l1 ++ l2).
  split; [rewrite E2, E1, app_assoc; reflexivity|].
  apply Forall_app. split; assumption.
Qed.

Lemma adds_one (P : call -> Prop) c s s' :
  calls s' = calls s ++ [c] -> P c -> adds P s s'.
Proof. intros E H. exists [c]. split; [exact E|]. repeat constructor. exact H. Qed.

Lemma adds_impl (P Q : call -> Prop) s s' :
  (forall c, P c -> Q c) -> adds P s s' -> adds Q s s'.
Proof.
  intros H (l & E & F). exists l. split; [exact E|].
  eapply Forall_impl; [exact F|exact H].
Qed.

Lemma adds_new_calls P s s' : adds P s s' -> Forall P (new_calls s s').
Proof.
  intros (l & E & F). unfold new_calls. rewrite E, drop_app_length. exact F.
Qed.

Lemma new_calls_app s s' l : calls s' = calls s ++ l -> new_calls s s' = l.
Proof. intros E. unfold new_calls. rewrite E. apply drop_app_length. Qed.

Section Facts.

Variable pf : platform.

(** ** Counting the online cores of a cluster *)

Lemma count_fold (p : nat -> bool) (l : list nat) (k : nat) :
  fold_left (fun cnt cpu => if p cpu then S cnt else cnt) l k
  = (k + length (List.filter p l))%nat.
Proof.
  revert k. induction l as [|a l IH]; intros k; simpl; [lia|].
  rewrite IH. destruct (p a); simpl; lia.
Qed.

Lemma filter_filter (p q : nat -> bool) (l : list nat) :
  List.filter q (List.filter p l) = List.filter (fun c => p c && q c) l.
Proof.
  induction l as [|a l IH]; simpl; [reflexivity|].
  destruct (p a); simpl; [destruct (q a)|]; rewrite IH; reflexivity.
Qed.

Lemma online_in_seq cluster s :
  online_in pf cluster s
  = List.filter (in_cluster_online pf cluster s) (seq 0 (nr_cpu_ids s)).
Proof. unfold online_in, for_each_online_cpu. apply filter_filter. Qed.

Lemma num_online_cluster_cpus_length cluster s :
  num_online_cluster_cpus pf cluster s = length (online_in pf cluster s).
Proof. unfold num_online_cluster_cpus. rewrite count_fold. reflexivity. Qed.

Lemma in_online_in cluster s cpu :
  In cpu (online_in pf cluster s)
  <-> cpu_online cpu s = true /\ topology_physical_package_id pf cpu = cluster.
Proof.
  unfold online_in. rewrite List.filter_In, in_for_each_online_cpu, Z.eqb_eq.
  reflexivity.
Qed.

Lemma count_set_cycle cluster v s :
  num_online_cluster_cpus pf cluster (set_cycle v s)
  = num_online_cluster_cpus pf cluster s.
Proof. reflexivity. Qed.

Lemma count_cpu_down cluster site d s :
  cpu_online d s = true -> topology_physical_package_id pf d = cluster ->
  num_online_cluster_cpus pf cluster s
  = S (num_online_cluster_cpus pf cluster (cpu_down site d s)).
Proof.
  intros Hon Hcl. rewrite !num_online_cluster_cpus_length, !online_in_seq.
  rewrite nr_cpu_ids_cpu_down.
  apply filter_length_drop_one with (d := d).
  - apply List.seq_NoDup.
  - apply List.in_seq. apply cpu_online_lt in Hon. lia.
  - intros c Hc. unfold in_cluster_online. rewrite cpu_online_cpu_down.
    destruct (Nat.eqb_spec c d); [contradiction|reflexivity].
  - unfold in_cluster_online. rewrite Hon, Hcl, Z.eqb_refl. reflexivity.
  - unfold in_cluster_online. rewrite cpu_online_cpu_down, Nat.eqb_refl.
    reflexivity.
Qed.

Lemma count_cpu_down_other cluster site d s :
  cpu_online d s = false \/ topology_physical_package_id pf d <> cluster ->
  num_online_cluster_cpus pf cluster (cpu_down site d s)
  = num_online_cluster_cpus pf cluster s.
Proof.
  intros H. rewrite !num_online_cluster_cpus_length, !online_in_seq.
  rewrite nr_cpu_ids_cpu_down. f_equal. apply filter_length_ext.
  intros c _. unfold in_cluster_online. rewrite cpu_online_cpu_down.
  destruct (Nat.eqb_spec c d) as [->|]; [|reflexivity].
  destruct H as [-> | H]; [reflexivity|].
  destruct (Z.eqb_spec (topology_physical_package_id pf d) cluster);
    [contradiction|]. rewrite !andb_false_r. reflexivity.
Qed.

Lemma count_cpu_up cluster site u s :
  cpu_online u s = false -> (u < nr_cpu_ids s)%nat ->
  topology_physical_package_id pf u = cluster ->
  num_online_cluster_cpus pf cluster (cpu_up site u s)
  = S (num_online_cluster_cpus pf cluster s).
Proof.
  intros Hoff Hlt Hcl. rewrite !num_online_cluster_cpus_length, !online_in_seq.
  rewrite nr_cpu_ids_cpu_up.
  apply filter_length_drop_one with (d := u).
  - apply List.seq_NoDup.
  - apply List.in_seq. lia.
  - intros c Hc. unfold in_cluster_online. rewrite cpu_online_cpu_up.
    destruct (Nat.eqb_spec c u); [contradiction|reflexivity].
  - unfold in_cluster_online. rewrite cpu_online_cpu_up, Nat.eqb_refl.
    rewrite Hcl, Z.eqb_refl. apply Nat.ltb_lt in Hlt. rewrite Hlt. reflexivity.
  - unfold in_cluster_online. rewrite Hoff. reflexivity.
Qed.

Lemma count_cpu_up_other cluster site u s :
  cpu_online u s = true \/ (nr_cpu_ids s <= u)%nat
  \/ topology_physical_package_id pf u <> cluster ->
  num_online_cluster_cpus pf cluster (cpu_up site u s)
  = num_online_cluster_cpus pf cluster s.
Proof.
  intros H. rewrite !num_online_cluster_cpus_length, !online_in_seq.
  rewrite nr_cpu_ids_cpu_up. f_equal. apply filter_length_ext.
  intros c _. unfold in_cluster_online. rewrite cpu_online_cpu_up.
  destruct (Nat.eqb_spec c u) as [->|]; [|reflexivity].
  destruct H as [Hon | [Hge | Hcl]].
  - rewrite Hon. apply cpu_online_lt, Nat.ltb_lt in Hon. rewrite Hon.
    reflexivity.
  - assert (cpu_online u s = false) as ->.
    { destruct (cpu_online u s) eqn:E; [|reflexivity].
      apply cpu_online_lt in E. lia. }
    apply Nat.ltb_ge in Hge. rewrite Hge. reflexivity.
  - destruct (Z.eqb_spec (topology_physical_package_id pf u) cluster);
      [contradiction|]. rewrite !andb_false_r. reflexivity.
Qed.

Lemma count_cpu_up_bounds cluster site u s :
  (num_online_cluster_cpus pf cluster s
   <= num_online_cluster_cpus pf cluster (cpu_up site u s)
   <= S (num_online_cluster_cpus pf cluster s))%nat.
Proof.
  destruct (cpu_online u s) eqn:Hon.
  { rewrite count_cpu_up_other by (left; exact Hon). lia. }
  destruct (Nat.lt_ge_cases u (nr_cpu_ids s)) as [Hlt|Hge].
  2: { rewrite count_cpu_up_other by (right; left; exact Hge). lia. }
  destruct (Z.eq_dec (topology_physical_package_id pf u) cluster) as [Hcl|Hcl].
  - rewrite (count_cpu_up cluster site u s Hon Hlt Hcl). lia.
  - rewrite count_cpu_up_other by (right; right; exact Hcl). lia.
Qed.

Lemma count_cpu_down_bounds cluster site d s :
  (num_online_cluster_cpus pf cluster (cpu_down site d s)
   <= num_online_cluster_cpus pf cluster s
   <= S (num_online_cluster_cpus pf cluster (cpu_down site d s)))%nat.
Proof.
  destruct (cpu_online d s) eqn:Hon.
  2: { rewrite count_cpu_down_other by (left; exact Hon). lia. }
  destruct (Z.eq_dec (topology_physical_package_id pf d) cluster) as [Hcl|Hcl].
  - rewrite (count_cpu_down cluster site d s Hon Hcl). lia.
  - rewrite count_cpu_down_other by (right; exact Hcl). lia.
Qed.

(** ** The core-selection helpers *)

Lemma get_online_core_from_spec cluster s cpus :
  let r := get_online_core_from pf cluster s cpus in
  (r = 0%nat /\ forall c, In c cpus -> c <> 0%nat ->
                 topology_physical_package_id pf c = cluster ->
                 cpu_online c s = false)
  \/ (r <> 0%nat /\ In r cpus /\ topology_physical_package_id pf r = cluster
      /\ cpu_online r s = true).
Proof.
  induction cpus as [|a l IH]; simpl.
  - left. split; [reflexivity|]. intros c [].
  - destruct (Nat.eqb_spec a 0) as [-> | Hnz].
    { destruct IH as [[E H] | (Hr & Hin & Hcl & Hon)].
      - left. split; [exact E|]. intros c [<- | Hc] Hc0; [congruence|].
        apply H; assumption.
      - right. auto. }
    destruct (Z.eqb_spec (topology_physical_package_id pf a) cluster)
      as [Hcl | Hcl]; simpl.
    2: { destruct IH as [[E H] | (Hr & Hin & Hcl' & Hon)].
         - left. split; [exact E|]. intros c [<- | Hc] Hc0 Hc1; [congruence|].
           apply H; assumption.
         - right. auto. }
    destruct (cpu_online a s) eqn:Hon.
    + right. auto.
    + destruct IH as [[E H] | (Hr & Hin & Hcl' & Hon')].
      * left. split; [exact E|]. intros c [<- | Hc] Hc0 Hc1; [exact Hon|].
        apply H; assumption.
      * right. auto.
Qed.

Lemma get_offline_core_from_spec cluster s cpus :
  let r := get_offline_core_from pf cluster s cpus in
  (r = 0%nat /\ forall c, In c cpus ->
                 topology_physical_package_id pf c = cluster ->
                 cpu_online c s = true)
  \/ (In r cpus /\ topology_physical_package_id pf r = cluster
      /\ cpu_online r s = false).
Proof.
  induction cpus as [|a l IH]; simpl.
  - left. split; [reflexivity|]. intros c [].
  - destruct (Z.eqb_spec (topology_physical_package_id pf a) cluster)
      as [Hcl | Hcl]; simpl.
    2: { destruct IH as [[E H] | (Hin & Hcl' & Hoff)].
         - left. split; [exact E|]. intros c [<- | Hc] Hc1; [congruence|].
           apply H; assumption.
         - right. auto. }
    destruct (cpu_online a s) eqn:Hon; simpl.
    + destruct IH as [[E H] | (Hin & Hcl' & Hoff)].
      * left. split; [exact E|]. intros c [<- | Hc] Hc1; [exact Hon|].
        apply H; assumption.
      * right. auto.
    + right. auto.
Qed.

Lemma get_online_core_zero_count cluster s :
  get_online_core pf cluster s = 0%nat ->
  (num_online_cluster_cpus pf cluster s <= 1)%nat.
Proof.
  intros E. rewrite num_online_cluster_cpus_length, online_in_seq.
  apply filter_length_le_one with (d := 0%nat); [apply List.seq_NoDup|].
  intros c Hc Hp. unfold in_cluster_online in Hp.
  apply andb_true_iff in Hp. destruct Hp as [Hon Hcl]. apply Z.eqb_eq in Hcl.
  destruct (Nat.eq_dec c 0%nat) as [->|Hnz]; [reflexivity|exfalso].
  destruct (get_online_core_from_spec cluster s (for_each_possible_cpu s))
    as [[_ H] | (Hr & _)].
  - rewrite (H c Hc Hnz Hcl) in Hon. discriminate.
  - apply Hr. exact E.
Qed.

Lemma get_online_core_nonzero cluster s :
  get_online_core pf cluster s <> 0%nat ->
  cpu_online (get_online_core pf cluster s) s = true
  /\ topology_physical_package_id pf (get_online_core pf cluster s) = cluster.
Proof.
  intros Hnz.
  destruct (get_online_core_from_spec cluster s (for_each_possible_cpu s))
    as [[E _] | (_ & _ & Hcl & Hon)]; [contradiction|].
  split; assumption.
Qed.

Lemma cpumask_next_zero_offline n s :
  cpu_online (cpumask_next_zero n s) s = false.
Proof.
  unfold cpumask_next_zero.
  destruct (List.find _ _) as [cpu|] eqn:E.
  - apply List.find_some in E. destruct E as [_ E].
    apply negb_true_iff in E. exact E.
  - destruct (cpu_online (Nat.max (S n) (nr_cpu_ids s)) s) eqn:Hon;
      [|reflexivity].
    apply cpu_online_lt in Hon. lia.
Qed.

(** ** The sampling loop *)

Lemma sample_fold_slow_cpu cluster l acc :
  let r := fold_left (sample_step pf cluster) l acc in
  slow_cpu r = slow_cpu acc
  \/ (In (slow_cpu r) l /\ slow_cpu r <> 0%nat
      /\ topology_physical_package_id pf (slow_cpu r) = cluster).
Proof.
  revert acc. induction l as [|a l IH]; intros acc; simpl; [left; reflexivity|].
  specialize (IH (sample_step pf cluster acc a)). simpl in IH.
  destruct IH as [E | (Hin & Hnz & Hcl)]; [|right; auto].
  rewrite E. unfold sample_step.
  destruct (Z.eqb_spec (topology_physical_package_id pf a) cluster); simpl;
    [|left; reflexivity].
  destruct (Nat.eqb_spec a 0); [left; reflexivity|].
  destruct (cpufreq_quick_get pf a <=? slow_rate acc); simpl;
    [right; auto|].
  destruct (cpufreq_quick_get pf a >? fast_rate acc); left; reflexivity.
Qed.

Lemma sample_cluster_slow_cpu cluster init first s :
  slow_cpu (sample_cluster pf cluster init first s)
  = slow_cpu (sample_loop pf cluster init first s).
Proof.
  unfold sample_cluster. destruct (first <? _); reflexivity.
Qed.

Lemma sample_cluster_candidate cluster init first s :
  let c := slow_cpu (sample_cluster pf cluster init first s) in
  c = init
  \/ (c <> 0%nat /\ cpu_online c s = true
      /\ topology_physical_package_id pf c = cluster).
Proof.
  simpl. rewrite sample_cluster_slow_cpu. unfold sample_loop.
  destruct (sample_fold_slow_cpu cluster (for_each_online_cpu s)
              {| slow_cpu := init; slow_rate := UINT_MAX; fast_rate := first |})
    as [E | (Hin & Hnz & Hcl)]; [left; exact E|right].
  apply in_for_each_online_cpu in Hin. auto.
Qed.

(** ** The decision engine, case by case *)

Lemma little_engine_cases lim s :
  let smp := sample_little pf s in
  let nr := Z.of_nat (num_online_cluster_cpus pf CLUSTER_LITTLE s) in
  little_engine pf lim s = s
  \/ (up_rate_of lim 0 < slow_rate smp /\ nr < MAX_CPU_PER_CLUSTERS
      /\ cycle_up (asmp_param s) <= cycle s
      /\ little_engine pf lim s
         = set_cycle 0 (cpu_up little_up (cpumask_next_zero 0 s) s))
  \/ (slow_rate smp <= up_rate_of lim 0 /\ slow_cpu smp <> 0%nat
      /\ fast_rate smp < down_rate_of lim 0
      /\ min_cpus (asmp_param s) < nr
      /\ cycle_down (asmp_param s) <= cycle s
      /\ cpu_online (slow_cpu smp) s = true
      /\ topology_physical_package_id pf (slow_cpu smp) = CLUSTER_LITTLE
      /\ little_engine pf lim s
         = set_cycle 0 (cpu_down little_down (slow_cpu smp) s)).
Proof.
  intros smp nr. unfold little_engine. fold smp.
  rewrite !Z.gtb_ltb, !Z.geb_leb.
  destruct (Z.ltb_spec (up_rate_of lim 0) (slow_rate smp)) as [Hup|Hup].
  - destruct (Z.ltb_spec (Z.of_nat (num_online_cluster_cpus pf CLUSTER_LITTLE s))
                         MAX_CPU_PER_CLUSTERS) as [Hnr|Hnr]; simpl;
      [|left; reflexivity].
    destruct (Z.leb_spec (cycle_up (asmp_param s)) (cycle s)) as [Hc|Hc];
      [|left; reflexivity].
    right. left. rewrite cpumask_next_zero_offline. simpl. auto.
  - destruct (Nat.eqb_spec (slow_cpu smp) 0) as [Hz|Hnz]; simpl;
      [left; reflexivity|].
    destruct (Z.ltb_spec (fast_rate smp) (down_rate_of lim 0)) as [Hdn|Hdn];
      [|left; reflexivity].
    destruct (Z.ltb_spec (min_cpus (asmp_param s))
                (Z.of_nat (num_online_cluster_cpus pf CLUSTER_LITTLE s)))
      as [Hnr|Hnr]; simpl; [|left; reflexivity].
    destruct (Z.leb_spec (cycle_down (asmp_param s)) (cycle s)) as [Hc|Hc];
      [|left; reflexivity].
    right. right.
    destruct (sample_cluster_candidate CLUSTER_LITTLE 0%nat
                (cpufreq_quick_get pf 0) s) as [E | (_ & Hon & Hcl)];
      [contradiction|].
    fold (sample_little pf s) in Hon, Hcl. fold smp in Hon, Hcl.
    rewrite Hon. simpl. repeat split; auto.
Qed.

Lemma big_engine_cases lim nr_hmp s :
  let smp := sample_big pf s in
  big_engine pf lim nr_hmp s = s
  \/ (up_rate_of lim 1 < slow_rate smp
      /\ Z.of_nat nr_hmp < MAX_CPU_PER_CLUSTERS
      /\ cycle_up (asmp_param s) <= cycle s
      /\ big_engine pf lim nr_hmp s
         = set_cycle 0 (cpu_up big_up (cpumask_next_zero 3 s) s))
  \/ (slow_rate smp <= up_rate_of lim 1 /\ slow_cpu smp <> 0%nat
      /\ fast_rate smp < down_rate_of lim 1
      /\ min_cpus_hmp (asmp_param s) < Z.of_nat nr_hmp
      /\ u32 (cycle_down (asmp_param s) * 3) <= cycle s
      /\ big_engine pf lim nr_hmp s
         = set_cycle 0 (if cpu_online (slow_cpu smp) s
                        then cpu_down big_down (slow_cpu smp) s else s)).
Proof.
  intros smp. unfold big_engine. fold smp.
  rewrite !Z.gtb_ltb, !Z.geb_leb.
  destruct (Z.ltb_spec (up_rate_of lim 1) (slow_rate smp)) as [Hup|Hup].
  - destruct (Z.ltb_spec (Z.of_nat nr_hmp) MAX_CPU_PER_CLUSTERS) as [Hnr|Hnr];
      simpl; [|left; reflexivity].
    destruct (Z.leb_spec (cycle_up (asmp_param s)) (cycle s)) as [Hc|Hc];
      [|left; reflexivity].
    right. left. rewrite cpumask_next_zero_offline. simpl. auto.
  - destruct (Nat.eqb_spec (slow_cpu smp) 0) as [Hz|Hnz]; simpl;
      [left; reflexivity|].
    destruct (Z.ltb_spec (fast_rate smp) (down_rate_of lim 1)) as [Hdn|Hdn];
      [|left; reflexivity].
    destruct (Z.ltb_spec (min_cpus_hmp (asmp_param s)) (Z.of_nat nr_hmp))
      as [Hnr|Hnr]; simpl; [|left; reflexivity].
    destruct (Z.leb_spec (u32 (cycle_down (asmp_param s) * 3)) (cycle s))
      as [Hc|Hc]; [|left; reflexivity].
    right. right. repeat split; auto.
Qed.

(** ** The HMP trade-down loop *)

Lemma hmp_trade_down_spec nr s :
  (nr <= num_online_cluster_cpus pf CLUSTER_LITTLE s)%nat ->
  let s' := hmp_trade_down pf nr s in
  (exists l, calls s' = calls s ++ l
             /\ Forall (fun c => exists cpu, c = CpuDown hmp_down cpu
                                            /\ cpu <> 0%nat) l
             /\ length l = (nr - 2)%nat)
  /\ (num_online_cluster_cpus pf CLUSTER_LITTLE s' + (nr - 2)
      = num_online_cluster_cpus pf CLUSTER_LITTLE s)%nat
  /\ (forall cluster, cluster <> CLUSTER_LITTLE ->
        num_online_cluster_cpus pf cluster s'
        = num_online_cluster_cpus pf cluster s)
  /\ cycle s' = cycle s /\ asmp_param s' = asmp_param s
  /\ cpu_online 0 s' = cpu_online 0 s.
Proof.
  revert s. induction nr as [|n IH]; intros s Hle; simpl.
  - split; [exists []; rewrite app_nil_r; auto|]. repeat split; auto; lia.
  - destruct n as [|[|n]].
    1,2: simpl; split; [exists []; rewrite app_nil_r; auto|];
      repeat split; auto; lia.
    change (2 <? S (S (S n)))%nat with true. cbv iota.
    set (g := get_online_core pf CLUSTER_LITTLE s).
    assert (Hg : g <> 0%nat).
    { intros E. apply get_online_core_zero_count in E. lia. }
    destruct (get_online_core_nonzero CLUSTER_LITTLE s Hg) as [Hon Hcl].
    fold g in Hon, Hcl.
    pose proof (count_cpu_down CLUSTER_LITTLE hmp_down g s Hon Hcl) as Hcnt.
    destruct (IH (cpu_down hmp_down g s)) as ((l & El & Fl & Ll) & Hc & Ho & Hcy & Hp & H0);
      [lia|].
    split; [|repeat split].
    + exists (CpuDown hmp_down g :: l). split; [|split].
      * rewrite El. simpl. rewrite <- app_assoc. reflexivity.
      * constructor; [exists g; auto|exact Fl].
      * simpl. rewrite Ll. lia.
    + lia.
    + intros cluster Hne. rewrite Ho by exact Hne.
      apply count_cpu_down_other. right. congruence.
    + rewrite Hcy. reflexivity.
    + rewrite Hp. reflexivity.
    + rewrite H0, cpu_online_cpu_down.
      destruct (Nat.eqb_spec 0 g); [congruence|reflexivity].
Qed.

Lemma hmp_trade_adds s :
  adds (fun c => exists cpu, c = CpuUp hmp_up cpu
                 \/ (c = CpuDown hmp_down cpu /\ cpu <> 0%nat))
       s (hmp_trade pf (num_online_cluster_cpus pf CLUSTER_LITTLE s) s).
Proof.
  unfold hmp_trade. destruct (_ >=? _); [|apply adds_refl].
  set (b := get_offline_core pf CLUSTER_BIG s).
  destruct (hmp_trade_down_spec (num_online_cluster_cpus pf CLUSTER_LITTLE s)
              (cpu_up hmp_up b s)) as ((l & El & Fl & _) & _).
  { apply count_cpu_up_bounds. }
  exists (CpuUp hmp_up b :: l). split.
  - rewrite El. simpl. rewrite <- app_assoc. reflexivity.
  - constructor; [exists b; left; reflexivity|].
    eapply Forall_impl; [exact Fl|]. intros c (cpu & E & Hnz).
    exists cpu. right. auto.
Qed.

(** ** Core 0 is never asked to go offline *)

Lemma little_engine_adds_anchor lim s :
  adds not_down_of_anchor s (little_engine pf lim s).
Proof.
  destruct (little_engine_cases lim s)
    as [E | [(_ & _ & _ & E) | (_ & Hnz & _ & _ & _ & _ & _ & E)]]; rewrite E.
  - apply adds_refl.
  - eapply adds_one; [reflexivity|reflexivity].
  - eapply adds_one; [reflexivity|]. unfold not_down_of_anchor. simpl.
    apply Nat.eqb_neq. exact Hnz.
Qed.

Lemma big_engine_adds_anchor lim nr_hmp s :
  adds not_down_of_anchor s (big_engine pf lim nr_hmp s).
Proof.
  destruct (big_engine_cases lim nr_hmp s)
    as [E | [(_ & _ & _ & E) | (_ & Hnz & _ & _ & _ & E)]]; rewrite E.
  - apply adds_refl.
  - eapply adds_one; [reflexivity|reflexivity].
  - destruct (cpu_online _ s); [|apply adds_same; reflexivity].
    eapply adds_one; [reflexivity|]. unfold not_down_of_anchor. simpl.
    apply Nat.eqb_neq. exact Hnz.
Qed.

Lemma hmp_handler_adds_anchor lim s :
  adds not_down_of_anchor s (hmp_handler pf lim s).
Proof.
  unfold hmp_handler. destruct (_ =? _)%nat.
  - eapply adds_impl; [|apply hmp_trade_adds].
    intros c (cpu & [-> | [-> Hnz]]); unfold not_down_of_anchor; simpl;
      [reflexivity|]. apply Nat.eqb_neq. exact Hnz.
  - apply big_engine_adds_anchor.
Qed.

Lemma asmp_work_fn_adds_anchor s :
  adds not_down_of_anchor s (asmp_work_fn pf s).
Proof.
  unfold asmp_work_fn.
  set (s1 := set_cycle (u32 (cycle s + 1)) s).
  set (lim := compute_limits pf s1).
  eapply adds_trans; [apply (adds_same _ s s1); reflexivity|].
  eapply adds_trans; [apply (little_engine_adds_anchor lim)|].
  eapply adds_trans; [apply (hmp_handler_adds_anchor lim)|].
  eapply adds_one; [reflexivity|reflexivity].
Qed.

End Facts.

Lemma asmp_suspend_loop_adds_anchor cpu s :
  adds not_down_of_anchor s (asmp_suspend_loop cpu s).
Proof.
  revert s. induction cpu as [|n IH]; intros s; simpl.
  - rewrite orb_true_r. apply adds_refl.
  - eapply adds_trans; [|apply IH].
    destruct (negb _ || _); [apply adds_refl|].
    eapply adds_one; [reflexivity|reflexivity].
Qed.

Lemma asmp_suspend_adds_anchor s : adds not_down_of_anchor s (asmp_suspend s).
Proof.
  unfold asmp_suspend.
  set (s1 := asmp_suspend_loop (nr_cpu_ids s) s).
  assert (H : adds not_down_of_anchor s s1) by apply asmp_suspend_loop_adds_anchor.
  destruct (enabled s1); [|exact H].
  eapply adds_trans; [exact H|]. eapply adds_one; [reflexivity|reflexivity].
Qed.

Lemma asmp_resume_adds_anchor s : adds not_down_of_anchor s (asmp_resume s).
Proof.
  unfold asmp_resume. simpl. destruct (enabled s).
  - exists [ScheduleWork; QueueDelayedWork DELAY_CHECK]. simpl.
    rewrite <- app_assoc. split; [reflexivity|]. repeat constructor.
  - eapply adds_one; [reflexivity|reflexivity].
Qed.

(** C1. In every tick of the decision loop and in every suspend transition
    (called directly or through the display notifier), no [cpu_down] request
    names core 0: the candidate of the sampler, the HMP trade-down loop and
    the bulk offline of suspend all leave the anchor alone. *)
Theorem anchor_never_requested_offline (pf : platform) (s : asmp_state) :
  Forall (fun c => is_cpu_down_of 0 c = false) (new_calls s (asmp_work_fn pf s))
  /\ Forall (fun c => is_cpu_down_of 0 c = false) (new_calls s (asmp_suspend s))
  /\ forall event,
      Forall (fun c => is_cpu_down_of 0 c = false)
             (new_calls s (lcd_notifier_call event s)).
Proof.
  split; [|split].
  - apply (adds_new_calls not_down_of_anchor), asmp_work_fn_adds_anchor.
  - apply (adds_new_calls not_down_of_anchor), asmp_suspend_adds_anchor.
  - intros event. apply (adds_new_calls not_down_of_anchor).
    destruct event; simpl.
    + apply asmp_resume_adds_anchor.
    + apply adds_refl.
    + apply adds_refl.
    + apply asmp_suspend_adds_anchor.
Qed.

(** C10. [get_offline_core] returns 0 when every possible core of the cluster
    is online, and [get_online_core] returns 0 when no core of the cluster
    other than core 0 is online.  The same value 0 is what [get_offline_core]
    returns when core 0 itself is the offline core it found, so a caller
    cannot tell "no candidate" from "core 0". *)
Theorem no_candidate_is_core_zero (pf : platform) (cluster : Z) (s : asmp_state) :
  ((forall cpu, (cpu < nr_cpu_ids s)%nat ->
                topology_physical_package_id pf cpu = cluster ->
                cpu_online cpu s = true) ->
   get_offline_core pf cluster s = 0%nat)
  /\ ((forall cpu, cpu <> 0%nat ->
                   topology_physical_package_id pf cpu = cluster ->
                   cpu_online cpu s = false) ->
      get_online_core pf cluster s = 0%nat)
  /\ ((0 < nr_cpu_ids s)%nat ->
      topology_physical_package_id pf 0 = cluster ->
      cpu_online 0 s = false ->
      get_offline_core pf cluster s = 0%nat).
Proof.
  split; [|split].
  - intros H.
    destruct (get_offline_core_from_spec pf cluster s (for_each_possible_cpu s))
      as [[E _] | (Hin & Hcl & Hoff)]; [exact E|].
    apply List.in_seq in Hin.
    rewrite H in Hoff by (exact Hcl || lia). discriminate.
  - intros H.
    destruct (get_online_core_from_spec pf cluster s (for_each_possible_cpu s))
      as [[E _] | (Hnz & _ & Hcl & Hon)]; [exact E|].
    rewrite (H _ Hnz Hcl) in Hon. discriminate.
  - intros Hlt Hcl Hoff. unfold get_offline_core, for_each_possible_cpu.
    destruct (nr_cpu_ids s) as [|n]; [lia|]. simpl.
    rewrite Hcl, Z.eqb_refl, Hoff. reflexivity.
Qed.

Lemma no_candidate_is_core_zero_witness :
  get_offline_core (platform8 []) CLUSTER_LITTLE little4_state = 0%nat
  /\ get_online_core (platform8 []) CLUSTER_BIG little4_state = 0%nat
  /\ get_offline_core (platform8 []) CLUSTER_LITTLE anchor_off_state = 0%nat.
Proof.
  split; [|split].
  - apply (proj1 (no_candidate_is_core_zero (platform8 []) CLUSTER_LITTLE
                    little4_state)).
    intros cpu Hlt Hcl.
    do 8 (destruct cpu as [|cpu];
          [first [reflexivity | vm_compute in Hcl; discriminate]|]).
    vm_compute in Hlt. lia.
  - apply (proj1 (proj2 (no_candidate_is_core_zero (platform8 []) CLUSTER_BIG
                           little4_state))).
    intros cpu Hnz Hcl.
    do 8 (destruct cpu as [|cpu];
          [first [reflexivity | congruence
                 | vm_compute in Hcl; discriminate]|]).
    reflexivity.
  - apply (proj2 (proj2 (no_candidate_is_core_zero (platform8 [])
                           CLUSTER_LITTLE anchor_off_state)));
      [vm_compute; lia|reflexivity|reflexivity].
Defined.

(** ** The HMP handler with no performance core online *)

Lemma count_pos_of_online pf cluster s cpu :
  cpu_online cpu s = true -> topology_physical_package_id pf cpu = cluster ->
  (0 < num_online_cluster_cpus pf cluster s)%nat.
Proof.
  intros Hon Hcl. rewrite num_online_cluster_cpus_length.
  assert (Hin : In cpu (online_in pf cluster s)) by (apply in_online_in; auto).
  destruct (online_in pf cluster s); [destruct Hin|simpl; lia].
Qed.

Lemma get_offline_core_found pf cluster s :
  num_online_cluster_cpus pf cluster s = 0%nat ->
  (exists cpu, (cpu < nr_cpu_ids s)%nat
               /\ topology_physical_package_id pf cpu = cluster) ->
  let b := get_offline_core pf cluster s in
  (b < nr_cpu_ids s)%nat /\ topology_physical_package_id pf b = cluster
  /\ cpu_online b s = false.
Proof.
  intros Hzero (cpu & Hlt & Hcl). simpl.
  destruct (get_offline_core_from_spec pf cluster s (for_each_possible_cpu s))
    as [[_ H] | (Hin & Hcl' & Hoff)].
  - assert (Hon : cpu_online cpu s = true).
    { apply H; [apply List.in_seq; lia|exact Hcl]. }
    pose proof (count_pos_of_online pf cluster s cpu Hon Hcl). lia.
  - apply List.in_seq in Hin. unfold get_offline_core. split; [lia|auto].
Qed.

(** C4. At the HMP handler, with no performance core online: if the
    efficiency cluster has reached [MAX_CPU_PER_CLUSTERS] online cores (and
    the platform has a performance core at all), the handler brings exactly
    one performance core online and then takes efficiency cores other than
    core 0 offline until exactly 2 remain; if the efficiency cluster is below
    that maximum, the handler changes nothing. *)
Theorem hmp_trade_when_saturated (pf : platform) (lim : rate_limits)
        (s : asmp_state) :
  num_online_cluster_cpus pf CLUSTER_BIG s = 0%nat ->
  ((MAX_CPU_PER_CLUSTERS <= Z.of_nat (num_online_cluster_cpus pf CLUSTER_LITTLE s)) ->
   (exists cpu, (cpu < nr_cpu_ids s)%nat
                /\ topology_physical_package_id pf cpu = CLUSTER_BIG) ->
   let s' := hmp_handler pf lim s in
   num_online_cluster_cpus pf CLUSTER_BIG s' = 1%nat
   /\ num_online_cluster_cpus pf CLUSTER_LITTLE s' = 2%nat
   /\ (cpu_online 0 s = true -> cpu_online 0 s' = true)
   /\ exists b downs,
       new_calls s s' = CpuUp hmp_up b :: downs
       /\ topology_physical_package_id pf b = CLUSTER_BIG
       /\ cpu_online b s = false
       /\ Forall (fun c => exists cpu, c = CpuDown hmp_down cpu /\ cpu <> 0%nat)
                 downs)
  /\ (Z.of_nat (num_online_cluster_cpus pf CLUSTER_LITTLE s) < MAX_CPU_PER_CLUSTERS ->
      hmp_handler pf lim s = s).
Proof.
  intros Hbig. unfold hmp_handler, hmp_trade. rewrite Hbig. simpl.
  rewrite Z.geb_leb. split.
  - intros Hmax Hex.
    destruct (Z.leb_spec MAX_CPU_PER_CLUSTERS
                (Z.of_nat (num_online_cluster_cpus pf CLUSTER_LITTLE s)));
      [|lia].
    destruct (get_offline_core_found pf CLUSTER_BIG s Hbig Hex)
      as (Hlt & Hcl & Hoff).
    set (b := get_offline_core pf CLUSTER_BIG s) in *.
    set (s1 := cpu_up hmp_up b s).
    assert (Hb1 : num_online_cluster_cpus pf CLUSTER_BIG s1 = 1%nat).
    { unfold s1. rewrite (count_cpu_up pf CLUSTER_BIG hmp_up b s Hoff Hlt Hcl).
      rewrite Hbig. reflexivity. }
    assert (Hl1 : num_online_cluster_cpus pf CLUSTER_LITTLE s1
                  = num_online_cluster_cpus pf CLUSTER_LITTLE s).
    { apply count_cpu_up_other. right. right. rewrite Hcl. discriminate. }
    destruct (hmp_trade_down_spec pf
                (num_online_cluster_cpus pf CLUSTER_LITTLE s) s1)
      as ((l & El & Fl & _) & Hc & Ho & _ & _ & H0); [lia|].
    unfold MAX_CPU_PER_CLUSTERS in *.
    split; [|split; [|split]].
    + rewrite Ho by discriminate. exact Hb1.
    + lia.
    + intros Hon0. rewrite H0. unfold s1. rewrite cpu_online_cpu_up.
      destruct (Nat.eqb_spec 0 b) as [E|_]; [|exact Hon0].
      rewrite <- E in Hoff. congruence.
    + exists b, l. repeat split; auto.
      apply new_calls_app. rewrite El. simpl. rewrite <- app_assoc. reflexivity.
  - intros Hlt.
    destruct (Z.leb_spec MAX_CPU_PER_CLUSTERS
                (Z.of_nat (num_online_cluster_cpus pf CLUSTER_LITTLE s)));
      [lia|reflexivity].
Qed.

Lemma hmp_trade_when_saturated_witness :
  let s' := hmp_handler (platform8 []) (compute_limits (platform8 []) little4_state)
                        little4_state in
  num_online_cluster_cpus (platform8 []) CLUSTER_BIG s' = 1%nat
  /\ num_online_cluster_cpus (platform8 []) CLUSTER_LITTLE s' = 2%nat.
Proof.
  destruct (hmp_trade_when_saturated (platform8 [])
              (compute_limits (platform8 []) little4_state) little4_state)
    as [H _]; [reflexivity|].
  destruct H as (Hb & Hl & _); [vm_compute; discriminate|exists 4%nat|].
  - split; [vm_compute; lia|reflexivity].
  - split; [exact Hb|exact Hl].
Defined.

(** ** The calls of one tick, stage by stage *)

Lemma asmp_work_fn_stages pf s :
  asmp_work_fn pf s
  = reschedule_asmp_workq (hmp_handler pf (tick_limits pf s) (tick_middle pf s)).
Proof. reflexivity. Qed.

Lemma adds_calls P s s' : adds P s s' -> calls s' = calls s ++ new_calls s s'.
Proof.
  intros (l & E & _). rewrite (new_calls_app s s' l E). exact E.
Qed.

Lemma new_calls_same s s' : calls s' = calls s -> new_calls s s' = [].
Proof. intros E. apply new_calls_app. rewrite app_nil_r. exact E. Qed.

Lemma little_engine_sites pf lim s :
  adds (fun c => from_site little_up c = true \/ from_site little_down c = true)
       s (little_engine pf lim s).
Proof.
  destruct (little_engine_cases pf lim s)
    as [E | [(_ & _ & _ & E) | (_ & _ & _ & _ & _ & _ & _ & E)]]; rewrite E.
  - apply adds_refl.
  - eapply adds_one; [reflexivity|left; reflexivity].
  - eapply adds_one; [reflexivity|right; reflexivity].
Qed.

Lemma big_engine_sites pf lim nr_hmp s :
  adds (fun c => from_site big_up c = true \/ from_site big_down c = true)
       s (big_engine pf lim nr_hmp s).
Proof.
  destruct (big_engine_cases pf lim nr_hmp s)
    as [E | [(_ & _ & _ & E) | (_ & _ & _ & _ & _ & E)]]; rewrite E.
  - apply adds_refl.
  - eapply adds_one; [reflexivity|left; reflexivity].
  - destruct (cpu_online _ s); [|apply adds_same; reflexivity].
    eapply adds_one; [reflexivity|right; reflexivity].
Qed.

Lemma hmp_handler_sites pf lim s :
  adds (fun c => is_engine_call c = false
                 \/ from_site big_up c = true \/ from_site big_down c = true)
       s (hmp_handler pf lim s).
Proof.
  unfold hmp_handler. destruct (_ =? _)%nat.
  - eapply adds_impl; [|apply hmp_trade_adds].
    intros c (cpu & [-> | [-> _]]); left; reflexivity.
  - eapply adds_impl; [|apply big_engine_sites]. intros c H. right. exact H.
Qed.

Lemma tick_new_calls pf s :
  new_calls s (asmp_work_fn pf s)
  = new_calls (tick_start s) (tick_middle pf s)
    ++ new_calls (tick_middle pf s)
                 (hmp_handler pf (tick_limits pf s) (tick_middle pf s))
    ++ [QueueDelayedWork DELAY_CHECK].
Proof.
  rewrite asmp_work_fn_stages. apply new_calls_app.
  unfold reschedule_asmp_workq, queue_delayed_work. simpl.
  rewrite (adds_calls _ _ _ (hmp_handler_sites pf (tick_limits pf s)
                               (tick_middle pf s))).
  unfold tick_middle at 1.
  rewrite (adds_calls _ _ _ (little_engine_sites pf (tick_limits pf s)
                               (tick_start s))).
  fold (tick_middle pf s). simpl. rewrite <- !app_assoc. reflexivity.
Qed.

Ltac by_site c :=
  destruct c as [[] ?|[] ?| | |]; simpl in *;
  unfold is_engine_call, from_site in *; simpl in *;
  intuition (try congruence; try discriminate).

Lemma little_engine_calls pf lim s :
  let smp := sample_little pf s in
  let nr := Z.of_nat (num_online_cluster_cpus pf CLUSTER_LITTLE s) in
  let s' := little_engine pf lim s in
  (s' = s /\ new_calls s s' = [])
  \/ (up_rate_of lim 0 < slow_rate smp /\ nr < MAX_CPU_PER_CLUSTERS
      /\ cycle_up (asmp_param s) <= cycle s /\ cycle s' = 0
      /\ new_calls s s' = [CpuUp little_up (cpumask_next_zero 0 s)])
  \/ (slow_rate smp <= up_rate_of lim 0 /\ fast_rate smp < down_rate_of lim 0
      /\ min_cpus (asmp_param s) < nr
      /\ cycle_down (asmp_param s) <= cycle s /\ cycle s' = 0
      /\ new_calls s s' = [CpuDown little_down (slow_cpu smp)]).
Proof.
  simpl.
  destruct (little_engine_cases pf lim s)
    as [E | [(H1 & H2 & H3 & E) | (H1 & _ & H2 & H3 & H4 & _ & _ & E)]];
    rewrite E.
  - left. split; [reflexivity|]. apply new_calls_same. reflexivity.
  - right. left. repeat split; auto. apply new_calls_app. reflexivity.
  - right. right. repeat split; auto. apply new_calls_app. reflexivity.
Qed.

Lemma big_engine_calls pf lim nr_hmp s :
  let smp := sample_big pf s in
  let s' := big_engine pf lim nr_hmp s in
  (s' = s /\ new_calls s s' = [])
  \/ (up_rate_of lim 1 < slow_rate smp
      /\ Z.of_nat nr_hmp < MAX_CPU_PER_CLUSTERS
      /\ cycle_up (asmp_param s) <= cycle s /\ cycle s' = 0
      /\ new_calls s s' = [CpuUp big_up (cpumask_next_zero 3 s)])
  \/ (slow_rate smp <= up_rate_of lim 1 /\ fast_rate smp < down_rate_of lim 1
      /\ min_cpus_hmp (asmp_param s) < Z.of_nat nr_hmp
      /\ u32 (cycle_down (asmp_param s) * 3) <= cycle s /\ cycle s' = 0
      /\ (new_calls s s' = [CpuDown big_down (slow_cpu smp)]
          \/ new_calls s s' = [])).
Proof.
  simpl.
  destruct (big_engine_cases pf lim nr_hmp s)
    as [E | [(H1 & H2 & H3 & E) | (H1 & _ & H2 & H3 & H4 & E)]];
    rewrite E.
  - left. split; [reflexivity|]. apply new_calls_same. reflexivity.
  - right. left. repeat split; auto. apply new_calls_app. reflexivity.
  - right. right. repeat split; auto.
    destruct (cpu_online _ s); [left|right].
    + apply new_calls_app. reflexivity.
    + apply new_calls_same. reflexivity.
Qed.

Lemma hmp_trade_calls pf s :
  let s' := hmp_trade pf (num_online_cluster_cpus pf CLUSTER_LITTLE s) s in
  cycle s' = cycle s
  /\ Forall (fun c => is_engine_call c = false) (new_calls s s').
Proof.
  simpl. split.
  - unfold hmp_trade. destruct (_ >=? _); [|reflexivity].
    destruct (hmp_trade_down_spec pf
                (num_online_cluster_cpus pf CLUSTER_LITTLE s)
                (cpu_up hmp_up (get_offline_core pf CLUSTER_BIG s) s))
      as (_ & _ & _ & Hc & _); [apply count_cpu_up_bounds|].
    rewrite Hc. reflexivity.
  - apply (adds_new_calls (fun c => is_engine_call c = false)).
    eapply adds_impl; [|apply hmp_trade_adds].
    intros c (cpu & [-> | [-> _]]); reflexivity.
Qed.

(** What the HMP handler adds to the log, by site: either no performance
    core is online and it adds only trade requests, or it is the performance
    decision. *)
Lemma hmp_handler_calls pf lim s :
  let s' := hmp_handler pf lim s in
  let nr_hmp := num_online_cluster_cpus pf CLUSTER_BIG s in
  (nr_hmp = 0%nat /\ cycle s' = cycle s
   /\ Forall (fun c => is_engine_call c = false) (new_calls s s'))
  \/ (nr_hmp <> 0%nat /\ s' = big_engine pf lim nr_hmp s).
Proof.
  simpl. unfold hmp_handler.
  destruct (Nat.eqb_spec (num_online_cluster_cpus pf CLUSTER_BIG s) 0)
    as [E|E].
  - left. split; [exact E|]. apply hmp_trade_calls.
  - right. split; [exact E|reflexivity].
Qed.

(** C8. In every tick, for both clusters: when the sampled [slow_rate]
    equals the cluster's [up_rate], no scale-up request is issued for that
    cluster, and when the sampled [fast_rate] equals its [down_rate], no
    scale-down request is issued: both comparisons are strict. *)
Theorem strict_threshold_comparisons (pf : platform) (s : asmp_state) :
  let lim := tick_limits pf s in
  let little := sample_little pf (tick_start s) in
  let big := sample_big pf (tick_middle pf s) in
  let new := new_calls s (asmp_work_fn pf s) in
  (slow_rate little = up_rate_of lim 0 ->
   Forall (fun c => from_site little_up c = false) new)
  /\ (fast_rate little = down_rate_of lim 0 ->
      Forall (fun c => from_site little_down c = false) new)
  /\ (slow_rate big = up_rate_of lim 1 ->
      Forall (fun c => from_site big_up c = false) new)
  /\ (fast_rate big = down_rate_of lim 1 ->
      Forall (fun c => from_site big_down c = false) new).
Proof.
  simpl. rewrite tick_new_calls.
  pose proof (little_engine_calls pf (tick_limits pf s) (tick_start s)) as HL.
  pose proof (adds_new_calls _ _ _
                (little_engine_sites pf (tick_limits pf s) (tick_start s)))
    as HLs.
  pose proof (hmp_handler_calls pf (tick_limits pf s) (tick_middle pf s)) as HH.
  pose proof (adds_new_calls _ _ _
                (hmp_handler_sites pf (tick_limits pf s) (tick_middle pf s)))
    as HHs.
  simpl in HL, HH. fold (tick_middle pf s) in HL, HLs.
  repeat split; intros Heq; rewrite !Forall_app; repeat split;
    try (repeat constructor; fail).
  - destruct HL as [[_ ->] | [(H & _) | (_ & _ & _ & _ & _ & ->)]];
      [constructor|lia|repeat constructor].
  - eapply Forall_impl; [exact HHs|]. intros c Hc. by_site c.
  - destruct HL as [[_ ->] | [(_ & _ & _ & _ & ->) | (_ & H & _)]];
      [constructor|repeat constructor|lia].
  - eapply Forall_impl; [exact HHs|]. intros c Hc. by_site c.
  - eapply Forall_impl; [exact HLs|]. intros c Hc. by_site c.
  - destruct HH as [(_ & _ & F) | (_ & E)].
    + eapply Forall_impl; [exact F|]. intros c Hc. by_site c.
    + rewrite E.
      destruct (big_engine_calls pf (tick_limits pf s)
                  (num_online_cluster_cpus pf CLUSTER_BIG (tick_middle pf s))
                  (tick_middle pf s))
        as [[_ ->] | [(H & _) | (_ & _ & _ & _ & _ & [-> | ->])]];
        [constructor|lia|repeat constructor|constructor].
  - eapply Forall_impl; [exact HLs|]. intros c Hc. by_site c.
  - destruct HH as [(_ & _ & F) | (_ & E)].
    + eapply Forall_impl; [exact F|]. intros c Hc. by_site c.
    + rewrite E.
      destruct (big_engine_calls pf (tick_limits pf s)
                  (num_online_cluster_cpus pf CLUSTER_BIG (tick_middle pf s))
                  (tick_middle pf s))
        as [[_ ->] | [(_ & _ & _ & _ & ->) | (_ & H & _)]];
        [constructor|repeat constructor|lia].
Qed.

Lemma strict_threshold_comparisons_witness :
  Forall (fun c => from_site little_up c = false)
         (new_calls little2_state
                    (asmp_work_fn at_up_rate_platform little2_state)).
Proof.
  apply (proj1 (strict_threshold_comparisons at_up_rate_platform little2_state)).
  reflexivity.
Defined.

(** ** The cycle thresholds of the performance decision *)

Lemma little_engine_param pf lim s :
  asmp_param (little_engine pf lim s) = asmp_param s.
Proof.
  destruct (little_engine_cases pf lim s)
    as [E | [(_ & _ & _ & E) | (_ & _ & _ & _ & _ & _ & _ & E)]]; rewrite E;
    reflexivity.
Qed.

Lemma tick_middle_param pf s : asmp_param (tick_middle pf s) = asmp_param s.
Proof. unfold tick_middle. rewrite little_engine_param. reflexivity. Qed.

Lemma Exists_engine_only (P : call -> Prop) l q :
  Forall (fun c => ~ P c) l -> ~ P q ->
  forall h, Exists P (l ++ h ++ [q]) -> Exists P h.
Proof.
  intros Fl Hq h H. apply Exists_app in H. destruct H as [H|H].
  - exfalso. apply Exists_exists in H. destruct H as (c & Hin & Hc).
    rewrite Forall_forall in Fl. exact (Fl c Hin Hc).
  - apply Exists_app in H. destruct H as [H|H]; [exact H|].
    exfalso. inversion H as [? ? Hc|? ? Hc]; subst; [exact (Hq Hc)|].
    inversion Hc.
Qed.

Lemma tick_big_calls pf s site :
  site = big_up \/ site = big_down ->
  Exists (fun c => from_site site c = true) (new_calls s (asmp_work_fn pf s)) ->
  Exists (fun c => from_site site c = true)
         (new_calls (tick_middle pf s)
                    (hmp_handler pf (tick_limits pf s) (tick_middle pf s))).
Proof.
  intros Hsite. rewrite tick_new_calls.
  apply Exists_engine_only.
  - eapply Forall_impl;
      [apply (adds_new_calls _ _ _
                (little_engine_sites pf (tick_limits pf s) (tick_start s)))|].
    intros c Hc. destruct Hsite; subst site; by_site c.
  - destruct Hsite; subst site; discriminate.
Qed.

Lemma big_engine_up_fires pf lim nr_hmp s :
  up_rate_of lim 1 < slow_rate (sample_big pf s) ->
  Z.of_nat nr_hmp < MAX_CPU_PER_CLUSTERS ->
  cycle_up (asmp_param s) <= cycle s ->
  big_engine pf lim nr_hmp s
  = set_cycle 0 (cpu_up big_up (cpumask_next_zero 3 s) s).
Proof.
  intros H1 H2 H3. unfold big_engine.
  rewrite Z.gtb_ltb, Z.geb_leb.
  apply Z.ltb_lt in H1, H2. apply Z.leb_le in H3.
  rewrite H1, H2, H3, cpumask_next_zero_offline. reflexivity.
Qed.

Lemma hmp_handler_big_calls pf lim s site :
  site = big_up \/ site = big_down ->
  Exists (fun c => from_site site c = true)
         (new_calls s (hmp_handler pf lim s)) ->
  num_online_cluster_cpus pf CLUSTER_BIG s <> 0%nat
  /\ hmp_handler pf lim s
     = big_engine pf lim (num_online_cluster_cpus pf CLUSTER_BIG s) s.
Proof.
  intros Hsite Hex.
  destruct (hmp_handler_calls pf lim s) as [(_ & _ & F) | H]; [|exact H].
  exfalso. apply Exists_exists in Hex. destruct Hex as (c & Hin & Hc).
  rewrite Forall_forall in F. specialize (F c Hin).
  destruct Hsite; subst site; by_site c.
Qed.

(** C9, as amended.  In a tick whose HMP handler finds a performance core
    online, a performance scale-up is requested only when the hysteresis
    counter has reached the configured [cycle_up], and is requested as soon
    as it has (the other conditions given); a performance scale-down is
    requested only when the counter has reached the 32-bit product
    [cycle_down * 3], which is three times the configured down-cycle count
    whenever that product fits in an [unsigned int]. *)
Theorem big_engine_cycle_thresholds (pf : platform) (s : asmp_state) :
  let mid := tick_middle pf s in
  let lim := tick_limits pf s in
  let new := new_calls s (asmp_work_fn pf s) in
  let nr_hmp := num_online_cluster_cpus pf CLUSTER_BIG mid in
  (Exists (fun c => from_site big_up c = true) new ->
   nr_hmp <> 0%nat /\ cycle_up (asmp_param s) <= cycle mid)
  /\ (nr_hmp <> 0%nat ->
      up_rate_of lim 1 < slow_rate (sample_big pf mid) ->
      Z.of_nat nr_hmp < MAX_CPU_PER_CLUSTERS ->
      cycle_up (asmp_param s) <= cycle mid ->
      Exists (fun c => from_site big_up c = true) new)
  /\ (Exists (fun c => from_site big_down c = true) new ->
      nr_hmp <> 0%nat /\ u32 (cycle_down (asmp_param s) * 3) <= cycle mid)
  /\ (0 <= cycle_down (asmp_param s) * 3 <= UINT_MAX ->
      Exists (fun c => from_site big_down c = true) new ->
      3 * cycle_down (asmp_param s) <= cycle mid).
Proof.
  simpl.
  assert (Hdown : Exists (fun c => from_site big_down c = true)
                         (new_calls s (asmp_work_fn pf s)) ->
                  num_online_cluster_cpus pf CLUSTER_BIG (tick_middle pf s)
                  <> 0%nat
                  /\ u32 (cycle_down (asmp_param s) * 3)
                     <= cycle (tick_middle pf s)).
  { intros Hex. apply tick_big_calls in Hex; [|right; reflexivity].
    destruct (hmp_handler_big_calls _ _ _ _ (or_intror eq_refl) Hex)
      as [Hnr E].
    split; [exact Hnr|]. rewrite E in Hex.
    destruct (big_engine_calls pf (tick_limits pf s)
                (num_online_cluster_cpus pf CLUSTER_BIG (tick_middle pf s))
                (tick_middle pf s))
      as [[_ En] | [(_ & _ & _ & _ & En) | (_ & _ & _ & H & _)]].
    - rewrite En in Hex. inversion Hex.
    - rewrite En in Hex. inversion Hex as [? ? Hc|? ? Hc]; subst;
        [discriminate|inversion Hc].
    - rewrite tick_middle_param in H. exact H. }
  split; [|split; [|split]].
  - intros Hex. apply tick_big_calls in Hex; [|left; reflexivity].
    destruct (hmp_handler_big_calls _ _ _ _ (or_introl eq_refl) Hex)
      as [Hnr E].
    split; [exact Hnr|]. rewrite E in Hex.
    destruct (big_engine_calls pf (tick_limits pf s)
                (num_online_cluster_cpus pf CLUSTER_BIG (tick_middle pf s))
                (tick_middle pf s))
      as [[_ En] | [(_ & _ & H & _) | (_ & _ & _ & _ & _ & [En | En])]].
    + rewrite En in Hex. inversion Hex.
    + rewrite tick_middle_param in H. exact H.
    + rewrite En in Hex. inversion Hex as [? ? Hc|? ? Hc]; subst;
        [discriminate|inversion Hc].
    + rewrite En in Hex. inversion Hex.
  - intros Hnr H1 H2 H3. rewrite tick_new_calls.
    apply Exists_app. right. apply Exists_app. left.
    unfold hmp_handler. apply Nat.eqb_neq in Hnr. rewrite Hnr.
    rewrite big_engine_up_fires;
      [|exact H1|exact H2|rewrite tick_middle_param; exact H3].
    erewrite new_calls_app by reflexivity.
    constructor. reflexivity.
  - exact Hdown.
  - intros Hfit Hex. destruct (Hdown Hex) as [_ H].
    unfold u32 in H. unfold UINT_MAX in Hfit.
    rewrite Z.mod_small in H by lia. lia.
Qed.

Lemma big_engine_cycle_thresholds_witness :
  Exists (fun c => from_site big_up c = true)
         (new_calls wrapping_state
                    (asmp_work_fn (platform8 [0; 0; 0; 0; 1958400; 1958400])
                                  wrapping_state)).
Proof.
  apply (proj1 (proj2 (big_engine_cycle_thresholds
                         (platform8 [0; 0; 0; 0; 1958400; 1958400])
                         wrapping_state)));
    vm_compute; first [discriminate | reflexivity].
Defined.

(** C9, as stated, fails: with [cycle_down = 1431655766] the product
    [cycle_down * 3] wraps to 2, and a performance core is taken offline with
    the counter at 2. *)
Lemma big_down_below_three_times :
  In (CpuDown big_down 5)
     (new_calls wrapping_state (asmp_work_fn moderate_platform wrapping_state))
  /\ cycle (tick_middle moderate_platform wrapping_state) = 2
  /\ ~ (3 * cycle_down (asmp_param wrapping_state)
        <= cycle (tick_middle moderate_platform wrapping_state)).
Proof.
  split; [|split].
  - vm_compute. left. reflexivity.
  - reflexivity.
  - vm_compute. intros H. apply H. reflexivity.
Qed.

(** ** The hysteresis counter *)

Lemma u32_range x : 0 <= u32 x < 4294967296.
Proof. unfold u32. apply Z.mod_pos_bound. lia. Qed.

Lemma u32_succ_le x : 0 <= x -> u32 (x + 1) <= x + 1.
Proof. intros H. unfold u32. apply Z.mod_le; lia. Qed.

Lemma hmp_handler_param pf lim s :
  asmp_param (hmp_handler pf lim s) = asmp_param s.
Proof.
  unfold hmp_handler. destruct (_ =? _)%nat.
  - unfold hmp_trade. destruct (_ >=? _); [|reflexivity].
    destruct (hmp_trade_down_spec pf
                (num_online_cluster_cpus pf CLUSTER_LITTLE s)
                (cpu_up hmp_up (get_offline_core pf CLUSTER_BIG s) s))
      as (_ & _ & _ & _ & Hp & _); [apply count_cpu_up_bounds|].
    rewrite Hp. reflexivity.
  - destruct (big_engine_cases pf lim
                (num_online_cluster_cpus pf CLUSTER_BIG s) s)
      as [E | [(_ & _ & _ & E) | (_ & _ & _ & _ & _ & E)]]; rewrite E;
      try reflexivity.
    destruct (cpu_online _ s); reflexivity.
Qed.

Lemma asmp_work_fn_param pf s : asmp_param (asmp_work_fn pf s) = asmp_param s.
Proof.
  rewrite asmp_work_fn_stages. simpl.
  rewrite hmp_handler_param. apply tick_middle_param.
Qed.

Lemma respects_thresholds_mono p k k' c :
  k <= k' -> respects_thresholds p k c -> respects_thresholds p k' c.
Proof.
  intros Hle (H1 & H2 & H3). repeat split; intros H;
    [specialize (H1 H)|specialize (H2 H)|specialize (H3 H)]; lia.
Qed.

(** One tick, by what it does to the counter and which engine requests it
    issues. *)
Lemma tick_cycle_facts pf s :
  let c1 := u32 (cycle s + 1) in
  let mid := tick_middle pf s in
  let fin := hmp_handler pf (tick_limits pf s) mid in
  let p := asmp_param s in
  ((cycle mid = c1 /\ new_calls (tick_start s) mid = [])
   \/ (cycle mid = 0
       /\ Forall (respects_thresholds p c1) (new_calls (tick_start s) mid)))
  /\ ((cycle fin = cycle mid
       /\ Forall (fun c => is_engine_call c = false) (new_calls mid fin))
      \/ (cycle fin = 0
          /\ Forall (respects_thresholds p (cycle mid)) (new_calls mid fin))).
Proof.
  simpl. split.
  - destruct (little_engine_calls pf (tick_limits pf s) (tick_start s))
      as [[E En] | [(_ & _ & H & Hc & En) | (_ & _ & _ & H & Hc & En)]];
      fold (tick_middle pf s) in *.
    + left. split; [rewrite E; reflexivity|exact En].
    + right. split; [exact Hc|]. rewrite En. repeat constructor;
        simpl in *; intros; try discriminate; try exact H;
        match goal with H0 : _ \/ _ |- _ => destruct H0; discriminate end.
    + right. split; [exact Hc|]. rewrite En. repeat constructor;
        simpl in *; intros; try discriminate; try exact H;
        match goal with H0 : _ \/ _ |- _ => destruct H0; discriminate end.
  - destruct (hmp_handler_calls pf (tick_limits pf s) (tick_middle pf s))
      as [(_ & Hc & F) | (_ & E)]; [left; split; assumption|].
    rewrite E.
    destruct (big_engine_calls pf (tick_limits pf s)
                (num_online_cluster_cpus pf CLUSTER_BIG (tick_middle pf s))
                (tick_middle pf s))
      as [[E' En] | [(_ & _ & H & Hc & En)
                    | (_ & _ & _ & H & Hc & [En | En])]];
      rewrite ?tick_middle_param in *.
    + left. rewrite En, E'. split; [reflexivity|constructor].
    + right. split; [exact Hc|]. rewrite En. repeat constructor;
        simpl in *; intros; try discriminate; try exact H;
        match goal with H0 : _ \/ _ |- _ => destruct H0; discriminate end.
    + right. split; [exact Hc|]. rewrite En. repeat constructor;
        simpl in *; intros; try discriminate; try exact H;
        match goal with H0 : _ \/ _ |- _ => destruct H0; discriminate end.
    + right. split; [exact Hc|]. rewrite En. constructor.
Qed.

Lemma not_engine_respects p k c :
  is_engine_call c = false -> respects_thresholds p k c.
Proof. intros H. unfold respects_thresholds. by_site c. Qed.

Lemma tick_respects pf s :
  Forall (respects_thresholds (asmp_param s) (u32 (cycle s + 1)))
         (new_calls s (asmp_work_fn pf s)).
Proof.
  rewrite tick_new_calls.
  destruct (tick_cycle_facts pf s) as [HL HH]. simpl in HL, HH.
  pose proof (u32_range (cycle s + 1)) as Hr.
  rewrite !Forall_app. split; [|split].
  - destruct HL as [[_ ->] | [_ F]]; [constructor|exact F].
  - destruct HH as [[_ F] | [_ F]].
    + eapply Forall_impl; [exact F|]. intros c. apply not_engine_respects.
    + eapply Forall_impl; [exact F|]. intros c.
      apply respects_thresholds_mono.
      destruct HL as [[-> _] | [-> _]]; lia.
  - repeat constructor; simpl; intros; try discriminate.
    destruct H; discriminate.
Qed.

Lemma tick_cycle_after pf s :
  cycle (asmp_work_fn pf s) = u32 (cycle s + 1) \/ cycle (asmp_work_fn pf s) = 0.
Proof.
  rewrite asmp_work_fn_stages. simpl.
  destruct (tick_cycle_facts pf s) as [HL HH]. simpl in HL, HH.
  destruct HH as [[-> _] | [-> _]]; [|right; reflexivity].
  destruct HL as [[-> _] | [-> _]]; [left|right]; reflexivity.
Qed.

Lemma tick_engine_resets pf s :
  Exists (fun c => is_engine_call c = true) (new_calls s (asmp_work_fn pf s)) ->
  cycle (asmp_work_fn pf s) = 0.
Proof.
  rewrite tick_new_calls, asmp_work_fn_stages. simpl.
  destruct (tick_cycle_facts pf s) as [HL HH]. simpl in HL, HH.
  intros Hex.
  destruct HH as [[-> F] | [-> _]]; [|reflexivity].
  destruct HL as [[_ En] | [-> _]]; [|reflexivity].
  exfalso. rewrite En in Hex. simpl in Hex.
  apply Exists_app in Hex. destruct Hex as [Hex|Hex].
  - apply Exists_exists in Hex. destruct Hex as (c & Hin & Hc).
    rewrite Forall_forall in F. rewrite (F c Hin) in Hc. discriminate.
  - inversion Hex as [? ? Hc|? ? Hc]; subst; [discriminate|inversion Hc].
Qed.

Lemma adds_of_new_calls (P Q : call -> Prop) s s' :
  adds Q s s' -> Forall P (new_calls s s') -> adds P s s'.
Proof.
  intros H F. exists (new_calls s s'). split; [|exact F].
  eapply adds_calls. exact H.
Qed.

Lemma run_ticks_respects pfs s :
  0 <= cycle s ->
  adds (respects_thresholds (asmp_param s)
                            (cycle s + Z.of_nat (length pfs)))
       s (run_ticks pfs s).
Proof.
  revert s. induction pfs as [|pf rest IH]; intros s Hc; [apply adds_refl|].
  cbn [run_ticks length].
  pose proof (u32_succ_le (cycle s) Hc) as Hle.
  pose proof (u32_range (cycle s + 1)) as Hr.
  assert (Hc1 : 0 <= cycle (asmp_work_fn pf s) <= cycle s + 1).
  { destruct (tick_cycle_after pf s) as [-> | ->]; lia. }
  eapply adds_trans.
  - eapply adds_impl;
      [|exact (adds_of_new_calls _ _ _ _ (asmp_work_fn_adds_anchor pf s)
                 (tick_respects pf s))].
    intros c. apply respects_thresholds_mono. lia.
  - eapply adds_impl; [|apply IH; lia].
    rewrite asmp_work_fn_param.
    intros c. apply respects_thresholds_mono. lia.
Qed.

Lemma hmp_trade_down_cycle pf n s : cycle (hmp_trade_down pf n s) = cycle s.
Proof.
  revert s. induction n as [|n IH]; intros s; [reflexivity|].
  cbn [hmp_trade_down]. destruct (2 <? S n)%nat; [|reflexivity].
  rewrite IH. reflexivity.
Qed.

Lemma hmp_trade_cycle pf nr s : cycle (hmp_trade pf nr s) = cycle s.
Proof.
  unfold hmp_trade. destruct (_ >=? _); [|reflexivity].
  rewrite hmp_trade_down_cycle. reflexivity.
Qed.

Lemma existsb_none (f : call -> bool) l :
  Forall (fun c => f c = false) l -> existsb f l = false.
Proof.
  induction 1 as [|c l Hc _ IH]; simpl; [reflexivity|].
  rewrite Hc, IH. reflexivity.
Qed.

Lemma handler_calls_not_little pf lim s :
  Forall (fun c => is_little_call c = false)
         (new_calls s (hmp_handler pf lim s)).
Proof.
  eapply Forall_impl;
    [apply (adds_new_calls _ _ _ (hmp_handler_sites pf lim s))|].
  intros c Hc. unfold is_little_call. by_site c.
Qed.

Lemma little_calls_not_trade pf lim s :
  Forall (fun c => is_little_call c = true /\ is_trade_call c = false)
         (new_calls s (little_engine pf lim s)).
Proof.
  eapply Forall_impl;
    [apply (adds_new_calls _ _ _ (little_engine_sites pf lim s))|].
  intros c Hc. unfold is_little_call, is_trade_call. by_site c.
Qed.

(** The counter that the HMP handler reads: 0 if the efficiency decision
    issued a request in this tick, and the incremented counter if not. *)
Lemma tick_counter_read pf s :
  cycle (tick_middle pf s)
  = if existsb is_little_call (new_calls s (asmp_work_fn pf s))
    then 0 else u32 (cycle s + 1).
Proof.
  rewrite tick_new_calls, !existsb_app.
  rewrite (existsb_none _ _ (handler_calls_not_little
                               pf (tick_limits pf s) (tick_middle pf s))).
  change (existsb is_little_call [QueueDelayedWork DELAY_CHECK]) with false.
  rewrite !orb_false_r.
  destruct (little_engine_calls pf (tick_limits pf s) (tick_start s))
    as [[E En] | [(_ & _ & _ & Hc & En) | (_ & _ & _ & _ & Hc & En)]];
    fold (tick_middle pf s) in *; rewrite En.
  - rewrite E. reflexivity.
  - exact Hc.
  - exact Hc.
Qed.

Lemma tick_respects_read pf s :
  let c1 := u32 (cycle s + 1) in
  let c2 := cycle (tick_middle pf s) in
  Forall (fun c => respects_thresholds (asmp_param s)
                     (if is_little_call c then c1 else c2) c)
         (new_calls s (asmp_work_fn pf s)).
Proof.
  cbv zeta. rewrite tick_new_calls.
  destruct (tick_cycle_facts pf s) as [HL HH]. cbv zeta in HL, HH.
  pose proof (little_calls_not_trade pf (tick_limits pf s) (tick_start s))
    as HLs.
  fold (tick_middle pf s) in HLs.
  pose proof (handler_calls_not_little pf (tick_limits pf s) (tick_middle pf s))
    as HHs.
  rewrite !Forall_app. split; [|split].
  - destruct HL as [[_ ->] | [_ F]]; [constructor|].
    rewrite Forall_forall in F, HLs. apply Forall_forall. intros c Hin.
    destruct (HLs c Hin) as [-> _]. exact (F c Hin).
  - rewrite Forall_forall in HHs. apply Forall_forall. intros c Hin.
    rewrite (HHs c Hin).
    destruct HH as [[_ F] | [_ F]]; rewrite Forall_forall in F.
    + apply not_engine_respects. exact (F c Hin).
    + exact (F c Hin).
  - repeat constructor; simpl; intros; try discriminate.
    destruct H; discriminate.
Qed.

Lemma tick_trade_keeps_counter pf s :
  Exists (fun c => is_trade_call c = true) (new_calls s (asmp_work_fn pf s)) ->
  cycle (asmp_work_fn pf s) = cycle (tick_middle pf s).
Proof.
  rewrite tick_new_calls, asmp_work_fn_stages. intros Hex.
  change (cycle (reschedule_asmp_workq
                   (hmp_handler pf (tick_limits pf s) (tick_middle pf s))))
    with (cycle (hmp_handler pf (tick_limits pf s) (tick_middle pf s))).
  unfold hmp_handler in *.
  destruct (_ =? _)%nat; [apply hmp_trade_cycle|].
  exfalso. apply Exists_app in Hex. destruct Hex as [Hex|Hex].
  - apply Exists_exists in Hex. destruct Hex as (c & Hin & Hc).
    pose proof (little_calls_not_trade pf (tick_limits pf s) (tick_start s))
      as F.
    fold (tick_middle pf s) in F. rewrite Forall_forall in F.
    destruct (F c Hin) as [_ Hn]. congruence.
  - apply Exists_app in Hex. destruct Hex as [Hex|Hex].
    + apply Exists_exists in Hex. destruct Hex as (c & Hin & Hc).
      pose proof (adds_new_calls _ _ _
                    (big_engine_sites pf (tick_limits pf s)
                       (num_online_cluster_cpus pf CLUSTER_BIG
                          (tick_middle pf s))
                       (tick_middle pf s))) as F.
      rewrite Forall_forall in F. specialize (F c Hin).
      unfold is_trade_call in Hc. by_site c.
    + inversion Hex as [? ? Hc|? ? Hc]; subst; [discriminate|inversion Hc].
Qed.

(** C3, as amended.  Each tick increments the hysteresis counter once
    (modulo 2^32) before any decision; the efficiency decision reads that
    value, and the HMP handler reads 0 if the efficiency decision issued a
    request in the tick and that value if not.  At the end of the tick the
    counter is the incremented value or 0, and it is 0 whenever the decision
    engine of either cluster issued a request in the tick.  The HMP trade
    does not touch the counter: a tick that issues a trade request ends with
    the counter as the efficiency decision left it.  A request of the
    decision engine is issued only with the counter that its decision reads
    at or above the threshold of its kind ([cycle_up], [cycle_down], or the
    32-bit [cycle_down * 3]); so a second engine request in a tick needs a
    threshold of 0, after a tick with an engine request an engine request in
    the next [n] ticks has a threshold of at most [n], and over any run of
    ticks that starts with the counter at [c0 >= 0], an engine request whose
    threshold exceeds [c0] plus the number of ticks cannot occur. *)
Theorem hysteresis_counter (pf : platform) (pfs : list platform)
        (s : asmp_state) :
  let s' := asmp_work_fn pf s in
  let p := asmp_param s in
  let new := new_calls s s' in
  let c1 := u32 (cycle s + 1) in
  let c2 := if existsb is_little_call new then 0 else c1 in
  cycle (tick_middle pf s) = c2
  /\ (cycle s' = c1 \/ cycle s' = 0)
  /\ (Exists (fun c => is_engine_call c = true) new -> cycle s' = 0)
  /\ (forall nr st, cycle (hmp_trade pf nr st) = cycle st)
  /\ (Exists (fun c => is_trade_call c = true) new -> cycle s' = c2)
  /\ Forall (fun c => respects_thresholds p
                        (if is_little_call c then c1 else c2) c) new
  /\ (Exists (fun c => is_engine_call c = true) new ->
      Forall (respects_thresholds p (Z.of_nat (length pfs)))
             (new_calls s' (run_ticks pfs s')))
  /\ (0 <= cycle s ->
      Forall (respects_thresholds p (cycle s + Z.of_nat (length pfs)))
             (new_calls s (run_ticks pfs s))).
Proof.
  cbv zeta. rewrite <- tick_counter_read.
  split; [reflexivity|]. split; [apply tick_cycle_after|].
  split; [apply tick_engine_resets|]. split; [apply hmp_trade_cycle|].
  split; [apply tick_trade_keeps_counter|].
  split; [apply tick_respects_read|]. split.
  - intros Hex. apply tick_engine_resets in Hex.
    assert (Hc : 0 <= cycle (asmp_work_fn pf s)) by lia.
    pose proof (adds_new_calls _ _ _
                  (run_ticks_respects pfs (asmp_work_fn pf s) Hc)) as F.
    rewrite asmp_work_fn_param, Hex in F. exact F.
  - intros Hc. apply (adds_new_calls _ _ _ (run_ticks_respects pfs s Hc)).
Qed.

Lemma hysteresis_counter_witness :
  cycle (asmp_work_fn loaded_platform little2_state) = 0
  /\ Forall (respects_thresholds param8 1)
            (new_calls (asmp_work_fn loaded_platform little2_state)
                       (run_ticks [loaded_platform]
                          (asmp_work_fn loaded_platform little2_state)))
  /\ In (CpuUp little_up 2)
        (new_calls little2_state (asmp_work_fn loaded_platform little2_state))
  /\ In (CpuUp little_up 3)
        (new_calls (asmp_work_fn loaded_platform little2_state)
                   (run_ticks [loaded_platform]
                      (asmp_work_fn loaded_platform little2_state))).
Proof.
  destruct (hysteresis_counter loaded_platform [loaded_platform] little2_state)
    as (_ & _ & Hreset & _ & _ & _ & Hspace & _).
  assert (Hex : Exists (fun c => is_engine_call c = true)
                  (new_calls little2_state
                     (asmp_work_fn loaded_platform little2_state))).
  { vm_compute. constructor. reflexivity. }
  split; [exact (Hreset Hex)|]. split; [exact (Hspace Hex)|].
  split; vm_compute; left; reflexivity.
Defined.

(** C3, as stated, fails: in this tick the HMP handler brings core 4 online
    and takes cores 1 and 2 offline, and the counter goes from 5 to 6. *)
Lemma trade_down_keeps_counter :
  In (CpuUp hmp_up 4)
     (new_calls little4_state (asmp_work_fn moderate_platform little4_state))
  /\ In (CpuDown hmp_down 1)
        (new_calls little4_state (asmp_work_fn moderate_platform little4_state))
  /\ cycle little4_state = 5
  /\ cycle (asmp_work_fn moderate_platform little4_state) = 6.
Proof.
  vm_compute. repeat split; auto.
Qed.

(** ** How far a decision moves the online count of its cluster *)

Lemma little_engine_count pf lim s :
  let n := Z.of_nat (num_online_cluster_cpus pf CLUSTER_LITTLE s) in
  let n' := Z.of_nat (num_online_cluster_cpus pf CLUSTER_LITTLE
                        (little_engine pf lim s)) in
  Z.min n (min_cpus (asmp_param s)) <= n' <= Z.max n MAX_CPU_PER_CLUSTERS.
Proof.
  simpl.
  destruct (little_engine_cases pf lim s)
    as [E | [(_ & Hnr & _ & E) | (_ & _ & _ & Hnr & _ & Hon & Hcl & E)]];
    rewrite E.
  - lia.
  - rewrite count_set_cycle.
    pose proof (count_cpu_up_bounds pf CLUSTER_LITTLE little_up
                  (cpumask_next_zero 0 s) s). lia.
  - rewrite count_set_cycle.
    pose proof (count_cpu_down pf CLUSTER_LITTLE little_down _ s Hon Hcl). lia.
Qed.

Lemma little_engine_count_other pf lim s cluster :
  cluster <> CLUSTER_LITTLE ->
  (num_online_cluster_cpus pf cluster s
   <= num_online_cluster_cpus pf cluster (little_engine pf lim s))%nat.
Proof.
  intros Hne.
  destruct (little_engine_cases pf lim s)
    as [E | [(_ & Hnr & _ & E) | (_ & _ & _ & Hnr & _ & Hon & Hcl & E)]];
    rewrite E.
  - lia.
  - rewrite count_set_cycle. apply count_cpu_up_bounds.
  - rewrite count_set_cycle, count_cpu_down_other; [lia|].
    right. congruence.
Qed.

Lemma big_engine_count pf lim s :
  let n := num_online_cluster_cpus pf CLUSTER_BIG s in
  let n' := Z.of_nat (num_online_cluster_cpus pf CLUSTER_BIG
                        (big_engine pf lim n s)) in
  Z.min (Z.of_nat n) (min_cpus_hmp (asmp_param s)) <= n'
  <= Z.max (Z.of_nat n) MAX_CPU_PER_CLUSTERS.
Proof.
  simpl.
  destruct (big_engine_cases pf lim (num_online_cluster_cpus pf CLUSTER_BIG s) s)
    as [E | [(_ & Hnr & _ & E) | (_ & _ & _ & Hnr & _ & E)]];
    rewrite E.
  - lia.
  - rewrite count_set_cycle.
    pose proof (count_cpu_up_bounds pf CLUSTER_BIG big_up
                  (cpumask_next_zero 3 s) s). lia.
  - rewrite count_set_cycle. destruct (cpu_online _ s); [|lia].
    pose proof (count_cpu_down_bounds pf CLUSTER_BIG big_down
                  (slow_cpu (sample_big pf s)) s). lia.
Qed.

(** With core 4 outside the efficiency cluster, the performance decision
    never takes an efficiency core offline: its candidate is a performance
    core, or the initial value 4 of [slow_cpu_hmp]. *)
Lemma big_engine_count_little pf lim nr_hmp s :
  topology_physical_package_id pf 4 <> CLUSTER_LITTLE ->
  (num_online_cluster_cpus pf CLUSTER_LITTLE s
   <= num_online_cluster_cpus pf CLUSTER_LITTLE (big_engine pf lim nr_hmp s))%nat.
Proof.
  intros H4.
  destruct (big_engine_cases pf lim nr_hmp s)
    as [E | [(_ & Hnr & _ & E) | (_ & _ & _ & Hnr & _ & E)]];
    rewrite E.
  - lia.
  - rewrite count_set_cycle. apply count_cpu_up_bounds.
  - rewrite count_set_cycle. destruct (cpu_online _ s); [|lia].
    rewrite count_cpu_down_other; [lia|]. right.
    destruct (sample_cluster_candidate pf CLUSTER_BIG 4%nat
                (cpufreq_quick_get pf (get_online_core pf CLUSTER_BIG s)) s)
      as [Ei | (_ & _ & Hcl)]; fold (sample_big pf s) in *.
    + rewrite Ei. exact H4.
    + rewrite Hcl. discriminate.
Qed.

(** C2, as amended.  In every tick the decision on the efficiency cluster
    leaves its online count between the smaller of the count before and
    [min_cpus], and the larger of the count before and
    [MAX_CPU_PER_CLUSTERS]; when the HMP handler finds a performance core
    online, the decision on the performance cluster does the same with
    [min_cpus_hmp]; over the whole tick the performance count does not fall
    below the smaller of its initial value and [min_cpus_hmp], and, with
    core 4 outside the efficiency cluster, the performance decision does not
    lower the efficiency count.  The configured [max_cpus] plays no part, and
    nothing is said of the HMP trade-down, which ignores [min_cpus]. *)
Theorem engine_keeps_count_in_bounds (pf : platform) (s : asmp_state) :
  let little x := Z.of_nat (num_online_cluster_cpus pf CLUSTER_LITTLE x) in
  let big x := Z.of_nat (num_online_cluster_cpus pf CLUSTER_BIG x) in
  let mid := tick_middle pf s in
  let fin := asmp_work_fn pf s in
  let p := asmp_param s in
  (Z.min (little s) (min_cpus p) <= little mid
   <= Z.max (little s) MAX_CPU_PER_CLUSTERS)
  /\ (big mid <> 0 ->
      Z.min (big mid) (min_cpus_hmp p) <= big fin
      <= Z.max (big mid) MAX_CPU_PER_CLUSTERS)
  /\ Z.min (big s) (min_cpus_hmp p) <= big fin
  /\ (big mid <> 0 ->
      topology_physical_package_id pf 4 <> CLUSTER_LITTLE ->
      little mid <= little fin
      /\ Z.min (little s) (min_cpus p) <= little fin).
Proof.
  simpl.
  pose proof (little_engine_count pf (tick_limits pf s) (tick_start s)) as HL.
  simpl in HL. fold (tick_middle pf s) in HL.
  change (num_online_cluster_cpus pf CLUSTER_LITTLE (tick_start s))
    with (num_online_cluster_cpus pf CLUSTER_LITTLE s) in HL.
  change (asmp_param (tick_start s)) with (asmp_param s) in HL.
  pose proof (little_engine_count_other pf (tick_limits pf s) (tick_start s)
                CLUSTER_BIG ltac:(discriminate)) as HLB.
  fold (tick_middle pf s) in HLB.
  change (num_online_cluster_cpus pf CLUSTER_BIG (tick_start s))
    with (num_online_cluster_cpus pf CLUSTER_BIG s) in HLB.
  change (num_online_cluster_cpus pf CLUSTER_BIG (asmp_work_fn pf s))
    with (num_online_cluster_cpus pf CLUSTER_BIG
            (hmp_handler pf (tick_limits pf s) (tick_middle pf s))).
  change (num_online_cluster_cpus pf CLUSTER_LITTLE (asmp_work_fn pf s))
    with (num_online_cluster_cpus pf CLUSTER_LITTLE
            (hmp_handler pf (tick_limits pf s) (tick_middle pf s))).
  assert (HB : num_online_cluster_cpus pf CLUSTER_BIG (tick_middle pf s)
               <> 0%nat ->
               hmp_handler pf (tick_limits pf s) (tick_middle pf s)
               = big_engine pf (tick_limits pf s)
                   (num_online_cluster_cpus pf CLUSTER_BIG (tick_middle pf s))
                   (tick_middle pf s)).
  { intros Hnz. unfold hmp_handler. apply Nat.eqb_neq in Hnz.
    rewrite Hnz. reflexivity. }
  pose proof (big_engine_count pf (tick_limits pf s) (tick_middle pf s)) as HBc.
  simpl in HBc. rewrite tick_middle_param in HBc.
  split; [exact HL|]. split; [|split].
  - intros Hnz. rewrite HB by lia. exact HBc.
  - destruct (Nat.eq_dec
                (num_online_cluster_cpus pf CLUSTER_BIG (tick_middle pf s))
                0%nat) as [Hz|Hnz].
    + lia.
    + rewrite HB by exact Hnz. lia.
  - intros Hnz H4. rewrite HB by lia.
    pose proof (big_engine_count_little pf (tick_limits pf s)
                  (num_online_cluster_cpus pf CLUSTER_BIG (tick_middle pf s))
                  (tick_middle pf s) H4). lia.
Qed.

Lemma engine_keeps_count_in_bounds_witness :
  Z.of_nat (num_online_cluster_cpus moderate_platform CLUSTER_LITTLE
              (tick_middle moderate_platform wrapping_state))
  <= Z.of_nat (num_online_cluster_cpus moderate_platform CLUSTER_LITTLE
                 (asmp_work_fn moderate_platform wrapping_state))
  /\ Z.min (Z.of_nat (num_online_cluster_cpus moderate_platform CLUSTER_LITTLE
                        wrapping_state))
           (min_cpus (asmp_param wrapping_state))
     <= Z.of_nat (num_online_cluster_cpus moderate_platform CLUSTER_LITTLE
                    (asmp_work_fn moderate_platform wrapping_state)).
Proof.
  apply (proj2 (proj2 (proj2 (engine_keeps_count_in_bounds
                                moderate_platform wrapping_state)))).
  - vm_compute. discriminate.
  - vm_compute. discriminate.
Defined.

(** C2, as stated, fails: with [min_cpus = 3] and four efficiency cores
    online, the tick leaves two efficiency cores online. *)
Lemma count_leaves_configured_range :
  num_online_cluster_cpus moderate_platform CLUSTER_LITTLE
    (asmp_work_fn moderate_platform min3_state) = 2%nat
  /\ ~ (min_cpus (asmp_param min3_state)
        <= Z.of_nat (num_online_cluster_cpus moderate_platform CLUSTER_LITTLE
                       (asmp_work_fn moderate_platform min3_state))
        <= max_cpus (asmp_param min3_state)).
Proof.
  split; [reflexivity|]. vm_compute. intros [H _]. apply H. reflexivity.
Qed.

(** ** Suspend *)

Lemma asmp_suspend_loop_spec cpu s :
  let s' := asmp_suspend_loop cpu s in
  calls s'
  = calls s
    ++ map (CpuDown suspend_down)
           (rev (List.filter (fun c => cpu_online c s && negb (c =? 0)%nat)
                             (seq 0 (S cpu))))
  /\ (forall c, cpu_online c s'
                = if (c =? 0)%nat then cpu_online 0 s
                  else if (c <=? cpu)%nat then false else cpu_online c s)
  /\ enabled s' = enabled s
  /\ asmp_work_pending s' = asmp_work_pending s.
Proof.
  revert s. induction cpu as [|n IH]; intros s.
  - simpl. rewrite orb_true_r, andb_false_r. simpl. rewrite app_nil_r.
    repeat split; auto. intros c.
    destruct (Nat.eqb_spec c 0) as [->|Hnz]; [reflexivity|].
    destruct (Nat.leb_spec c 0); [lia|reflexivity].
  - cbn [asmp_suspend_loop]. change (S n =? 0)%nat with false.
    rewrite orb_false_r.
    set (s1 := if negb (cpu_online (S n) s) then s
               else cpu_down suspend_down (S n) s).
    assert (Hother : forall c, c <> S n -> cpu_online c s1 = cpu_online c s).
    { intros c Hc. unfold s1. destruct (cpu_online (S n) s); simpl;
        [|reflexivity].
      rewrite cpu_online_cpu_down.
      destruct (Nat.eqb_spec c (S n)); [contradiction|reflexivity]. }
    assert (Hself : cpu_online (S n) s1 = false).
    { unfold s1. destruct (cpu_online (S n) s) eqn:E; simpl; [|exact E].
      rewrite cpu_online_cpu_down, Nat.eqb_refl. reflexivity. }
    destruct (IH s1) as (Hcalls & Hon & Hen & Hpend).
    split; [|split; [|split]].
    + rewrite Hcalls.
      rewrite (List.seq_S (S n) 0), List.filter_app, rev_app_distr, map_app.
      rewrite (filter_length_ext
                 (fun c => cpu_online c s1 && negb (c =? 0)%nat)
                 (fun c => cpu_online c s && negb (c =? 0)%nat)).
      2: { intros c Hc. apply List.in_seq in Hc. rewrite Hother by lia.
           reflexivity. }
      rewrite app_assoc. f_equal. simpl. unfold s1.
      destruct (cpu_online (S n) s); simpl; [reflexivity|].
      rewrite app_nil_r. reflexivity.
    + intros c. rewrite Hon.
      destruct (Nat.eqb_spec c 0) as [->|Hnz]; [apply Hother; lia|].
      destruct (Nat.leb_spec c n), (Nat.leb_spec c (S n)); try lia;
        try reflexivity.
      * assert (c = S n) as -> by lia. exact Hself.
      * apply Hother. lia.
    + rewrite Hen. unfold s1. destruct (cpu_online (S n) s); reflexivity.
    + rewrite Hpend. unfold s1. destruct (cpu_online (S n) s); reflexivity.
Qed.

Lemma asmp_suspend_loop_order s :
  rev (List.filter (fun c => cpu_online c s && negb (c =? 0)%nat)
                   (seq 0 (S (nr_cpu_ids s))))
  = suspend_order s.
Proof.
  unfold suspend_order, for_each_online_cpu, for_each_possible_cpu.
  rewrite filter_filter, List.seq_S, List.filter_app. simpl.
  assert (cpu_online (nr_cpu_ids s) s = false) as ->.
  { destruct (cpu_online (nr_cpu_ids s) s) eqn:E; [|reflexivity].
    apply cpu_online_lt in E. lia. }
  simpl. rewrite app_nil_r. reflexivity.
Qed.

Lemma seq_increasing a n : StronglySorted lt (seq a n).
Proof.
  revert a. induction n as [|n IH]; intros a; simpl; constructor.
  - apply IH.
  - apply List.Forall_forall. intros x Hx. apply List.in_seq in Hx. lia.
Qed.

Lemma filter_sorted (R : nat -> nat -> Prop) (p : nat -> bool) l :
  StronglySorted R l -> StronglySorted R (List.filter p l).
Proof.
  induction 1 as [|a l Hs IH Hall]; simpl; [constructor|].
  destruct (p a); [|exact IH]. constructor; [exact IH|].
  apply List.Forall_forall. intros x Hx. apply List.filter_In in Hx.
  rewrite List.Forall_forall in Hall. apply Hall. tauto.
Qed.

Lemma rev_sorted l :
  StronglySorted lt l -> StronglySorted (fun a b => (b < a)%nat) (rev l).
Proof.
  induction 1 as [|a l Hs IH Hall]; simpl; [constructor|].
  assert (Hsnoc : forall k, StronglySorted (fun a b => (b < a)%nat) k ->
                            Forall (fun x => (a < x)%nat) k ->
                            StronglySorted (fun a b => (b < a)%nat) (k ++ [a])).
  { induction 1 as [|b k Hk IHk Hb]; intros Hgt; simpl.
    - repeat constructor.
    - inversion Hgt as [|? ? Hab Hgt']; subst. constructor; [auto|].
      apply List.Forall_app. split; [exact Hb|]. repeat constructor. exact Hab. }
  apply Hsnoc; [exact IH|].
  apply List.Forall_forall. intros x Hx. apply List.in_rev in Hx.
  rewrite List.Forall_forall in Hall. apply Hall. exact Hx.
Qed.

Lemma suspend_order_descending s :
  StronglySorted (fun a b => (b < a)%nat) (suspend_order s).
Proof.
  unfold suspend_order, for_each_online_cpu, for_each_possible_cpu.
  apply rev_sorted. do 2 apply filter_sorted. apply seq_increasing.
Qed.

Lemma cpu_all_up_work_pending s :
  asmp_work_pending (cpu_all_up s) = asmp_work_pending s.
Proof.
  unfold cpu_all_up. generalize (for_each_possible_cpu s) as l.
  intros l. revert s. induction l as [|a l IH]; intros s; [reflexivity|].
  cbn [fold_left]. rewrite IH. destruct (cpu_online a s); reflexivity.
Qed.

Lemma asmp_suspend_idle s :
  asmp_work_pending s = false -> asmp_work_pending (asmp_suspend s) = false.
Proof.
  intros Hp. unfold asmp_suspend.
  destruct (asmp_suspend_loop_spec (nr_cpu_ids s) s) as (_ & _ & _ & Hpend).
  cbv zeta in Hpend.
  destruct (enabled _); [reflexivity|]. rewrite Hpend. exact Hp.
Qed.

(** With the tick not queued, only a display-on event or a write to the
    enabled parameter queues it. *)
Lemma driver_step_idle e s :
  queues_tick e = false -> asmp_work_pending s = false ->
  asmp_work_pending (driver_step e s) = false.
Proof.
  intros He Hp. destruct e as [pf|ev|parsed|a sc n|]; simpl.
  - unfold timer_fires. rewrite Hp. exact Hp.
  - destruct ev; simpl in *; try exact Hp; [discriminate|].
    apply asmp_suspend_idle. exact Hp.
  - discriminate.
  - unfold store_one. destruct sc; simpl; exact Hp.
  - unfold cpu_all_up_work_runs. destruct (cpu_all_up_pending s); [|exact Hp].
    rewrite cpu_all_up_work_pending. exact Hp.
Qed.

Lemma driver_run_idle es s :
  Forall (fun e => queues_tick e = false) es -> asmp_work_pending s = false ->
  asmp_work_pending (driver_run es s) = false.
Proof.
  intros F. revert s. induction F as [|e es He _ IH]; intros s Hp; [exact Hp|].
  simpl. apply IH. apply driver_step_idle; assumption.
Qed.

(** C5, as amended.  On a display-off event the notifier runs
    [asmp_suspend], which first takes every online core other than core 0
    offline, one request after the other from the highest identifier down,
    and only then, if the driver is enabled, cancels the tick synchronously.
    When it returns every core but core 0 is offline; if the driver is
    enabled the tick is not pending, and it stays so, the timer running
    nothing, over any sequence of timer expiries, display events other than
    display-on, attribute writes and runs of the [cpu_all_up] worker.  The
    display-on event queues the tick again; so does, with the display still
    off, a write to the enabled parameter that leaves the driver enabled
    ([set_enabled] does not look at the display), and the tick then runs at
    the next timer expiry. *)
Theorem suspend_offlines_then_cancels (s : asmp_state) :
  let s' := lcd_notifier_call LCD_EVENT_OFF_END s in
  s' = asmp_suspend s
  /\ new_calls s s'
     = map (CpuDown suspend_down) (suspend_order s)
       ++ (if enabled s then [CancelDelayedWorkSync] else [])
  /\ StronglySorted (fun a b => (b < a)%nat) (suspend_order s)
  /\ (forall cpu, cpu <> 0%nat -> cpu_online cpu s' = false)
  /\ cpu_online 0 s' = cpu_online 0 s
  /\ (enabled s = true ->
      asmp_work_pending s' = false
      /\ (forall pf, timer_fires pf s' = s')
      /\ (forall es, Forall (fun e => queues_tick e = false) es ->
            asmp_work_pending (driver_run es s') = false
            /\ forall pf, timer_fires pf (driver_run es s') = driver_run es s')
      /\ asmp_work_pending (lcd_notifier_call LCD_EVENT_ON_START s') = true
      /\ (forall parsed pf, parsed <> Some false ->
            asmp_work_pending (snd (set_enabled parsed s')) = true
            /\ timer_fires pf (snd (set_enabled parsed s'))
               = asmp_work_fn pf (set_work_pending false
                                    (snd (set_enabled parsed s'))))).
Proof.
  simpl. unfold asmp_suspend.
  destruct (asmp_suspend_loop_spec (nr_cpu_ids s) s)
    as (Hcalls & Hon & Hen & Hpend).
  rewrite asmp_suspend_loop_order in Hcalls.
  set (s1 := asmp_suspend_loop (nr_cpu_ids s) s) in *.
  assert (Hoff : forall cpu, cpu <> 0%nat -> cpu_online cpu s1 = false).
  { intros cpu Hnz. rewrite Hon.
    destruct (Nat.eqb_spec cpu 0); [contradiction|].
    destruct (Nat.leb_spec cpu (nr_cpu_ids s)); [reflexivity|].
    destruct (cpu_online cpu s) eqn:E; [|reflexivity].
    apply cpu_online_lt in E. lia. }
  split; [reflexivity|]. rewrite Hen.
  destruct (enabled s) eqn:Een.
  - split; [|split; [|split; [|split]]].
    + apply new_calls_app. simpl. rewrite Hcalls, <- app_assoc. reflexivity.
    + apply suspend_order_descending.
    + exact Hoff.
    + change (cpu_online 0 (cancel_delayed_work_sync s1))
        with (cpu_online 0 s1). rewrite Hon. reflexivity.
    + intros _. split; [reflexivity|]. split; [reflexivity|].
      split; [|split].
      * intros es F.
        assert (Hidle : asmp_work_pending
                          (driver_run es (cancel_delayed_work_sync s1)) = false)
          by (apply driver_run_idle; [exact F|reflexivity]).
        split; [exact Hidle|]. intros pf. unfold timer_fires.
        rewrite Hidle. reflexivity.
      * unfold asmp_resume. simpl. rewrite Hen. reflexivity.
      * intros parsed pf Hparsed.
        assert (Hq : asmp_work_pending
                       (snd (set_enabled parsed (cancel_delayed_work_sync s1)))
                     = true).
        { unfold set_enabled, param_set_bool.
          destruct parsed as [[|]|]; simpl; [reflexivity|congruence|].
          rewrite Hen. reflexivity. }
        split; [exact Hq|]. unfold timer_fires. rewrite Hq. reflexivity.
  - split; [|split; [|split; [|split]]].
    + apply new_calls_app. rewrite app_nil_r. exact Hcalls.
    + apply suspend_order_descending.
    + exact Hoff.
    + rewrite Hon. reflexivity.
    + discriminate.
Qed.

Lemma suspend_offlines_then_cancels_witness :
  asmp_work_pending
    (driver_run [TimerExpires loaded_platform;
                 AttrWritten attr_min_cpus (Some 2) 2;
                 DisplayEvent LCD_EVENT_OFF_END; AllUpWorkRuns;
                 TimerExpires loaded_platform]
       (lcd_notifier_call LCD_EVENT_OFF_END screen_on_state))
  = false
  /\ asmp_work_pending
       (lcd_notifier_call LCD_EVENT_ON_START
          (lcd_notifier_call LCD_EVENT_OFF_END screen_on_state)) = true
  /\ timer_fires loaded_platform
       (snd (set_enabled (Some true)
               (lcd_notifier_call LCD_EVENT_OFF_END screen_on_state)))
     = asmp_work_fn loaded_platform
         (set_work_pending false
            (snd (set_enabled (Some true)
                    (lcd_notifier_call LCD_EVENT_OFF_END screen_on_state)))).
Proof.
  destruct (suspend_offlines_then_cancels screen_on_state)
    as (_ & _ & _ & _ & _ & H).
  destruct (H eq_refl) as (_ & _ & Hidle & Hon & Hwrite).
  split; [|split; [exact Hon|]].
  - apply Hidle. repeat constructor.
  - apply (Hwrite (Some true) loaded_platform). discriminate.
Defined.

(** C5, as stated, fails: the cancellation is the last call of the suspend
    transition, after the offline requests, not the first. *)
Lemma suspend_cancels_last :
  new_calls screen_on_state
            (lcd_notifier_call LCD_EVENT_OFF_END screen_on_state)
  = [CpuDown suspend_down 5; CpuDown suspend_down 4; CpuDown suspend_down 3;
     CpuDown suspend_down 1; CancelDelayedWorkSync]
  /\ ~ (exists downs,
          new_calls screen_on_state
                    (lcd_notifier_call LCD_EVENT_OFF_END screen_on_state)
          = CancelDelayedWorkSync :: downs).
Proof.
  split; [reflexivity|]. intros [downs H]. vm_compute in H. discriminate.
Qed.

(** ** The candidate of the sampling loop *)

Lemma sample_step_cases pf cluster acc a :
  let sampled := (topology_physical_package_id pf a =? cluster)
                 && negb (a =? 0)%nat in
  let acc' := sample_step pf cluster acc a in
  (sampled = false /\ acc' = acc)
  \/ (sampled = true /\ cpufreq_quick_get pf a <= slow_rate acc
      /\ slow_cpu acc' = a /\ slow_rate acc' = cpufreq_quick_get pf a)
  \/ (sampled = true /\ slow_rate acc < cpufreq_quick_get pf a
      /\ slow_cpu acc' = slow_cpu acc /\ slow_rate acc' = slow_rate acc).
Proof.
  simpl. unfold sample_step.
  destruct (Z.eqb_spec (topology_physical_package_id pf a) cluster); simpl;
    [|left; auto].
  destruct (Nat.eqb_spec a 0); simpl; [left; auto|].
  destruct (Z.leb_spec (cpufreq_quick_get pf a) (slow_rate acc)).
  - right. left. auto.
  - right. right. destruct (_ >? _); auto.
Qed.

Lemma sample_fold_slowest pf cluster l acc :
  let r := fold_left (sample_step pf cluster) l acc in
  let cores :=
    List.filter (fun cpu => (topology_physical_package_id pf cpu =? cluster)
                            && negb (cpu =? 0)%nat) l in
  slow_rate r <= slow_rate acc
  /\ ((slow_cpu r = slow_cpu acc /\ slow_rate r = slow_rate acc
       /\ Forall (fun x => slow_rate acc < cpufreq_quick_get pf x) cores)
      \/ (slow_rate r = cpufreq_quick_get pf (slow_cpu r)
          /\ slowest_last pf cores (slow_cpu r))).
Proof.
  revert acc. induction l as [|a l IH]; intros acc.
  - simpl. split; [lia|]. left. repeat split; constructor.
  - cbn [fold_left List.filter].
    specialize (IH (sample_step pf cluster acc a)). cbv zeta in IH.
    destruct IH as [Hle IH].
    destruct (sample_step_cases pf cluster acc a)
      as [[Em E] | [(Em & Hr & Ec & Es) | (Em & Hr & Ec & Es)]];
      cbv zeta in *; rewrite Em.
    + rewrite E in *. split; assumption.
    + rewrite Es in Hle, IH. rewrite Ec in IH.
      split; [lia|]. right.
      destruct IH as [(Ec' & Er & F) | (Er & (b & af & E & Fb & Fa))].
      * rewrite Ec', Er. split; [reflexivity|].
        exists [], (List.filter
                      (fun cpu =>
                         (topology_physical_package_id pf cpu =? cluster)
                         && negb (cpu =? 0)%nat) l).
        repeat split; [constructor|exact F].
      * split; [exact Er|]. exists (a :: b), af. rewrite E.
        repeat split; [|exact Fa]. constructor; [lia|exact Fb].
    + rewrite Es in Hle, IH. rewrite Ec in IH.
      split; [exact Hle|].
      destruct IH as [(Ec' & Er & F) | (Er & (b & af & E & Fb & Fa))].
      * left. repeat split; auto.
      * right. split; [exact Er|]. exists (a :: b), af. rewrite E.
        repeat split; [|exact Fa]. constructor; [lia|exact Fb].
Qed.

Lemma sample_cluster_slowest pf cluster init first s :
  (forall cpu, cpufreq_quick_get pf cpu <= UINT_MAX) ->
  let c := slow_cpu (sample_cluster pf cluster init first s) in
  (sampled_cores pf cluster s <> [] ->
   slowest_last pf (sampled_cores pf cluster s) c)
  /\ (sampled_cores pf cluster s = [] -> c = init).
Proof.
  intros Hmax. simpl. rewrite sample_cluster_slow_cpu. unfold sample_loop.
  destruct (sample_fold_slowest pf cluster (for_each_online_cpu s)
              {| slow_cpu := init; slow_rate := UINT_MAX; fast_rate := first |})
    as [_ [(Ec & _ & F) | (_ & H)]]; fold (sampled_cores pf cluster s) in *;
    simpl in *.
  - split; [|intros _; exact Ec].
    intros Hne. destruct (sampled_cores pf cluster s) as [|x l];
      [contradiction|].
    inversion F as [|? ? Hx _]; subst. specialize (Hmax x). lia.
  - split; [intros _; exact H|].
    intros E. destruct H as (b & af & E' & _). rewrite E in E'.
    destruct b; discriminate.
Qed.

(** C7, as amended.  In both sampling passes the unplug candidate is a
    slowest online core of the cluster other than core 0, and when several
    such cores tie for the lowest rate it is the one sampled last; when the
    cluster has no online core other than core 0 the candidate keeps its
    initial value (0, or 4 in the performance pass). *)
Theorem unplug_candidate_is_last_slowest (pf : platform) (s : asmp_state) :
  (forall cpu, cpufreq_quick_get pf cpu <= UINT_MAX) ->
  (sampled_cores pf CLUSTER_LITTLE s <> [] ->
   slowest_last pf (sampled_cores pf CLUSTER_LITTLE s)
                (slow_cpu (sample_little pf s)))
  /\ (sampled_cores pf CLUSTER_BIG s <> [] ->
      slowest_last pf (sampled_cores pf CLUSTER_BIG s)
                   (slow_cpu (sample_big pf s)))
  /\ (sampled_cores pf CLUSTER_LITTLE s = [] ->
      slow_cpu (sample_little pf s) = 0%nat)
  /\ (sampled_cores pf CLUSTER_BIG s = [] ->
      slow_cpu (sample_big pf s) = 4%nat).
Proof.
  intros Hmax.
  destruct (sample_cluster_slowest pf CLUSTER_LITTLE 0%nat
              (cpufreq_quick_get pf 0) s Hmax) as [HL HL0].
  destruct (sample_cluster_slowest pf CLUSTER_BIG 4%nat
              (cpufreq_quick_get pf (get_online_core pf CLUSTER_BIG s)) s Hmax)
    as [HB HB0].
  repeat split; assumption.
Qed.

Lemma unplug_candidate_is_last_slowest_witness :
  slowest_last tie_platform (sampled_cores tie_platform CLUSTER_LITTLE
                                           little3_state)
               (slow_cpu (sample_little tie_platform little3_state)).
Proof.
  apply (unplug_candidate_is_last_slowest tie_platform little3_state).
  - intros cpu. do 3 (destruct cpu as [|cpu]; [vm_compute; discriminate|]).
    destruct cpu; vm_compute; discriminate.
  - vm_compute. discriminate.
Defined.

(** C7, as stated, fails: cores 1 and 2 tie for the lowest rate and the
    candidate is core 2, the one sampled last, not core 1. *)
Lemma unplug_candidate_not_first_slowest :
  sampled_cores tie_platform CLUSTER_LITTLE little3_state = [1; 2]%nat
  /\ cpufreq_quick_get tie_platform 1 = cpufreq_quick_get tie_platform 2
  /\ slow_cpu (sample_little tie_platform little3_state) = 2%nat
  /\ ~ slowest_first tie_platform
                     (sampled_cores tie_platform CLUSTER_LITTLE little3_state)
                     (slow_cpu (sample_little tie_platform little3_state)).
Proof.
  assert (Ec : sampled_cores tie_platform CLUSTER_LITTLE little3_state
               = [1; 2]%nat) by reflexivity.
  assert (Es : slow_cpu (sample_little tie_platform little3_state) = 2%nat)
    by reflexivity.
  repeat split; try reflexivity.
  rewrite Ec, Es. intros (b & af & E & Fb & _).
  destruct b as [|x [|y b]]; simpl in E.
  - discriminate.
  - injection E as Hx _. subst x. inversion Fb as [|? ? H _]; subst.
    vm_compute in H. discriminate.
  - injection E as _ _ E. destruct b; discriminate.
Qed.

(** C6 at a concrete input: cores 0 and 1 online, core 0 at 384000 and
    core 1 at 1555200.  The first core the loop reads always takes the
    [rate <= slow_rate] branch, so its rate is never compared with
    [fast_rate]: the loop leaves [fast_rate] at 384000 although core 1 runs
    at 1555200, and the tick then unplugs core 1.  [slow_rate] is the
    minimum, 384000. *)
Lemma fast_rate_misses_first_sampled_core :
  fast_rate (sample_little uneven_platform little2_state) = 384000
  /\ max_online_rate uneven_platform CLUSTER_LITTLE little2_state = 1555200
  /\ slow_rate (sample_little uneven_platform little2_state) = 384000
  /\ min_online_rate uneven_platform CLUSTER_LITTLE little2_state = 384000
  /\ new_calls little2_state (asmp_work_fn uneven_platform little2_state)
     = [CpuDown little_down 1; QueueDelayedWork DELAY_CHECK].
Proof.
  vm_compute. repeat split.
Qed.

(** With core 0 online in the efficiency cluster, the [slow_rate] of the
    efficiency pass is the minimum of the rates of the online efficiency
    cores, core 0 included: the final comparison with [cpu0_rate] makes up
    for the loop skipping core 0. *)
Theorem slow_rate_is_minimum (pf : platform) (s : asmp_state) :
  (forall cpu, cpufreq_quick_get pf cpu <= UINT_MAX) ->
  cpu_online 0 s = true ->
  topology_physical_package_id pf 0 = CLUSTER_LITTLE ->
  let m := slow_rate (sample_little pf s) in
  (forall c, In c (online_in pf CLUSTER_LITTLE s) -> m <= cpufreq_quick_get pf c)
  /\ (exists c, In c (online_in pf CLUSTER_LITTLE s)
                /\ m = cpufreq_quick_get pf c).
Proof.
  intros Hmax Hon0 Hcl0. simpl.
  assert (Hin0 : In 0%nat (online_in pf CLUSTER_LITTLE s))
    by (apply in_online_in; auto).
  assert (Hsampled : forall c, In c (online_in pf CLUSTER_LITTLE s) ->
                               c <> 0%nat ->
                               In c (sampled_cores pf CLUSTER_LITTLE s)).
  { intros c Hc Hnz. apply in_online_in in Hc. destruct Hc as [Hon Hcl].
    unfold sampled_cores. apply List.filter_In.
    split; [apply in_for_each_online_cpu; exact Hon|].
    rewrite Hcl, Z.eqb_refl. apply Nat.eqb_neq in Hnz. rewrite Hnz.
    reflexivity. }
  unfold sample_little, sample_cluster, sample_loop.
  destruct (sample_fold_slowest pf CLUSTER_LITTLE (for_each_online_cpu s)
              {| slow_cpu := 0%nat; slow_rate := UINT_MAX;
                 fast_rate := cpufreq_quick_get pf 0 |})
    as [Hle [(Ec & Er & F) | (Er & (b & af & E & Fb & Fa))]];
    fold (sampled_cores pf CLUSTER_LITTLE s) in *; simpl in *;
    set (r := fold_left (sample_step pf CLUSTER_LITTLE) (for_each_online_cpu s)
                {| slow_cpu := 0%nat; slow_rate := UINT_MAX;
                   fast_rate := cpufreq_quick_get pf 0 |}) in *.
  - assert (Hnone : forall c, In c (online_in pf CLUSTER_LITTLE s) ->
                              c = 0%nat).
    { intros c Hc. destruct (Nat.eq_dec c 0%nat) as [|Hnz]; [assumption|].
      exfalso. specialize (Hsampled c Hc Hnz).
      rewrite Forall_forall in F. apply list_elem_of_In in Hsampled.
      specialize (F c Hsampled). specialize (Hmax c). lia. }
    pose proof (Hmax 0%nat) as H0.
    destruct (Z.ltb_spec (cpufreq_quick_get pf 0) (slow_rate r)); simpl.
    + split; [|exists 0%nat; auto].
      intros c Hc. rewrite (Hnone c Hc). lia.
    + split; [|exists 0%nat; split; [exact Hin0|lia]].
      intros c Hc. rewrite (Hnone c Hc). lia.
  - assert (Hlow : forall c, In c (sampled_cores pf CLUSTER_LITTLE s) ->
                             slow_rate r <= cpufreq_quick_get pf c).
    { intros c Hc. rewrite E in Hc. rewrite Er.
      rewrite Forall_forall in Fb, Fa.
      apply List.in_app_or in Hc. destruct Hc as [Hc | [<- | Hc]].
      - apply Fb, list_elem_of_In, Hc.
      - lia.
      - apply list_elem_of_In in Hc. specialize (Fa c Hc). lia. }
    assert (Hcand : In (slow_cpu r) (online_in pf CLUSTER_LITTLE s)).
    { assert (Hc : In (slow_cpu r) (sampled_cores pf CLUSTER_LITTLE s))
        by (rewrite E; apply List.in_or_app; right; left; reflexivity).
      unfold sampled_cores in Hc. apply List.filter_In in Hc.
      destruct Hc as [Hc Hm]. apply andb_true_iff in Hm.
      destruct Hm as [Hm _]. unfold online_in. apply List.filter_In.
      split; assumption. }
    destruct (Z.ltb_spec (cpufreq_quick_get pf 0) (slow_rate r)); simpl.
    + split; [|exists 0%nat; auto].
      intros c Hc. destruct (Nat.eq_dec c 0%nat) as [->|Hnz]; [lia|].
      specialize (Hlow c (Hsampled c Hc Hnz)). lia.
    + split; [|exists (slow_cpu r); auto].
      intros c Hc. destruct (Nat.eq_dec c 0%nat) as [->|Hnz]; [lia|].
      exact (Hlow c (Hsampled c Hc Hnz)).
Qed.

Lemma slow_rate_is_minimum_witness :
  exists c, In c (online_in uneven_platform CLUSTER_LITTLE little2_state)
            /\ slow_rate (sample_little uneven_platform little2_state)
               = cpufreq_quick_get uneven_platform c.
Proof.
  apply (slow_rate_is_minimum uneven_platform little2_state).
  - intros cpu. do 2 (destruct cpu as [|cpu]; [vm_compute; discriminate|]).
    destruct cpu; vm_compute; discriminate.
  - reflexivity.
  - reflexivity.
Defined.

(** ** The fastest rate of the performance pass

    The performance pass starts [fast_rate_hmp] from the rate of the first
    core that its loop reads, so there the loop does compute the maximum. *)

Lemma sample_fold_sampled pf cluster l acc :
  fold_left (sample_step pf cluster) l acc
  = fold_left (sample_step pf cluster)
      (List.filter (fun cpu => (topology_physical_package_id pf cpu =? cluster)
                               && negb (cpu =? 0)%nat) l) acc.
Proof.
  revert acc. induction l as [|a l IH]; intros acc; [reflexivity|].
  cbn [fold_left List.filter].
  destruct (sample_step_cases pf cluster acc a)
    as [[Em E] | [(Em & _) | (Em & _)]]; cbv zeta in *; rewrite Em.
  - rewrite E. apply IH.
  - cbn [fold_left]. apply IH.
  - cbn [fold_left]. apply IH.
Qed.

Lemma get_online_core_from_head pf cluster s cpus :
  get_online_core_from pf cluster s cpus
  = hd 0%nat
       (List.filter
          (fun c => cpu_online c s
                    && ((topology_physical_package_id pf c =? cluster)
                        && negb (c =? 0)%nat)) cpus).
Proof.
  induction cpus as [|a l IH]; [reflexivity|]. simpl.
  destruct (Nat.eqb_spec a 0); simpl.
  { rewrite !andb_false_r. exact IH. }
  destruct (Z.eqb_spec (topology_physical_package_id pf a) cluster); simpl.
  2: { rewrite ?andb_false_r. exact IH. }
  rewrite andb_true_r.
  destruct (cpu_online a s); simpl; [reflexivity|exact IH].
Qed.

Lemma get_online_core_head pf cluster s :
  get_online_core pf cluster s = hd 0%nat (sampled_cores pf cluster s).
Proof.
  unfold get_online_core, sampled_cores, for_each_online_cpu.
  rewrite get_online_core_from_head, filter_filter. reflexivity.
Qed.

Lemma sample_step_fast pf cluster acc a :
  slow_rate acc <= fast_rate acc ->
  let sampled := (topology_physical_package_id pf a =? cluster)
                 && negb (a =? 0)%nat in
  let acc' := sample_step pf cluster acc a in
  slow_rate acc' <= fast_rate acc'
  /\ fast_rate acc <= fast_rate acc'
  /\ (sampled = true -> cpufreq_quick_get pf a <= fast_rate acc')
  /\ (fast_rate acc' = fast_rate acc
      \/ (sampled = true /\ fast_rate acc' = cpufreq_quick_get pf a)).
Proof.
  intros Hsf. simpl. unfold sample_step.
  destruct (Z.eqb_spec (topology_physical_package_id pf a) cluster); simpl.
  2: { repeat split; auto; try lia; discriminate. }
  destruct (Nat.eqb_spec a 0); simpl.
  { repeat split; auto; try lia; discriminate. }
  destruct (Z.leb_spec (cpufreq_quick_get pf a) (slow_rate acc)); simpl.
  { repeat split; auto; lia. }
  rewrite Z.gtb_ltb.
  destruct (Z.ltb_spec (fast_rate acc) (cpufreq_quick_get pf a)); simpl;
    repeat split; auto; lia.
Qed.

Lemma sample_fold_fast pf cluster l acc :
  slow_rate acc <= fast_rate acc ->
  let r := fold_left (sample_step pf cluster) l acc in
  fast_rate acc <= fast_rate r
  /\ (forall x, In x l ->
                (topology_physical_package_id pf x =? cluster)
                && negb (x =? 0)%nat = true ->
                cpufreq_quick_get pf x <= fast_rate r)
  /\ (fast_rate r = fast_rate acc
      \/ exists x, In x l /\ fast_rate r = cpufreq_quick_get pf x).
Proof.
  revert acc. induction l as [|a l IH]; intros acc Hsf.
  - simpl. repeat split; auto; try lia; try (intros x []).
  - cbn [fold_left].
    destruct (sample_step_fast pf cluster acc a Hsf) as (H1 & H2 & H3 & H4).
    cbv zeta in *.
    destruct (IH (sample_step pf cluster acc a) H1) as (I1 & I2 & I3).
    cbv zeta in *. split; [lia|]. split.
    + intros x [<- | Hx] Hm; [specialize (H3 Hm); lia|]. apply I2; assumption.
    + destruct I3 as [E | (x & Hx & E)].
      * destruct H4 as [E' | [_ E']]; [left; congruence|].
        right. exists a. split; [left; reflexivity|congruence].
      * right. exists x. split; [right; exact Hx|exact E].
Qed.

(** On the performance pass, with an online performance core other than
    core 0, [fast_rate_hmp] is the maximum of the rates that the loop
    reads. *)
Theorem fast_rate_big_is_maximum (pf : platform) (s : asmp_state) :
  (forall cpu, cpufreq_quick_get pf cpu <= UINT_MAX) ->
  sampled_cores pf CLUSTER_BIG s <> [] ->
  let m := fast_rate (sample_big pf s) in
  (forall c, In c (sampled_cores pf CLUSTER_BIG s) ->
             cpufreq_quick_get pf c <= m)
  /\ (exists c, In c (sampled_cores pf CLUSTER_BIG s)
                /\ m = cpufreq_quick_get pf c).
Proof.
  intros Hmax Hne. simpl.
  assert (Efast : fast_rate (sample_big pf s)
                  = fast_rate
                      (sample_loop pf CLUSTER_BIG 4
                         (cpufreq_quick_get pf (get_online_core pf CLUSTER_BIG s))
                         s)).
  { unfold sample_big, sample_cluster. destruct (_ <? _); reflexivity. }
  rewrite Efast. unfold sample_loop.
  rewrite sample_fold_sampled. fold (sampled_cores pf CLUSTER_BIG s).
  rewrite get_online_core_head.
  assert (Hmem : forall x, In x (sampled_cores pf CLUSTER_BIG s) ->
                           (topology_physical_package_id pf x =? CLUSTER_BIG)
                           && negb (x =? 0)%nat = true).
  { intros x Hx. unfold sampled_cores in Hx. apply List.filter_In in Hx.
    tauto. }
  destruct (sampled_cores pf CLUSTER_BIG s) as [|g rest]; [contradiction|].
  cbn [hd fold_left].
  assert (Hg := Hmem g (or_introl eq_refl)).
  assert (E1 : sample_step pf CLUSTER_BIG
                 {| slow_cpu := 4%nat; slow_rate := UINT_MAX;
                    fast_rate := cpufreq_quick_get pf g |} g
               = {| slow_cpu := g; slow_rate := cpufreq_quick_get pf g;
                    fast_rate := cpufreq_quick_get pf g |}).
  { unfold sample_step. apply andb_true_iff in Hg. destruct Hg as [Hc Hz].
    rewrite Hc. apply negb_true_iff in Hz. rewrite Hz. simpl.
    destruct (Z.leb_spec (cpufreq_quick_get pf g) UINT_MAX); [reflexivity|].
    specialize (Hmax g). lia. }
  rewrite E1.
  destruct (sample_fold_fast pf CLUSTER_BIG rest
              {| slow_cpu := g; slow_rate := cpufreq_quick_get pf g;
                 fast_rate := cpufreq_quick_get pf g |})
    as (I1 & I2 & I3); [simpl; lia|]. cbv zeta in *. simpl in I1, I3.
  split.
  - intros c [<- | Hc]; [exact I1|].
    apply I2; [exact Hc|]. apply Hmem. right. exact Hc.
  - destruct I3 as [E | (x & Hx & E)].
    + exists g. split; [left; reflexivity|exact E].
    + exists x. split; [right; exact Hx|exact E].
Qed.

Lemma fast_rate_big_is_maximum_witness :
  exists c, In c (sampled_cores (platform8 [0; 0; 0; 0; 1958400; 300000])
                                CLUSTER_BIG wrapping_state)
            /\ fast_rate (sample_big (platform8 [0; 0; 0; 0; 1958400; 300000])
                                     wrapping_state)
               = cpufreq_quick_get (platform8 [0; 0; 0; 0; 1958400; 300000]) c.
Proof.
  apply (fast_rate_big_is_maximum (platform8 [0; 0; 0; 0; 1958400; 300000])
                                  wrapping_state).
  - intros cpu. do 6 (destruct cpu as [|cpu]; [vm_compute; discriminate|]).
    destruct cpu; vm_compute; discriminate.
  - vm_compute. discriminate.
Defined.

(** * Further properties of the driver *)

(** ** Which core the selection helpers return *)

Lemma get_offline_core_from_seq pf cluster s a n :
  (exists c, (a <= c < a + n)%nat
             /\ topology_physical_package_id pf c = cluster
             /\ cpu_online c s = false) ->
  let r := get_offline_core_from pf cluster s (seq a n) in
  (a <= r < a + n)%nat
  /\ topology_physical_package_id pf r = cluster
  /\ cpu_online r s = false
  /\ forall c, (a <= c < r)%nat ->
                topology_physical_package_id pf c = cluster ->
                cpu_online c s = true.
Proof.
  revert a. induction n as [|n IH]; intros a (c & Hc & Hcl & Hoff); [lia|].
  cbn [seq get_offline_core_from].
  destruct (Z.eqb_spec (topology_physical_package_id pf a) cluster) as [Ha|Ha];
    cbn [negb].
  - destruct (cpu_online a s) eqn:Hon; cbn [negb].
    + destruct (IH (S a)) as (H1 & H2 & H3 & H4).
      { exists c. repeat split; auto; try lia.
        destruct (Nat.eq_dec c a) as [->|]; [congruence|lia]. }
      repeat split; auto; try lia. intros c' Hc' Hcl'.
      destruct (Nat.eq_dec c' a) as [->|]; [exact Hon|]. apply H4; [lia|auto].
    + repeat split; auto; try lia; intros c' Hc'; lia.
  - destruct (IH (S a)) as (H1 & H2 & H3 & H4).
    { exists c. repeat split; auto; try lia.
      destruct (Nat.eq_dec c a) as [->|]; [congruence|lia]. }
    repeat split; auto; try lia. intros c' Hc' Hcl'.
    destruct (Nat.eq_dec c' a) as [->|]; [congruence|]. apply H4; [lia|auto].
Qed.

(** [get_offline_core] returns the lowest-numbered offline core of the
    cluster, when the cluster has an offline core among the possible ones. *)
Theorem get_offline_core_lowest (pf : platform) (cluster : Z) (s : asmp_state) :
  (exists c, (c < nr_cpu_ids s)%nat
             /\ topology_physical_package_id pf c = cluster
             /\ cpu_online c s = false) ->
  let r := get_offline_core pf cluster s in
  (r < nr_cpu_ids s)%nat
  /\ topology_physical_package_id pf r = cluster
  /\ cpu_online r s = false
  /\ forall c, (c < r)%nat ->
                topology_physical_package_id pf c = cluster ->
                cpu_online c s = true.
Proof.
  intros (c & Hc & Hcl & Hoff).
  destruct (get_offline_core_from_seq pf cluster s 0 (nr_cpu_ids s))
    as (H1 & H2 & H3 & H4).
  { exists c. repeat split; auto; lia. }
  unfold get_offline_core, for_each_possible_cpu.
  repeat split; auto; try lia. intros c' Hc'. apply H4. lia.
Qed.

Lemma get_offline_core_lowest_witness :
  get_offline_core (platform8 []) CLUSTER_BIG wrapping_state = 6%nat
  /\ cpu_online (get_offline_core (platform8 []) CLUSTER_BIG wrapping_state)
                wrapping_state = false.
Proof.
  split; [reflexivity|].
  apply (get_offline_core_lowest (platform8 []) CLUSTER_BIG wrapping_state).
  exists 7%nat. repeat split. vm_compute. lia.
Defined.

Lemma get_online_core_from_seq pf cluster s a n :
  (exists c, (a <= c < a + n)%nat /\ c <> 0%nat
             /\ topology_physical_package_id pf c = cluster
             /\ cpu_online c s = true) ->
  let r := get_online_core_from pf cluster s (seq a n) in
  (a <= r < a + n)%nat /\ r <> 0%nat
  /\ topology_physical_package_id pf r = cluster
  /\ cpu_online r s = true
  /\ forall c, (a <= c < r)%nat -> c <> 0%nat ->
                topology_physical_package_id pf c = cluster ->
                cpu_online c s = false.
Proof.
  revert a. induction n as [|n IH]; intros a (c & Hc & Hnz & Hcl & Hon); [lia|].
  cbn [seq get_online_core_from].
  assert (Hnext : a <> c ->
                  exists c0, (S a <= c0 < S a + n)%nat /\ c0 <> 0%nat
                             /\ topology_physical_package_id pf c0 = cluster
                             /\ cpu_online c0 s = true).
  { intros Hne. exists c. repeat split; auto; lia. }
  destruct (Nat.eqb_spec a 0) as [Ha0|Ha0].
  { destruct (IH (S a)) as (H1 & H2 & H3 & H4 & H5); [apply Hnext; lia|].
    repeat split; auto; try lia. intros c' Hc' Hnz'. apply H5; lia. }
  destruct (Z.eqb_spec (topology_physical_package_id pf a) cluster) as [Ha|Ha];
    cbn [negb].
  - destruct (cpu_online a s) eqn:Hona.
    + repeat split; auto; try lia; intros c' Hc'; lia.
    + destruct (IH (S a)) as (H1 & H2 & H3 & H4 & H5).
      { apply Hnext. intros ->. congruence. }
      repeat split; auto; try lia. intros c' Hc' Hnz' Hcl'.
      destruct (Nat.eq_dec c' a) as [->|]; [exact Hona|]. apply H5; auto; lia.
  - destruct (IH (S a)) as (H1 & H2 & H3 & H4 & H5).
    { apply Hnext. intros ->. congruence. }
    repeat split; auto; try lia. intros c' Hc' Hnz' Hcl'.
    destruct (Nat.eq_dec c' a) as [->|]; [congruence|]. apply H5; auto; lia.
Qed.

(** [get_online_core] returns the lowest-numbered online core of the cluster
    other than core 0, when there is one; it never returns core 0 for being
    online. *)
Theorem get_online_core_lowest (pf : platform) (cluster : Z) (s : asmp_state) :
  (exists c, c <> 0%nat /\ topology_physical_package_id pf c = cluster
             /\ cpu_online c s = true) ->
  let r := get_online_core pf cluster s in
  r <> 0%nat
  /\ topology_physical_package_id pf r = cluster
  /\ cpu_online r s = true
  /\ forall c, (c < r)%nat -> c <> 0%nat ->
                topology_physical_package_id pf c = cluster ->
                cpu_online c s = false.
Proof.
  intros (c & Hnz & Hcl & Hon).
  destruct (get_online_core_from_seq pf cluster s 0 (nr_cpu_ids s))
    as (H1 & H2 & H3 & H4 & H5).
  { exists c. repeat split; auto; try lia. apply cpu_online_lt in Hon. lia. }
  unfold get_online_core, for_each_possible_cpu.
  repeat split; auto. intros c' Hc'. apply H5. lia.
Qed.

Lemma get_online_core_lowest_witness :
  get_online_core (platform8 []) CLUSTER_BIG wrapping_state <> 0%nat
  /\ get_online_core (platform8 []) CLUSTER_BIG wrapping_state = 4%nat.
Proof.
  split; [|reflexivity].
  apply (get_online_core_lowest (platform8 []) CLUSTER_BIG wrapping_state).
  exists 5%nat. repeat split. discriminate.
Defined.

(** ** Counting *)

Lemma filter_shorter (p : nat -> bool) (l : list nat) :
  (length (List.filter p l) <= length l)%nat.
Proof.
  induction l as [|a l IH]; simpl; [lia|]. destruct (p a); simpl; lia.
Qed.

Lemma filter_disjoint_length (p q : nat -> bool) (l : list nat) :
  (forall x, p x = true -> q x = false) ->
  (length (List.filter p l) + length (List.filter q l) <= length l)%nat.
Proof.
  intros H. induction l as [|a l IH]; simpl; [lia|].
  destruct (p a) eqn:Hp; [rewrite (H a Hp)|destruct (q a)]; simpl; lia.
Qed.

(** [num_online_cluster_cpus] is 0 exactly when no online core belongs to the
    cluster, and the counts of the two clusters together never exceed the
    number of online cores, which is at most [nr_cpu_ids]. *)
Theorem online_counts (pf : platform) (cluster : Z) (s : asmp_state) :
  (num_online_cluster_cpus pf cluster s = 0%nat
   <-> forall cpu, cpu_online cpu s = true ->
                   topology_physical_package_id pf cpu <> cluster)
  /\ (num_online_cluster_cpus pf CLUSTER_LITTLE s
      + num_online_cluster_cpus pf CLUSTER_BIG s
      <= length (for_each_online_cpu s) <= nr_cpu_ids s)%nat.
Proof.
  split.
  - rewrite num_online_cluster_cpus_length. split.
    + intros H cpu Hon Hcl.
      assert (Hin : In cpu (online_in pf cluster s))
        by (apply in_online_in; auto).
      destruct (online_in pf cluster s); [destruct Hin|discriminate].
    + intros H. destruct (online_in pf cluster s) as [|c l] eqn:E;
        [reflexivity|exfalso].
      assert (Hin : In c (online_in pf cluster s))
        by (rewrite E; left; reflexivity).
      apply in_online_in in Hin. destruct Hin as [Hon Hcl].
      exact (H c Hon Hcl).
  - rewrite !num_online_cluster_cpus_length. unfold online_in. split.
    + apply filter_disjoint_length. intros x Hx. apply Z.eqb_eq in Hx.
      rewrite Hx. reflexivity.
    + unfold for_each_online_cpu, for_each_possible_cpu.
      etransitivity; [apply filter_shorter|]. rewrite length_seq. lia.
Qed.

(** ** The limits of a tick *)

Lemma limits_fold_inv pf p l :
  let acc := fold_left (limits_step pf p) l (-1, uninitialized_limits pf) in
  let lim := snd acc in
  (exists m0 m1 u0 u1 d0 d1,
      max_rate lim = [m0; m1] /\ up_rate lim = [u0; u1]
      /\ down_rate lim = [d0; d1]
      /\ ((exists c, In c l
                     /\ topology_physical_package_id pf c = CLUSTER_LITTLE
                     /\ m0 = cpufreq_quick_get_max pf c
                     /\ u0 = u32 (cpufreq_up p * cpufreq_quick_get_max pf c) / 100
                     /\ d0 = u32 (cpufreq_down p * cpufreq_quick_get_max pf c)
                             / 100)
          \/ ((forall c, In c l ->
                         topology_physical_package_id pf c <> CLUSTER_LITTLE)
              /\ m0 = stack_garbage pf 0 /\ u0 = stack_garbage pf 2
              /\ d0 = stack_garbage pf 4))
      /\ ((exists c, In c l
                     /\ topology_physical_package_id pf c = CLUSTER_BIG
                     /\ m1 = cpufreq_quick_get_max pf c
                     /\ u1 = u32 (cpufreq_up_hmp p * cpufreq_quick_get_max pf c)
                             / 100
                     /\ d1 = u32 (cpufreq_down_hmp p
                                  * cpufreq_quick_get_max pf c) / 100)
          \/ ((forall c, In c l ->
                         topology_physical_package_id pf c <> CLUSTER_BIG)
              /\ m1 = stack_garbage pf 1 /\ u1 = stack_garbage pf 3
              /\ d1 = stack_garbage pf 5)))
  /\ (forall k, fst acc = k -> k <> -1 ->
                exists c, In c l /\ topology_physical_package_id pf c = k).
Proof.
  induction l as [|a l IH] using rev_ind.
  - simpl. split.
    + do 6 eexists. repeat split; right; repeat split; intros c [].
    + intros k <- H. congruence.
  - rewrite fold_left_app. cbn [fold_left]. cbv zeta in IH |- *.
    destruct (fold_left (limits_step pf p) l (-1, uninitialized_limits pf))
      as [prev lim]. cbn [fst snd] in IH.
    destruct IH as [(m0 & m1 & u0 & u1 & d0 & d1 & Em & Eu & Ed & HL & HB) Hprev].
    assert (Hmono : forall P : nat -> Prop,
               (exists c, In c l /\ P c) -> exists c, In c (l ++ [a]) /\ P c).
    { intros P (c & Hc & HP). exists c. split; [|exact HP].
      apply List.in_or_app. left. exact Hc. }
    assert (Hnone : forall k, topology_physical_package_id pf a <> k ->
               (forall c, In c l -> topology_physical_package_id pf c <> k) ->
               forall c, In c (l ++ [a]) ->
                         topology_physical_package_id pf c <> k).
    { intros k Ha H c Hc. apply List.in_app_or in Hc.
      destruct Hc as [Hc | [<- | []]]; [apply H; exact Hc|exact Ha]. }
    assert (Hlast : In a (l ++ [a]))
      by (apply List.in_or_app; right; left; reflexivity).
    unfold limits_step.
    destruct (Z.eqb_spec (topology_physical_package_id pf a) prev) as [Esame|Hne].
    { cbn [fst snd]. split.
      - exists m0, m1, u0, u1, d0, d1. repeat split; auto.
        + destruct HL as [(c & Hc & H) | (Hn & H)].
          * left. apply (Hmono (fun c => _ /\ _ /\ _ /\ _)). exists c. auto.
          * right. split; [|exact H]. apply Hnone; [|exact Hn].
            intros E. destruct (Hprev prev eq_refl) as (c & Hc & Hcl);
              [rewrite <- Esame, E; discriminate|].
            apply (Hn c Hc). congruence.
        + destruct HB as [(c & Hc & H) | (Hn & H)].
          * left. apply (Hmono (fun c => _ /\ _ /\ _ /\ _)). exists c. auto.
          * right. split; [|exact H]. apply Hnone; [|exact Hn].
            intros E. destruct (Hprev prev eq_refl) as (c & Hc & Hcl);
              [rewrite <- Esame, E; discriminate|].
            apply (Hn c Hc). congruence.
      - intros k <- Hk. exists a. split; [exact Hlast|exact Esame]. }
    destruct (Z.eqb_spec (topology_physical_package_id pf a) CLUSTER_LITTLE)
      as [El|Hnl].
    { cbn [fst snd max_rate up_rate down_rate]. rewrite Em, Eu, Ed. split.
      - do 6 eexists. split; [reflexivity|]. split; [reflexivity|].
        split; [reflexivity|]. split.
        + left. exists a. auto.
        + destruct HB as [(c & Hc & H) | (Hn & H)].
          * left. apply (Hmono (fun c => _ /\ _ /\ _ /\ _)). exists c. auto.
          * right. split; [|exact H]. apply Hnone; [|exact Hn].
            rewrite El. discriminate.
      - intros k <- Hk. exists a. auto. }
    destruct (Z.eqb_spec (topology_physical_package_id pf a) CLUSTER_BIG)
      as [Eb|Hnb].
    { cbn [fst snd max_rate up_rate down_rate]. rewrite Em, Eu, Ed. split.
      - do 6 eexists. split; [reflexivity|]. split; [reflexivity|].
        split; [reflexivity|]. split.
        + destruct HL as [(c & Hc & H) | (Hn & H)].
          * left. apply (Hmono (fun c => _ /\ _ /\ _ /\ _)). exists c. auto.
          * right. split; [|exact H]. apply Hnone; [|exact Hn].
            rewrite Eb. discriminate.
        + left. exists a. auto.
      - intros k <- Hk. exists a. auto. }
    cbn [fst snd]. split.
    + exists m0, m1, u0, u1, d0, d1. repeat split; auto.
      * destruct HL as [(c & Hc & H) | (Hn & H)].
        -- left. apply (Hmono (fun c => _ /\ _ /\ _ /\ _)). exists c. auto.
        -- right. split; [|exact H]. apply Hnone; assumption.
      * destruct HB as [(c & Hc & H) | (Hn & H)].
        -- left. apply (Hmono (fun c => _ /\ _ /\ _ /\ _)). exists c. auto.
        -- right. split; [|exact H]. apply Hnone; assumption.
    + intros k <- Hk. exists a. auto.
Qed.

(** When a cluster has a possible core, its limits of the tick are the
    configured percentages of the maximal frequency that cpufreq reports for
    a core of that cluster, computed in 32 bits: never what the stack held,
    and at most [UINT_MAX / 100]. *)
Theorem limits_of_present_cluster (pf : platform) (s : asmp_state) :
  let lim := compute_limits pf s in
  let p := asmp_param s in
  ((exists c, (c < nr_cpu_ids s)%nat
              /\ topology_physical_package_id pf c = CLUSTER_LITTLE) ->
   exists c, (c < nr_cpu_ids s)%nat
             /\ topology_physical_package_id pf c = CLUSTER_LITTLE
             /\ up_rate_of lim 0
                = u32 (cpufreq_up p * cpufreq_quick_get_max pf c) / 100
             /\ down_rate_of lim 0
                = u32 (cpufreq_down p * cpufreq_quick_get_max pf c) / 100
             /\ 0 <= up_rate_of lim 0 <= UINT_MAX / 100
             /\ 0 <= down_rate_of lim 0 <= UINT_MAX / 100)
  /\ ((exists c, (c < nr_cpu_ids s)%nat
                 /\ topology_physical_package_id pf c = CLUSTER_BIG) ->
      exists c, (c < nr_cpu_ids s)%nat
                /\ topology_physical_package_id pf c = CLUSTER_BIG
                /\ up_rate_of lim 1
                   = u32 (cpufreq_up_hmp p * cpufreq_quick_get_max pf c) / 100
                /\ down_rate_of lim 1
                   = u32 (cpufreq_down_hmp p * cpufreq_quick_get_max pf c) / 100
                /\ 0 <= up_rate_of lim 1 <= UINT_MAX / 100
                /\ 0 <= down_rate_of lim 1 <= UINT_MAX / 100).
Proof.
  simpl.
  destruct (limits_fold_inv pf (asmp_param s) (for_each_possible_cpu s))
    as [(m0 & m1 & u0 & u1 & d0 & d1 & Em & Eu & Ed & HL & HB) _].
  fold (compute_limits pf s) in Em, Eu, Ed.
  unfold up_rate_of, down_rate_of. rewrite Eu, Ed. simpl.
  assert (Hb : forall x, 0 <= u32 x / 100 <= UINT_MAX / 100).
  { intros x. pose proof (u32_range x). unfold UINT_MAX. split.
    - apply Z.div_pos; lia.
    - apply Z.div_le_mono; lia. }
  split; intros (c0 & Hc0 & Hcl0).
  - destruct HL as [(c & Hc & Hcl & _ & -> & ->) | (Hn & _)].
    + exists c. apply List.in_seq in Hc. repeat split; auto; try lia;
        apply Hb.
    + exfalso. apply (Hn c0); [apply List.in_seq; lia|exact Hcl0].
  - destruct HB as [(c & Hc & Hcl & _ & -> & ->) | (Hn & _)].
    + exists c. apply List.in_seq in Hc. repeat split; auto; try lia;
        apply Hb.
    + exfalso. apply (Hn c0); [apply List.in_seq; lia|exact Hcl0].
Qed.

Lemma limits_of_present_cluster_witness :
  exists c, (c < nr_cpu_ids little4_state)%nat
            /\ topology_physical_package_id (platform8 []) c = CLUSTER_BIG
            /\ up_rate_of (compute_limits (platform8 []) little4_state) 1
               = u32 (cpufreq_up_hmp (asmp_param little4_state)
                      * cpufreq_quick_get_max (platform8 []) c) / 100.
Proof.
  destruct (proj2 (limits_of_present_cluster (platform8 []) little4_state))
    as (c & H1 & H2 & H3 & _).
  - exists 4%nat. split; [vm_compute; lia|reflexivity].
  - exists c. auto.
Defined.

(** When a cluster has no possible core, its cells of the limit arrays are
    never written: the limits that the tick reads for it are what the stack
    held. *)
Theorem limits_of_absent_cluster (pf : platform) (s : asmp_state) :
  let lim := compute_limits pf s in
  ((forall c, (c < nr_cpu_ids s)%nat ->
              topology_physical_package_id pf c <> CLUSTER_LITTLE) ->
   up_rate_of lim 0 = stack_garbage pf 2
   /\ down_rate_of lim 0 = stack_garbage pf 4)
  /\ ((forall c, (c < nr_cpu_ids s)%nat ->
                 topology_physical_package_id pf c <> CLUSTER_BIG) ->
      up_rate_of lim 1 = stack_garbage pf 3
      /\ down_rate_of lim 1 = stack_garbage pf 5).
Proof.
  simpl.
  destruct (limits_fold_inv pf (asmp_param s) (for_each_possible_cpu s))
    as [(m0 & m1 & u0 & u1 & d0 & d1 & Em & Eu & Ed & HL & HB) _].
  fold (compute_limits pf s) in Em, Eu, Ed.
  unfold up_rate_of, down_rate_of. rewrite Eu, Ed. simpl.
  split; intros Hnone.
  - destruct HL as [(c & Hc & Hcl & _) | (_ & _ & -> & ->)]; [|auto].
    exfalso. apply List.in_seq in Hc. apply (Hnone c); [lia|exact Hcl].
  - destruct HB as [(c & Hc & Hcl & _) | (_ & _ & -> & ->)]; [|auto].
    exfalso. apply List.in_seq in Hc. apply (Hnone c); [lia|exact Hcl].
Qed.

Lemma limits_of_absent_cluster_witness :
  up_rate_of (compute_limits (platform8 []) four_core_state) 1
  = stack_garbage (platform8 []) 3
  /\ down_rate_of (compute_limits (platform8 []) four_core_state) 1
     = stack_garbage (platform8 []) 5.
Proof.
  apply (proj2 (limits_of_absent_cluster (platform8 []) four_core_state)).
  intros c Hc. do 4 (destruct c as [|c]; [vm_compute; discriminate|]).
  vm_compute in Hc. lia.
Defined.

(** ** The fastest rate of the efficiency pass *)

Lemma sample_fold_fast_origin pf cluster l acc :
  let r := fold_left (sample_step pf cluster) l acc in
  fast_rate acc <= fast_rate r
  /\ (fast_rate r = fast_rate acc
      \/ exists x, In x l
                   /\ (topology_physical_package_id pf x =? cluster)
                      && negb (x =? 0)%nat = true
                   /\ fast_rate r = cpufreq_quick_get pf x).
Proof.
  revert acc. induction l as [|a l IH]; intros acc.
  - simpl. split; [lia|left; reflexivity].
  - cbn [fold_left]. specialize (IH (sample_step pf cluster acc a)).
    cbv zeta in IH. destruct IH as [I1 I2].
    assert (Hstep : fast_rate acc <= fast_rate (sample_step pf cluster acc a)
                    /\ (fast_rate (sample_step pf cluster acc a) = fast_rate acc
                        \/ ((topology_physical_package_id pf a =? cluster)
                            && negb (a =? 0)%nat = true
                            /\ fast_rate (sample_step pf cluster acc a)
                               = cpufreq_quick_get pf a))).
    { unfold sample_step.
      destruct (Z.eqb_spec (topology_physical_package_id pf a) cluster); simpl;
        [|split; [lia|left; reflexivity]].
      destruct (Nat.eqb_spec a 0); simpl; [split; [lia|left; reflexivity]|].
      destruct (Z.leb_spec (cpufreq_quick_get pf a) (slow_rate acc)); simpl;
        [split; [lia|left; reflexivity]|].
      rewrite Z.gtb_ltb.
      destruct (Z.ltb_spec (fast_rate acc) (cpufreq_quick_get pf a)); simpl;
        [split; [lia|right; auto]|split; [lia|left; reflexivity]]. }
    destruct Hstep as [S1 S2]. split; [lia|].
    destruct I2 as [E | (x & Hx & Hm & E)].
    + destruct S2 as [E' | [Hm E']]; [left; congruence|].
      right. exists a. split; [left; reflexivity|]. split; [exact Hm|congruence].
    + right. exists x. split; [right; exact Hx|auto].
Qed.

(** With core 0 online in the efficiency cluster, the [fast_rate] of the
    efficiency pass is the rate of an online efficiency core and is at least
    the rate of core 0; so when every online efficiency core is below a
    bound, [fast_rate] is below it too. *)
Theorem fast_rate_little_is_attained (pf : platform) (s : asmp_state) :
  cpu_online 0 s = true ->
  topology_physical_package_id pf 0 = CLUSTER_LITTLE ->
  let m := fast_rate (sample_little pf s) in
  cpufreq_quick_get pf 0 <= m
  /\ (exists c, In c (online_in pf CLUSTER_LITTLE s)
                /\ m = cpufreq_quick_get pf c)
  /\ forall bound,
      (forall c, In c (online_in pf CLUSTER_LITTLE s) ->
                 cpufreq_quick_get pf c < bound) ->
      m < bound.
Proof.
  intros Hon0 Hcl0. simpl.
  assert (Efast : fast_rate (sample_little pf s)
                  = fast_rate (sample_loop pf CLUSTER_LITTLE 0
                                 (cpufreq_quick_get pf 0) s)).
  { unfold sample_little, sample_cluster. destruct (_ <? _); reflexivity. }
  rewrite Efast. unfold sample_loop.
  destruct (sample_fold_fast_origin pf CLUSTER_LITTLE (for_each_online_cpu s)
              {| slow_cpu := 0%nat; slow_rate := UINT_MAX;
                 fast_rate := cpufreq_quick_get pf 0 |}) as [H1 H2].
  cbv zeta in H1, H2. simpl in H1, H2.
  assert (Hex : exists c, In c (online_in pf CLUSTER_LITTLE s)
                          /\ fast_rate
                               (fold_left (sample_step pf CLUSTER_LITTLE)
                                  (for_each_online_cpu s)
                                  {| slow_cpu := 0%nat; slow_rate := UINT_MAX;
                                     fast_rate := cpufreq_quick_get pf 0 |})
                             = cpufreq_quick_get pf c).
  { destruct H2 as [E | (x & Hx & Hm & E)].
    - exists 0%nat. split; [apply in_online_in; auto|exact E].
    - exists x. split; [|exact E]. apply andb_true_iff in Hm.
      destruct Hm as [Hm _]. unfold online_in. apply List.filter_In. auto. }
  split; [exact H1|]. split; [exact Hex|].
  intros bound Hb. destruct Hex as (c & Hc & ->). apply Hb. exact Hc.
Qed.

Lemma fast_rate_little_is_attained_witness :
  cpufreq_quick_get uneven_platform 0
  <= fast_rate (sample_little uneven_platform little2_state).
Proof.
  apply (fast_rate_little_is_attained uneven_platform little2_state);
    reflexivity.
Defined.

(** ** What the hotplug requests leave alone *)

Lemma same_setup_refl s : same_setup s s.
Proof. repeat split. Qed.

Lemma same_setup_trans s1 s2 s3 :
  same_setup s1 s2 -> same_setup s2 s3 -> same_setup s1 s3.
Proof.
  intros (A1 & A2 & A3 & A4 & A5) (B1 & B2 & B3 & B4 & B5).
  repeat split; congruence.
Qed.

Lemma same_setup_cpu_up site cpu s : same_setup s (cpu_up site cpu s).
Proof. repeat split. apply nr_cpu_ids_cpu_up. Qed.

Lemma same_setup_cpu_down site cpu s : same_setup s (cpu_down site cpu s).
Proof. repeat split. apply nr_cpu_ids_cpu_down. Qed.

Lemma same_setup_set_cycle v s s' : same_setup s s' -> same_setup s (set_cycle v s').
Proof. intros H. exact H. Qed.

Lemma little_engine_same_setup pf lim s : same_setup s (little_engine pf lim s).
Proof.
  destruct (little_engine_cases pf lim s)
    as [E | [(_ & _ & _ & E) | (_ & _ & _ & _ & _ & _ & _ & E)]]; rewrite E.
  - apply same_setup_refl.
  - apply same_setup_set_cycle, same_setup_cpu_up.
  - apply same_setup_set_cycle, same_setup_cpu_down.
Qed.

Lemma big_engine_same_setup pf lim nr_hmp s :
  same_setup s (big_engine pf lim nr_hmp s).
Proof.
  destruct (big_engine_cases pf lim nr_hmp s)
    as [E | [(_ & _ & _ & E) | (_ & _ & _ & _ & _ & E)]]; rewrite E.
  - apply same_setup_refl.
  - apply same_setup_set_cycle, same_setup_cpu_up.
  - apply same_setup_set_cycle. destruct (cpu_online _ s);
      [apply same_setup_cpu_down|apply same_setup_refl].
Qed.

Lemma hmp_trade_down_same_setup pf nr s : same_setup s (hmp_trade_down pf nr s).
Proof.
  revert s. induction nr as [|n IH]; intros s; simpl;
    [apply same_setup_refl|].
  destruct n as [|[|n]]; try apply same_setup_refl.
  change (2 <? S (S (S n)))%nat with true. cbv iota.
  eapply same_setup_trans; [apply same_setup_cpu_down|apply IH].
Qed.

Lemma hmp_handler_same_setup pf lim s : same_setup s (hmp_handler pf lim s).
Proof.
  unfold hmp_handler. destruct (_ =? _)%nat.
  - unfold hmp_trade. destruct (_ >=? _); [|apply same_setup_refl].
    eapply same_setup_trans;
      [apply same_setup_cpu_up|apply hmp_trade_down_same_setup].
  - apply big_engine_same_setup.
Qed.

(** A tick never writes the parameters or the enabled flag, never changes
    the number of possible cores and never touches [cpu_all_up_work]; it
    always ends with itself queued again, [DELAY_CHECK] milliseconds later,
    and only appends to the log. *)
Theorem tick_leaves_setup (pf : platform) (s : asmp_state) :
  let s' := asmp_work_fn pf s in
  asmp_param s' = asmp_param s
  /\ enabled s' = enabled s
  /\ nr_cpu_ids s' = nr_cpu_ids s
  /\ cpu_all_up_pending s' = cpu_all_up_pending s
  /\ asmp_work_pending s' = true
  /\ exists added, calls s' = calls s ++ added ++ [QueueDelayedWork DELAY_CHECK].
Proof.
  simpl.
  assert (H : same_setup s (hmp_handler pf (tick_limits pf s) (tick_middle pf s))).
  { eapply same_setup_trans; [|apply hmp_handler_same_setup].
    unfold tick_middle.
    eapply same_setup_trans; [|apply little_engine_same_setup].
    repeat split. }
  destruct H as (H1 & H2 & H3 & H4 & _).
  rewrite asmp_work_fn_stages.
  refine (conj H1 (conj H2 (conj H3 (conj H4 (conj eq_refl _))))).
  destruct (little_engine_sites pf (tick_limits pf s) (tick_start s))
    as (l1 & E1 & _). fold (tick_middle pf s) in E1.
  destruct (hmp_handler_sites pf (tick_limits pf s) (tick_middle pf s))
    as (l2 & E2 & _).
  exists (l1 ++ l2).
  change (calls (hmp_handler pf (tick_limits pf s) (tick_middle pf s))
          ++ [QueueDelayedWork DELAY_CHECK]
          = calls s ++ (l1 ++ l2) ++ [QueueDelayedWork DELAY_CHECK]).
  rewrite E2, E1. change (calls (tick_start s)) with (calls s).
  rewrite <- !app_assoc. reflexivity.
Qed.

(** ** The core that a scale-up asks for *)

Lemma find_first_seq (p : nat -> bool) a n :
  match List.find p (seq a n) with
  | Some r => (a <= r < a + n)%nat /\ p r = true
              /\ forall c, (a <= c < r)%nat -> p c = false
  | None => forall c, (a <= c < a + n)%nat -> p c = false
  end.
Proof.
  revert a. induction n as [|n IH]; intros a; simpl; [intros c Hc; lia|].
  destruct (p a) eqn:Hp.
  - repeat split; auto; try lia; intros c Hc; lia.
  - specialize (IH (S a)). destruct (List.find p (seq (S a) n)) as [r|].
    + destruct IH as (H1 & H2 & H3). repeat split; auto; try lia.
      intros c Hc. destruct (Nat.eq_dec c a) as [->|]; [exact Hp|].
      apply H3. lia.
    + intros c Hc. destruct (Nat.eq_dec c a) as [->|]; [exact Hp|].
      apply IH. lia.
Qed.

Lemma cpumask_next_zero_spec n s :
  let t := cpumask_next_zero n s in
  (t = Nat.max (S n) (nr_cpu_ids s) \/ (n < t < nr_cpu_ids s)%nat)
  /\ cpu_online t s = false
  /\ (forall c, (n < c < t)%nat -> cpu_online c s = true)
  /\ ((exists c, (n < c < nr_cpu_ids s)%nat /\ cpu_online c s = false) ->
      (n < t < nr_cpu_ids s)%nat).
Proof.
  simpl. split; [|split; [apply cpumask_next_zero_offline|]];
    unfold cpumask_next_zero;
    pose proof (find_first_seq (fun cpu => negb (cpu_online cpu s)) (S n)
                  (nr_cpu_ids s - S n)) as H;
    destruct (List.find _ _) as [r|].
  - right. lia.
  - left. reflexivity.
  - destruct H as (H1 & H2 & H3). split.
    + intros c Hc. specialize (H3 c). apply negb_false_iff. apply H3. lia.
    + intros _. lia.
  - split.
    + intros c Hc. apply negb_false_iff. apply H. lia.
    + intros (c & Hc & Hoff). exfalso.
      assert (negb (cpu_online c s) = false) by (apply H; lia).
      rewrite Hoff in *. discriminate.
Qed.

Lemma count_at_least pf cluster s (cores : list nat) :
  List.NoDup cores ->
  (forall c, In c cores ->
             cpu_online c s = true
             /\ topology_physical_package_id pf c = cluster) ->
  (length cores <= num_online_cluster_cpus pf cluster s)%nat.
Proof.
  intros Hnd H. rewrite num_online_cluster_cpus_length.
  apply List.NoDup_incl_length; [exact Hnd|].
  intros c Hc. apply in_online_in. apply H. exact Hc.
Qed.

Lemma little_engine_up_fires pf lim s :
  up_rate_of lim 0 < slow_rate (sample_little pf s) ->
  Z.of_nat (num_online_cluster_cpus pf CLUSTER_LITTLE s) < MAX_CPU_PER_CLUSTERS ->
  cycle_up (asmp_param s) <= cycle s ->
  little_engine pf lim s
  = set_cycle 0 (cpu_up little_up (cpumask_next_zero 0 s) s).
Proof.
  intros H1 H2 H3. unfold little_engine.
  rewrite Z.gtb_ltb, Z.geb_leb.
  apply Z.ltb_lt in H1, H2. apply Z.leb_le in H3.
  rewrite H1, H2, H3, cpumask_next_zero_offline. reflexivity.
Qed.

Lemma platform8_split freqs : clusters_split_at_4 (platform8 freqs).
Proof.
  intros cpu. simpl. unfold topology8, CLUSTER_LITTLE, CLUSTER_BIG.
  destruct (Nat.ltb_spec cpu 4); split; split; intros H'; try lia;
    try reflexivity; discriminate.
Qed.

(** On a platform whose efficiency cluster is cores 0 to 3, all possible,
    with core 0 online: when the efficiency decision scales up, it brings
    online the lowest-numbered offline core after core 0, which is an
    efficiency core; the efficiency count grows by exactly one, the
    performance count is unchanged and the counter is reset. *)
Theorem efficiency_scale_up_effect (pf : platform) (lim : rate_limits)
        (s : asmp_state) :
  clusters_split_at_4 pf -> (4 <= nr_cpu_ids s)%nat -> cpu_online 0 s = true ->
  up_rate_of lim 0 < slow_rate (sample_little pf s) ->
  Z.of_nat (num_online_cluster_cpus pf CLUSTER_LITTLE s) < MAX_CPU_PER_CLUSTERS ->
  cycle_up (asmp_param s) <= cycle s ->
  let t := cpumask_next_zero 0 s in
  let s' := little_engine pf lim s in
  (0 < t < 4)%nat /\ cpu_online t s = false
  /\ (forall c, (0 < c < t)%nat -> cpu_online c s = true)
  /\ cpu_online_mask s' = <[t := true]> (cpu_online_mask s)
  /\ num_online_cluster_cpus pf CLUSTER_LITTLE s'
     = S (num_online_cluster_cpus pf CLUSTER_LITTLE s)
  /\ num_online_cluster_cpus pf CLUSTER_BIG s'
     = num_online_cluster_cpus pf CLUSTER_BIG s
  /\ cycle s' = 0
  /\ new_calls s s' = [CpuUp little_up t].
Proof.
  intros Hsplit Hnr Hon0 Hup Hcnt Hcyc. simpl.
  rewrite (little_engine_up_fires pf lim s Hup Hcnt Hcyc).
  destruct (cpumask_next_zero_spec 0 s) as (_ & Hoff & Hbelow & Hfound).
  cbv zeta in *. set (t := cpumask_next_zero 0 s) in *.
  assert (Hex : exists c, (0 < c < 4)%nat /\ cpu_online c s = false).
  { destruct (cpu_online 1 s) eqn:H1; [|exists 1%nat; split; [lia|auto]].
    destruct (cpu_online 2 s) eqn:H2; [|exists 2%nat; split; [lia|auto]].
    destruct (cpu_online 3 s) eqn:H3; [|exists 3%nat; split; [lia|auto]].
    exfalso.
    assert (4 <= num_online_cluster_cpus pf CLUSTER_LITTLE s)%nat.
    { apply (count_at_least pf CLUSTER_LITTLE s [0; 1; 2; 3]%nat).
      - repeat constructor; simpl; intuition lia.
      - intros c Hc. split.
        + simpl in Hc. destruct Hc as [<- | [<- | [<- | [<- | []]]]]; auto.
        + apply Hsplit. simpl in Hc. lia. }
    unfold MAX_CPU_PER_CLUSTERS in Hcnt. lia. }
  destruct Hex as (c & Hc & Hcoff).
  assert (Ht : (0 < t < nr_cpu_ids s)%nat)
    by (apply Hfound; exists c; split; [lia|exact Hcoff]).
  assert (Ht4 : (t < 4)%nat).
  { destruct (Nat.lt_ge_cases c t) as [Hlt|Hge]; [|lia].
    rewrite Hbelow in Hcoff by lia. discriminate. }
  assert (Hcl : topology_physical_package_id pf t = CLUSTER_LITTLE)
    by (apply Hsplit; exact Ht4).
  split; [lia|]. split; [exact Hoff|]. split; [exact Hbelow|].
  split; [reflexivity|]. split; [|split; [|split]].
  - rewrite count_set_cycle. apply count_cpu_up; [exact Hoff|lia|exact Hcl].
  - rewrite count_set_cycle. apply count_cpu_up_other. right. right.
    rewrite Hcl. discriminate.
  - reflexivity.
  - apply new_calls_app. reflexivity.
Qed.

Lemma efficiency_scale_up_effect_witness :
  new_calls little3_big2_state
            (little_engine loaded_platform
               (compute_limits loaded_platform little3_big2_state)
               little3_big2_state)
  = [CpuUp little_up (cpumask_next_zero 0 little3_big2_state)].
Proof.
  apply (efficiency_scale_up_effect loaded_platform
           (compute_limits loaded_platform little3_big2_state)
           little3_big2_state).
  - apply platform8_split.
  - vm_compute. lia.
  - reflexivity.
  - vm_compute. reflexivity.
  - vm_compute. reflexivity.
  - vm_compute. discriminate.
Defined.

(** On a platform whose performance cluster is cores 4 to 7, all possible:
    when the performance decision scales up, it brings online the
    lowest-numbered offline core after core 3, which is a performance core,
    and the performance count grows by exactly one. *)
Theorem performance_scale_up_effect (pf : platform) (lim : rate_limits)
        (s : asmp_state) :
  clusters_split_at_4 pf -> (8 <= nr_cpu_ids s)%nat ->
  let nr_hmp := num_online_cluster_cpus pf CLUSTER_BIG s in
  up_rate_of lim 1 < slow_rate (sample_big pf s) ->
  Z.of_nat nr_hmp < MAX_CPU_PER_CLUSTERS ->
  cycle_up (asmp_param s) <= cycle s ->
  let t := cpumask_next_zero 3 s in
  let s' := big_engine pf lim nr_hmp s in
  (4 <= t < 8)%nat /\ cpu_online t s = false
  /\ (forall c, (3 < c < t)%nat -> cpu_online c s = true)
  /\ cpu_online_mask s' = <[t := true]> (cpu_online_mask s)
  /\ num_online_cluster_cpus pf CLUSTER_BIG s' = S nr_hmp
  /\ num_online_cluster_cpus pf CLUSTER_LITTLE s'
     = num_online_cluster_cpus pf CLUSTER_LITTLE s
  /\ cycle s' = 0
  /\ new_calls s s' = [CpuUp big_up t].
Proof.
  intros Hsplit Hnr nr_hmp Hup Hcnt Hcyc. simpl.
  rewrite (big_engine_up_fires pf lim nr_hmp s Hup Hcnt Hcyc).
  destruct (cpumask_next_zero_spec 3 s) as (_ & Hoff & Hbelow & Hfound).
  cbv zeta in *. set (t := cpumask_next_zero 3 s) in *.
  assert (Hex : exists c, (3 < c < 8)%nat /\ cpu_online c s = false).
  { destruct (cpu_online 4 s) eqn:H4; [|exists 4%nat; split; [lia|auto]].
    destruct (cpu_online 5 s) eqn:H5; [|exists 5%nat; split; [lia|auto]].
    destruct (cpu_online 6 s) eqn:H6; [|exists 6%nat; split; [lia|auto]].
    destruct (cpu_online 7 s) eqn:H7; [|exists 7%nat; split; [lia|auto]].
    exfalso.
    assert (4 <= num_online_cluster_cpus pf CLUSTER_BIG s)%nat.
    { apply (count_at_least pf CLUSTER_BIG s [4; 5; 6; 7]%nat).
      - repeat constructor; simpl; intuition lia.
      - intros c Hc. split.
        + simpl in Hc. destruct Hc as [<- | [<- | [<- | [<- | []]]]]; auto.
        + apply Hsplit. simpl in Hc. lia. }
    unfold MAX_CPU_PER_CLUSTERS in Hcnt. fold nr_hmp in H. lia. }
  destruct Hex as (c & Hc & Hcoff).
  assert (Ht : (3 < t < nr_cpu_ids s)%nat)
    by (apply Hfound; exists c; split; [lia|exact Hcoff]).
  assert (Ht8 : (t < 8)%nat).
  { destruct (Nat.lt_ge_cases c t) as [Hlt|Hge]; [|lia].
    rewrite Hbelow in Hcoff by lia. discriminate. }
  assert (Hcl : topology_physical_package_id pf t = CLUSTER_BIG)
    by (apply Hsplit; lia).
  split; [lia|]. split; [exact Hoff|]. split; [exact Hbelow|].
  split; [reflexivity|]. split; [|split; [|split]].
  - rewrite count_set_cycle. apply count_cpu_up; [exact Hoff|lia|exact Hcl].
  - rewrite count_set_cycle. apply count_cpu_up_other. right. right.
    rewrite Hcl. discriminate.
  - reflexivity.
  - apply new_calls_app. reflexivity.
Qed.

Lemma performance_scale_up_effect_witness :
  num_online_cluster_cpus loaded_platform CLUSTER_BIG
    (big_engine loaded_platform
       (compute_limits loaded_platform little3_big2_state)
       (num_online_cluster_cpus loaded_platform CLUSTER_BIG little3_big2_state)
       little3_big2_state)
  = 3%nat.
Proof.
  apply (performance_scale_up_effect loaded_platform
           (compute_limits loaded_platform little3_big2_state)
           little3_big2_state).
  - apply platform8_split.
  - vm_compute. lia.
  - vm_compute. reflexivity.
  - vm_compute. reflexivity.
  - vm_compute. discriminate.
Defined.

(** When every possible core after core [n] is online ([n] is 0 for the
    efficiency decision and 3 for the performance decision), a scale-up has
    no core to bring online: the request names the first core number after
    [n] that is not a possible core ([nr_cpu_ids], or [n + 1] on a platform
    with no more than [n + 1] cores), the online mask is unchanged, and the
    counter is reset all the same. *)
Theorem scale_up_without_offline_core (pf : platform) (lim : rate_limits)
        (s : asmp_state) :
  ((forall c, (0 < c < nr_cpu_ids s)%nat -> cpu_online c s = true) ->
   up_rate_of lim 0 < slow_rate (sample_little pf s) ->
   Z.of_nat (num_online_cluster_cpus pf CLUSTER_LITTLE s)
   < MAX_CPU_PER_CLUSTERS ->
   cycle_up (asmp_param s) <= cycle s ->
   let s' := little_engine pf lim s in
   new_calls s s' = [CpuUp little_up (Nat.max 1 (nr_cpu_ids s))]
   /\ cpu_online_mask s' = cpu_online_mask s /\ cycle s' = 0)
  /\ (forall nr_hmp,
        (forall c, (3 < c < nr_cpu_ids s)%nat -> cpu_online c s = true) ->
        up_rate_of lim 1 < slow_rate (sample_big pf s) ->
        Z.of_nat nr_hmp < MAX_CPU_PER_CLUSTERS ->
        cycle_up (asmp_param s) <= cycle s ->
        let s' := big_engine pf lim nr_hmp s in
        new_calls s s' = [CpuUp big_up (Nat.max 4 (nr_cpu_ids s))]
        /\ cpu_online_mask s' = cpu_online_mask s /\ cycle s' = 0).
Proof.
  assert (Hnone : forall n,
             (forall c, (n < c < nr_cpu_ids s)%nat -> cpu_online c s = true) ->
             cpumask_next_zero n s = Nat.max (S n) (nr_cpu_ids s)).
  { intros n Hall.
    destruct (cpumask_next_zero_spec n s) as ([E | Hlt] & Hoff & _);
      [exact E|].
    cbv zeta in *. rewrite Hall in Hoff by exact Hlt. discriminate. }
  split.
  - intros Hall Hup Hcnt Hcyc. cbv zeta.
    rewrite (little_engine_up_fires pf lim s Hup Hcnt Hcyc), (Hnone _ Hall).
    split; [apply new_calls_app; reflexivity|]. split; [|reflexivity].
    cbn [cpu_online_mask set_cycle cpu_up set_mask log_call].
    apply list_insert_ge. unfold nr_cpu_ids. lia.
  - intros nr_hmp Hall Hup Hcnt Hcyc. cbv zeta.
    rewrite (big_engine_up_fires pf lim nr_hmp s Hup Hcnt Hcyc), (Hnone _ Hall).
    split; [apply new_calls_app; reflexivity|]. split; [|reflexivity].
    cbn [cpu_online_mask set_cycle cpu_up set_mask log_call].
    apply list_insert_ge. unfold nr_cpu_ids. lia.
Qed.

Lemma scale_up_without_offline_core_witness :
  new_calls six_core_state
            (big_engine busy_big_platform
               (compute_limits busy_big_platform six_core_state) 2
               six_core_state)
  = [CpuUp big_up 6]
  /\ cpu_online_mask
       (big_engine busy_big_platform
          (compute_limits busy_big_platform six_core_state) 2 six_core_state)
     = cpu_online_mask six_core_state
  /\ new_calls two_core_state
               (big_engine two_core_platform
                  (compute_limits two_core_platform two_core_state) 1
                  two_core_state)
     = [CpuUp big_up 4].
Proof.
  destruct (proj2 (scale_up_without_offline_core busy_big_platform
                     (compute_limits busy_big_platform six_core_state)
                     six_core_state) 2%nat) as (H1 & H2 & _).
  - intros c Hc. vm_compute in Hc.
    do 6 (destruct c as [|c]; [first [reflexivity | lia]|]). lia.
  - vm_compute. reflexivity.
  - vm_compute. reflexivity.
  - vm_compute. discriminate.
  - destruct (proj2 (scale_up_without_offline_core two_core_platform
                       (compute_limits two_core_platform two_core_state)
                       two_core_state) 1%nat) as (H3 & _).
    + intros c Hc. vm_compute in Hc. lia.
    + vm_compute. reflexivity.
    + vm_compute. reflexivity.
    + vm_compute. discriminate.
    + split; [exact H1|]. split; [exact H2|exact H3].
Defined.

(** ** The core that a scale-down takes offline *)

Lemma little_engine_down_fires pf lim s :
  let smp := sample_little pf s in
  slow_rate smp <= up_rate_of lim 0 -> slow_cpu smp <> 0%nat ->
  fast_rate smp < down_rate_of lim 0 ->
  min_cpus (asmp_param s)
  < Z.of_nat (num_online_cluster_cpus pf CLUSTER_LITTLE s) ->
  cycle_down (asmp_param s) <= cycle s ->
  little_engine pf lim s = set_cycle 0 (cpu_down little_down (slow_cpu smp) s)
  /\ cpu_online (slow_cpu smp) s = true
  /\ topology_physical_package_id pf (slow_cpu smp) = CLUSTER_LITTLE.
Proof.
  intros smp H1 Hnz H2 H3 H4.
  destruct (sample_cluster_candidate pf CLUSTER_LITTLE 0%nat
              (cpufreq_quick_get pf 0) s) as [E | (_ & Hon & Hcl)];
    [exfalso; exact (Hnz E)|].
  change (cpu_online (slow_cpu smp) s = true) in Hon.
  change (topology_physical_package_id pf (slow_cpu smp) = CLUSTER_LITTLE)
    in Hcl.
  split; [|split; assumption].
  unfold little_engine. fold smp. rewrite !Z.gtb_ltb, !Z.geb_leb.
  destruct (Z.ltb_spec (up_rate_of lim 0) (slow_rate smp)); [lia|].
  apply Nat.eqb_neq in Hnz. rewrite Hnz, Hon. simpl.
  apply Z.ltb_lt in H2, H3. apply Z.leb_le in H4.
  rewrite H2, H3, H4. reflexivity.
Qed.

(** When the efficiency decision scales down, it takes exactly its candidate
    offline: an online efficiency core other than core 0.  Every other core
    keeps its status, the efficiency count drops by exactly one, the
    performance count is unchanged and the counter is reset. *)
Theorem efficiency_scale_down_effect (pf : platform) (lim : rate_limits)
        (s : asmp_state) :
  let smp := sample_little pf s in
  slow_rate smp <= up_rate_of lim 0 -> slow_cpu smp <> 0%nat ->
  fast_rate smp < down_rate_of lim 0 ->
  min_cpus (asmp_param s)
  < Z.of_nat (num_online_cluster_cpus pf CLUSTER_LITTLE s) ->
  cycle_down (asmp_param s) <= cycle s ->
  let s' := little_engine pf lim s in
  cpu_online (slow_cpu smp) s = true
  /\ topology_physical_package_id pf (slow_cpu smp) = CLUSTER_LITTLE
  /\ cpu_online_mask s' = <[slow_cpu smp := false]> (cpu_online_mask s)
  /\ (forall c, c <> slow_cpu smp -> cpu_online c s' = cpu_online c s)
  /\ num_online_cluster_cpus pf CLUSTER_LITTLE s
     = S (num_online_cluster_cpus pf CLUSTER_LITTLE s')
  /\ num_online_cluster_cpus pf CLUSTER_BIG s'
     = num_online_cluster_cpus pf CLUSTER_BIG s
  /\ cycle s' = 0
  /\ new_calls s s' = [CpuDown little_down (slow_cpu smp)].
Proof.
  intros smp H1 Hnz H2 H3 H4. simpl.
  destruct (little_engine_down_fires pf lim s H1 Hnz H2 H3 H4)
    as (E & Hon & Hcl). fold smp in E, Hon, Hcl. rewrite E.
  split; [exact Hon|]. split; [exact Hcl|]. split; [reflexivity|].
  split; [|split; [|split; [|split]]].
  - intros c Hc.
    change (cpu_online c (set_cycle 0 (cpu_down little_down (slow_cpu smp) s)))
      with (cpu_online c (cpu_down little_down (slow_cpu smp) s)).
    rewrite cpu_online_cpu_down.
    destruct (Nat.eqb_spec c (slow_cpu smp)); [contradiction|reflexivity].
  - rewrite count_set_cycle. apply count_cpu_down; assumption.
  - rewrite count_set_cycle. apply count_cpu_down_other. right.
    rewrite Hcl. discriminate.
  - reflexivity.
  - apply new_calls_app. reflexivity.
Qed.

Lemma efficiency_scale_down_effect_witness :
  new_calls little3_big2_state
            (little_engine idle_platform
               (compute_limits idle_platform little3_big2_state)
               little3_big2_state)
  = [CpuDown little_down
             (slow_cpu (sample_little idle_platform little3_big2_state))].
Proof.
  apply (efficiency_scale_down_effect idle_platform
           (compute_limits idle_platform little3_big2_state)
           little3_big2_state).
  - vm_compute. discriminate.
  - vm_compute. discriminate.
  - vm_compute. reflexivity.
  - vm_compute. reflexivity.
  - vm_compute. discriminate.
Defined.

(** When the HMP handler finds a performance core other than core 0 online
    and the performance decision scales down, it takes exactly its candidate
    offline, a slowest online performance core (the one sampled last among
    equals); the performance count drops by exactly one, the efficiency count
    is unchanged and the counter is reset. *)
Theorem performance_scale_down_effect (pf : platform) (lim : rate_limits)
        (s : asmp_state) :
  (forall cpu, cpufreq_quick_get pf cpu <= UINT_MAX) ->
  sampled_cores pf CLUSTER_BIG s <> [] ->
  let smp := sample_big pf s in
  slow_rate smp <= up_rate_of lim 1 ->
  fast_rate smp < down_rate_of lim 1 ->
  min_cpus_hmp (asmp_param s)
  < Z.of_nat (num_online_cluster_cpus pf CLUSTER_BIG s) ->
  u32 (cycle_down (asmp_param s) * 3) <= cycle s ->
  let s' := hmp_handler pf lim s in
  slowest_last pf (sampled_cores pf CLUSTER_BIG s) (slow_cpu smp)
  /\ cpu_online_mask s' = <[slow_cpu smp := false]> (cpu_online_mask s)
  /\ num_online_cluster_cpus pf CLUSTER_BIG s
     = S (num_online_cluster_cpus pf CLUSTER_BIG s')
  /\ num_online_cluster_cpus pf CLUSTER_LITTLE s'
     = num_online_cluster_cpus pf CLUSTER_LITTLE s
  /\ cycle s' = 0
  /\ new_calls s s' = [CpuDown big_down (slow_cpu smp)].
Proof.
  intros Hmax Hne smp H1 H2 H3 H4. simpl.
  destruct (sample_cluster_slowest pf CLUSTER_BIG 4%nat
              (cpufreq_quick_get pf (get_online_core pf CLUSTER_BIG s)) s Hmax)
    as [Hlast _]. specialize (Hlast Hne).
  fold (sample_big pf s) in Hlast. fold smp in Hlast.
  assert (Hin : In (slow_cpu smp) (sampled_cores pf CLUSTER_BIG s)).
  { destruct Hlast as (b & af & E & _). rewrite E.
    apply List.in_or_app. right. left. reflexivity. }
  unfold sampled_cores in Hin. apply List.filter_In in Hin.
  destruct Hin as [Hon Hm]. apply in_for_each_online_cpu in Hon.
  apply andb_true_iff in Hm. destruct Hm as [Hcl Hnz].
  apply Z.eqb_eq in Hcl. apply negb_true_iff in Hnz.
  assert (Hpos : (0 < num_online_cluster_cpus pf CLUSTER_BIG s)%nat)
    by (eapply count_pos_of_online; eassumption).
  assert (E : hmp_handler pf lim s
              = set_cycle 0 (cpu_down big_down (slow_cpu smp) s)).
  { unfold hmp_handler.
    destruct (Nat.eqb_spec (num_online_cluster_cpus pf CLUSTER_BIG s) 0);
      [lia|].
    unfold big_engine. fold smp. rewrite !Z.gtb_ltb, !Z.geb_leb.
    destruct (Z.ltb_spec (up_rate_of lim 1) (slow_rate smp)); [lia|].
    rewrite Hnz, Hon. simpl. apply Z.ltb_lt in H2, H3. apply Z.leb_le in H4.
    rewrite H2, H3, H4. reflexivity. }
  rewrite E. split; [exact Hlast|]. split; [reflexivity|].
  split; [|split; [|split]].
  - rewrite count_set_cycle. apply count_cpu_down; assumption.
  - rewrite count_set_cycle. apply count_cpu_down_other. right.
    rewrite Hcl. discriminate.
  - reflexivity.
  - apply new_calls_app. reflexivity.
Qed.

Lemma performance_scale_down_effect_witness :
  new_calls (set_cycle 2 wrapping_state)
            (hmp_handler moderate_platform
               (compute_limits moderate_platform wrapping_state)
               (set_cycle 2 wrapping_state))
  = [CpuDown big_down 5].
Proof.
  assert (H := performance_scale_down_effect moderate_platform
                 (compute_limits moderate_platform wrapping_state)
                 (set_cycle 2 wrapping_state)).
  simpl in H. apply H.
  - intros cpu. do 4 (destruct cpu as [|cpu]; [vm_compute; discriminate|]).
    destruct cpu; vm_compute; discriminate.
  - vm_compute. discriminate.
  - vm_compute. discriminate.
  - vm_compute. reflexivity.
  - vm_compute. reflexivity.
  - vm_compute. discriminate.
Defined.

(** ** Ticks that decide nothing, and ticks that decide once *)

Lemma filter_calls_none (f : call -> bool) (l : list call) :
  Forall (fun c => f c = false) l -> List.filter f l = [].
Proof.
  induction 1 as [|c l Hc _ IH]; simpl; [reflexivity|]. rewrite Hc. exact IH.
Qed.

Lemma filter_calls_shorter (f : call -> bool) (l : list call) :
  (length (List.filter f l) <= length l)%nat.
Proof.
  induction l as [|a l IH]; simpl; [lia|]. destruct (f a); simpl; lia.
Qed.

(** With [cycle_up] at least 1 and the 32-bit [cycle_down * 3] at least 1, a
    tick issues at most one request of the decision engine, on whichever
    cluster: once the efficiency decision has acted the counter is 0 and the
    performance decision cannot act in the same tick. *)
Theorem one_engine_request_per_tick (pf : platform) (s : asmp_state) :
  1 <= cycle_up (asmp_param s) ->
  1 <= u32 (cycle_down (asmp_param s) * 3) ->
  (length (List.filter is_engine_call (new_calls s (asmp_work_fn pf s))) <= 1)%nat.
Proof.
  intros Hup Hdown. rewrite tick_new_calls, !List.filter_app, !length_app.
  simpl.
  pose proof (little_engine_calls pf (tick_limits pf s) (tick_start s)) as HL.
  pose proof (hmp_handler_calls pf (tick_limits pf s) (tick_middle pf s)) as HH.
  pose proof (big_engine_calls pf (tick_limits pf s)
                (num_online_cluster_cpus pf CLUSTER_BIG (tick_middle pf s))
                (tick_middle pf s)) as HB.
  cbv zeta in HL, HH, HB. fold (tick_middle pf s) in HL.
  rewrite tick_middle_param in HB.
  assert (Hn : forall l, Forall (fun c => is_engine_call c = false) l ->
                         length (List.filter is_engine_call l) = 0%nat).
  { intros l F. rewrite (filter_calls_none _ _ F). reflexivity. }
  destruct HH as [(_ & _ & F) | (_ & E)].
  - rewrite (Hn _ F).
    destruct HL as [[_ ->] | [(_ & _ & _ & _ & ->) | (_ & _ & _ & _ & _ & ->)]];
      simpl; lia.
  - rewrite E.
    destruct HL as [[_ ->] | [(_ & _ & _ & Hc & ->) | (_ & _ & _ & _ & Hc & ->)]].
    + simpl.
      pose proof (filter_calls_shorter is_engine_call
                    (new_calls (tick_middle pf s)
                       (big_engine pf (tick_limits pf s)
                          (num_online_cluster_cpus pf CLUSTER_BIG
                             (tick_middle pf s)) (tick_middle pf s)))) as Hs.
      destruct HB as [[_ En] | [(_ & _ & _ & _ & En)
                               | (_ & _ & _ & _ & _ & [En | En])]];
        rewrite En in *; simpl in *; lia.
    + destruct HB as [[_ ->] | [(_ & _ & H & _) | (_ & _ & _ & H & _)]];
        [simpl; lia|lia|lia].
    + destruct HB as [[_ ->] | [(_ & _ & H & _) | (_ & _ & _ & H & _)]];
        [simpl; lia|lia|lia].
Qed.

Lemma one_engine_request_per_tick_witness :
  (length (List.filter is_engine_call
             (new_calls little3_big2_state
                        (asmp_work_fn loaded_platform little3_big2_state)))
   <= 1)%nat.
Proof.
  apply (one_engine_request_per_tick loaded_platform little3_big2_state);
    vm_compute; discriminate.
Defined.

Lemma get_online_core_set_cycle pf cluster v s :
  get_online_core pf cluster (set_cycle v s) = get_online_core pf cluster s.
Proof.
  unfold get_online_core.
  change (for_each_possible_cpu (set_cycle v s))
    with (for_each_possible_cpu s).
  induction (for_each_possible_cpu s) as [|a l IH]; simpl; [reflexivity|].
  rewrite IH. reflexivity.
Qed.

Lemma sample_big_set_cycle pf v s :
  sample_big pf (set_cycle v s) = sample_big pf s.
Proof.
  unfold sample_big. rewrite get_online_core_set_cycle. reflexivity.
Qed.

Lemma little_engine_idle pf lim s :
  (slow_rate (sample_little pf s) <= up_rate_of lim 0
   /\ down_rate_of lim 0 <= fast_rate (sample_little pf s))
  \/ (cycle s < cycle_up (asmp_param s)
      /\ cycle s < cycle_down (asmp_param s)) ->
  little_engine pf lim s = s.
Proof.
  intros H. unfold little_engine. rewrite !Z.gtb_ltb, !Z.geb_leb.
  destruct H as [[H1 H2] | [H1 H2]].
  - destruct (Z.ltb_spec (up_rate_of lim 0) (slow_rate (sample_little pf s)));
      [lia|].
    destruct (Z.ltb_spec (fast_rate (sample_little pf s)) (down_rate_of lim 0));
      [lia|]. rewrite andb_false_r. reflexivity.
  - destruct (Z.leb_spec (cycle_up (asmp_param s)) (cycle s)); [lia|].
    destruct (Z.leb_spec (cycle_down (asmp_param s)) (cycle s)); [lia|].
    rewrite !andb_false_r.
    destruct (_ <? _); [reflexivity|]. destruct (_ && _); reflexivity.
Qed.

Lemma big_engine_idle pf lim nr_hmp s :
  (slow_rate (sample_big pf s) <= up_rate_of lim 1
   /\ down_rate_of lim 1 <= fast_rate (sample_big pf s))
  \/ (cycle s < cycle_up (asmp_param s)
      /\ cycle s < u32 (cycle_down (asmp_param s) * 3)) ->
  big_engine pf lim nr_hmp s = s.
Proof.
  intros H. unfold big_engine. rewrite !Z.gtb_ltb, !Z.geb_leb.
  destruct H as [[H1 H2] | [H1 H2]].
  - destruct (Z.ltb_spec (up_rate_of lim 1) (slow_rate (sample_big pf s)));
      [lia|].
    destruct (Z.ltb_spec (fast_rate (sample_big pf s)) (down_rate_of lim 1));
      [lia|]. rewrite andb_false_r. reflexivity.
  - destruct (Z.leb_spec (cycle_up (asmp_param s)) (cycle s)); [lia|].
    destruct (Z.leb_spec (u32 (cycle_down (asmp_param s) * 3)) (cycle s));
      [lia|].
    rewrite !andb_false_r.
    destruct (_ <? _); [reflexivity|]. destruct (_ && _); reflexivity.
Qed.

Lemma hmp_trade_idle pf s :
  Z.of_nat (num_online_cluster_cpus pf CLUSTER_LITTLE s) < MAX_CPU_PER_CLUSTERS ->
  hmp_trade pf (num_online_cluster_cpus pf CLUSTER_LITTLE s) s = s.
Proof.
  intros H. unfold hmp_trade. rewrite Z.geb_leb.
  destruct (Z.leb_spec MAX_CPU_PER_CLUSTERS
              (Z.of_nat (num_online_cluster_cpus pf CLUSTER_LITTLE s)));
    [lia|reflexivity].
Qed.

(** A tick under moderate load changes nothing but the counter: when, on the
    efficiency cluster, [slow_rate] is not above [up_rate] and [fast_rate] is
    not below [down_rate], and either the same holds on the performance
    cluster, which has a core online, or the performance cluster has no core
    online and the efficiency cluster has fewer than 4, the tick only
    increments the counter and queues itself again. *)
Theorem tick_in_band (pf : platform) (s : asmp_state) :
  let lim := tick_limits pf s in
  slow_rate (sample_little pf s) <= up_rate_of lim 0 ->
  down_rate_of lim 0 <= fast_rate (sample_little pf s) ->
  (num_online_cluster_cpus pf CLUSTER_BIG s <> 0%nat
   /\ slow_rate (sample_big pf s) <= up_rate_of lim 1
   /\ down_rate_of lim 1 <= fast_rate (sample_big pf s))
  \/ (num_online_cluster_cpus pf CLUSTER_BIG s = 0%nat
      /\ Z.of_nat (num_online_cluster_cpus pf CLUSTER_LITTLE s)
         < MAX_CPU_PER_CLUSTERS) ->
  asmp_work_fn pf s = reschedule_asmp_workq (tick_start s).
Proof.
  intros lim H1 H2 H3. rewrite asmp_work_fn_stages. f_equal.
  assert (Em : tick_middle pf s = tick_start s).
  { unfold tick_middle. apply little_engine_idle. left.
    split; [exact H1|exact H2]. }
  rewrite Em. fold lim. unfold hmp_handler.
  change (num_online_cluster_cpus pf CLUSTER_BIG (tick_start s))
    with (num_online_cluster_cpus pf CLUSTER_BIG s).
  change (num_online_cluster_cpus pf CLUSTER_LITTLE (tick_start s))
    with (num_online_cluster_cpus pf CLUSTER_LITTLE s).
  destruct H3 as [(Hnz & H4 & H5) | (Hz & Hlt)].
  - apply Nat.eqb_neq in Hnz. rewrite Hnz.
    apply big_engine_idle. left. unfold tick_start.
    rewrite sample_big_set_cycle. split; [exact H4|exact H5].
  - rewrite Hz. simpl. apply (hmp_trade_idle pf (tick_start s)). exact Hlt.
Qed.

Lemma tick_in_band_witness :
  asmp_work_fn moderate_platform little3_state
  = reschedule_asmp_workq (tick_start little3_state).
Proof.
  apply (tick_in_band moderate_platform little3_state).
  - vm_compute. discriminate.
  - vm_compute. discriminate.
  - right. split; [reflexivity|vm_compute; reflexivity].
Defined.

(** A tick inside the hysteresis window changes nothing but the counter:
    when the incremented counter is below [cycle_up], [cycle_down] and the
    32-bit [cycle_down * 3], and the HMP trade does not apply, the tick only
    increments the counter and queues itself again, whatever the load. *)
Theorem tick_held_off (pf : platform) (s : asmp_state) :
  u32 (cycle s + 1) < cycle_up (asmp_param s) ->
  u32 (cycle s + 1) < cycle_down (asmp_param s) ->
  u32 (cycle s + 1) < u32 (cycle_down (asmp_param s) * 3) ->
  (num_online_cluster_cpus pf CLUSTER_BIG s <> 0%nat
   \/ Z.of_nat (num_online_cluster_cpus pf CLUSTER_LITTLE s)
      < MAX_CPU_PER_CLUSTERS) ->
  asmp_work_fn pf s = reschedule_asmp_workq (tick_start s).
Proof.
  intros H1 H2 H3 H4. rewrite asmp_work_fn_stages. f_equal.
  assert (Em : tick_middle pf s = tick_start s).
  { unfold tick_middle. apply little_engine_idle. right.
    split; [exact H1|exact H2]. }
  rewrite Em. unfold hmp_handler.
  change (num_online_cluster_cpus pf CLUSTER_BIG (tick_start s))
    with (num_online_cluster_cpus pf CLUSTER_BIG s).
  change (num_online_cluster_cpus pf CLUSTER_LITTLE (tick_start s))
    with (num_online_cluster_cpus pf CLUSTER_LITTLE s).
  destruct (Nat.eqb_spec (num_online_cluster_cpus pf CLUSTER_BIG s) 0)
    as [Hz|Hnz].
  - destruct H4 as [H4|H4]; [contradiction|].
    apply (hmp_trade_idle pf (tick_start s)). exact H4.
  - apply big_engine_idle. right. split; [exact H1|exact H3].
Qed.

Lemma tick_held_off_witness :
  asmp_work_fn loaded_platform
               (set_asmp_param
                  (assign_param attr_cycle_down 9
                     (assign_param attr_cycle_up 9 param8))
                  little3_big2_state)
  = reschedule_asmp_workq
      (tick_start
         (set_asmp_param
            (assign_param attr_cycle_down 9
               (assign_param attr_cycle_up 9 param8))
            little3_big2_state)).
Proof.
  apply tick_held_off.
  - vm_compute. reflexivity.
  - vm_compute. reflexivity.
  - vm_compute. reflexivity.
  - left. vm_compute. discriminate.
Defined.

(** ** Bringing every core online *)

Lemma cpu_all_up_fold (l : list nat) (s : asmp_state) :
  List.NoDup l ->
  let s' := fold_left
              (fun s cpu => if cpu_online cpu s then s else cpu_up all_up cpu s)
              l s in
  calls s'
  = calls s ++ map (CpuUp all_up)
                   (List.filter (fun c => negb (cpu_online c s)) l)
  /\ (forall c, cpu_online c s' = true
                <-> cpu_online c s = true
                    \/ (In c l /\ (c < nr_cpu_ids s)%nat))
  /\ same_setup s s' /\ cycle s' = cycle s.
Proof.
  revert s. induction l as [|a l IH]; intros s Hnd.
  - simpl. rewrite app_nil_r. repeat split; auto. tauto.
  - inversion Hnd as [|? ? Hna Hnd']; subst. cbn [fold_left].
    set (s1 := if cpu_online a s then s else cpu_up all_up a s).
    assert (Hother : forall c, c <> a -> cpu_online c s1 = cpu_online c s).
    { intros c Hc. unfold s1. destruct (cpu_online a s); [reflexivity|].
      rewrite cpu_online_cpu_up.
      destruct (Nat.eqb_spec c a); [contradiction|reflexivity]. }
    assert (Hself : cpu_online a s1 = true
                    <-> cpu_online a s = true \/ (a < nr_cpu_ids s)%nat).
    { unfold s1. destruct (cpu_online a s) eqn:E; [tauto|].
      rewrite cpu_online_cpu_up, Nat.eqb_refl, Nat.ltb_lt.
      split; [auto|intros [H|H]; [discriminate|exact H]]. }
    assert (Hsetup : same_setup s s1).
    { unfold s1. destruct (cpu_online a s);
        [apply same_setup_refl|apply same_setup_cpu_up]. }
    assert (Hcyc : cycle s1 = cycle s)
      by (unfold s1; destruct (cpu_online a s); reflexivity).
    destruct (IH s1 Hnd') as (Ec & Hon & Hs & Hcy). cbv zeta in *.
    split; [|split; [|split]].
    + rewrite Ec. cbn [List.filter].
      rewrite (filter_length_ext (fun c => negb (cpu_online c s1))
                 (fun c => negb (cpu_online c s)) l).
      2: { intros c Hc. rewrite Hother; [reflexivity|].
           intros ->. contradiction. }
      unfold s1. destruct (cpu_online a s); simpl; [reflexivity|].
      rewrite <- app_assoc. reflexivity.
    + intros c. rewrite Hon.
      destruct Hsetup as (_ & _ & Hnr & _). rewrite Hnr.
      destruct (Nat.eq_dec c a) as [->|Hne].
      * rewrite Hself. simpl. split.
        -- intros [[H|H] | [H1 H2]]; auto; contradiction.
        -- intros [H | [_ H]]; auto.
      * rewrite (Hother c Hne). simpl. split.
        -- intros [H | [H1 H2]]; auto.
        -- intros [H | [[H1|H1] H2]]; auto; congruence.
    + eapply same_setup_trans; eassumption.
    + congruence.
Qed.

Lemma cpu_all_up_spec s :
  calls (cpu_all_up s)
  = calls s ++ map (CpuUp all_up)
                   (List.filter (fun c => negb (cpu_online c s))
                                (for_each_possible_cpu s))
  /\ all_online (cpu_all_up s)
  /\ same_setup s (cpu_all_up s) /\ cycle (cpu_all_up s) = cycle s.
Proof.
  destruct (cpu_all_up_fold (for_each_possible_cpu s) s (List.seq_NoDup _ _))
    as (Ec & Hon & Hs & Hcy). cbv zeta in *.
  fold (cpu_all_up s) in Ec, Hon, Hs, Hcy.
  repeat split; try assumption; try apply Hs.
  intros c Hc. apply Hon. right.
  destruct Hs as (_ & _ & Hnr & _). rewrite Hnr in Hc.
  split; [apply List.in_seq; lia|exact Hc].
Qed.

Lemma cpu_all_up_nothing_to_do s : all_online s -> cpu_all_up s = s.
Proof.
  intros Hall. unfold cpu_all_up.
  assert (H : forall l, (forall c, In c l -> cpu_online c s = true) ->
              fold_left
                (fun s cpu => if cpu_online cpu s then s else cpu_up all_up cpu s)
                l s = s).
  { induction l as [|a l IH]; intros Hl; [reflexivity|]. cbn [fold_left].
    rewrite (Hl a) by (left; reflexivity). apply IH.
    intros c Hc. apply Hl. right. exact Hc. }
  apply H. intros c Hc. apply List.in_seq in Hc. apply Hall. lia.
Qed.

(** [cpu_all_up] asks for exactly the possible cores that are offline, in
    increasing order, and leaves every possible core online; when every core
    is online already it does nothing at all. *)
Theorem cpu_all_up_brings_all_online (s : asmp_state) :
  let s' := cpu_all_up s in
  new_calls s s'
  = map (CpuUp all_up)
        (List.filter (fun c => negb (cpu_online c s)) (for_each_possible_cpu s))
  /\ all_online s'
  /\ nr_cpu_ids s' = nr_cpu_ids s
  /\ (all_online s -> s' = s).
Proof.
  simpl. destruct (cpu_all_up_spec s) as (Ec & Hall & Hs & _).
  split; [apply new_calls_app; exact Ec|]. split; [exact Hall|].
  split; [apply Hs|apply cpu_all_up_nothing_to_do].
Qed.

Lemma cpu_all_up_brings_all_online_witness :
  cpu_all_up six_core_state = six_core_state.
Proof.
  apply (cpu_all_up_brings_all_online six_core_state).
  intros c Hc. vm_compute in Hc.
  do 6 (destruct c as [|c]; [reflexivity|]). lia.
Defined.

(** ** Display off, display on *)

Lemma asmp_suspend_loop_frame cpu s :
  same_setup s (asmp_suspend_loop cpu s)
  /\ cycle (asmp_suspend_loop cpu s) = cycle s.
Proof.
  revert s. induction cpu as [|n IH]; intros s; simpl.
  - rewrite orb_true_r. split; [apply same_setup_refl|reflexivity].
  - rewrite orb_false_r.
    destruct (cpu_online (S n) s); simpl; [|apply IH].
    destruct (IH (cpu_down suspend_down (S n) s)) as [H1 H2].
    split; [|exact H2].
    eapply same_setup_trans; [apply same_setup_cpu_down|exact H1].
Qed.

Lemma asmp_suspend_frame s :
  asmp_param (asmp_suspend s) = asmp_param s
  /\ enabled (asmp_suspend s) = enabled s
  /\ nr_cpu_ids (asmp_suspend s) = nr_cpu_ids s
  /\ cpu_all_up_pending (asmp_suspend s) = cpu_all_up_pending s
  /\ cycle (asmp_suspend s) = cycle s
  /\ asmp_work_pending (asmp_suspend s)
     = (if enabled s then false else asmp_work_pending s).
Proof.
  unfold asmp_suspend.
  destruct (asmp_suspend_loop_frame (nr_cpu_ids s) s)
    as [(H1 & H2 & H3 & H4 & H5) H6].
  rewrite H2. destruct (enabled s); simpl; repeat split; assumption.
Qed.

(** A display-off event followed by a display-on event and a run of the
    [cpu_all_up] worker leaves every possible core online, whatever was
    online before; parameters, counter and enabled flag are untouched, and
    the tick is queued again exactly when the driver is enabled. *)
Theorem display_off_then_on (s : asmp_state) :
  tick_gated s ->
  let s' := cpu_all_up_work_runs
              (lcd_notifier_call LCD_EVENT_ON_START
                 (lcd_notifier_call LCD_EVENT_OFF_END s)) in
  all_online s'
  /\ nr_cpu_ids s' = nr_cpu_ids s
  /\ asmp_param s' = asmp_param s
  /\ cycle s' = cycle s
  /\ enabled s' = enabled s
  /\ asmp_work_pending s' = enabled s
  /\ cpu_all_up_pending s' = false.
Proof.
  intros Hgate. simpl.
  destruct (asmp_suspend_frame s) as (P1 & P2 & P3 & P4 & P5 & P6).
  set (s1 := asmp_suspend s) in *.
  unfold asmp_resume. cbn [enabled schedule_work set_all_up_pending log_call].
  rewrite P2.
  assert (Hrun : forall x, cpu_all_up_pending x = true ->
                           cpu_all_up_work_runs x
                           = cpu_all_up (set_all_up_pending false x)).
  { intros x Hx. unfold cpu_all_up_work_runs. rewrite Hx. reflexivity. }
  destruct (enabled s) eqn:Een.
  - rewrite Hrun by reflexivity.
    match goal with
    | |- context [cpu_all_up ?x] =>
        destruct (cpu_all_up_spec x) as (_ & Hall & (Q1 & Q2 & Q3 & Q4 & Q5) & Q6)
    end.
    repeat split; try assumption.
    + rewrite Q3. exact P3.
    + rewrite Q1. exact P1.
    + rewrite Q6. exact P5.
    + rewrite Q2. exact P2.
  - rewrite Hrun by reflexivity.
    match goal with
    | |- context [cpu_all_up ?x] =>
        destruct (cpu_all_up_spec x) as (_ & Hall & (Q1 & Q2 & Q3 & Q4 & Q5) & Q6)
    end.
    repeat split; try assumption.
    + rewrite Q3. exact P3.
    + rewrite Q1. exact P1.
    + rewrite Q6. exact P5.
    + rewrite Q2. exact P2.
    + rewrite Q5. simpl. rewrite P6. apply Hgate. exact Een.
Qed.

Lemma display_off_then_on_witness :
  all_online (cpu_all_up_work_runs
                (lcd_notifier_call LCD_EVENT_ON_START
                   (lcd_notifier_call LCD_EVENT_OFF_END screen_on_state))).
Proof.
  apply (display_off_then_on screen_on_state). intros H. discriminate.
Defined.

(** ** The enabled parameter *)

(** Writing the enabled parameter: the handler returns what
    [param_set_bool] returned, and then acts on the flag as it now stands,
    also when the text was rejected and the flag is unchanged.  Afterwards
    the tick is queued exactly when the driver is enabled; when it is
    disabled the tick was cancelled first and [cpu_all_up_work] is queued, and
    once that worker has run every possible core is online.  The handler
    itself changes no core. *)
Theorem set_enabled_effect (parsed : option bool) (s : asmp_state) :
  let ret := fst (set_enabled parsed s) in
  let s' := snd (set_enabled parsed s) in
  ret = match parsed with Some _ => 0 | None => - EINVAL end
  /\ enabled s' = match parsed with Some b => b | None => enabled s end
  /\ asmp_work_pending s' = enabled s'
  /\ cpu_online_mask s' = cpu_online_mask s
  /\ new_calls s s'
     = (if enabled s' then [QueueDelayedWork DELAY_CHECK]
        else [CancelDelayedWorkSync; ScheduleWork])
  /\ (enabled s' = false ->
      cpu_all_up_pending s' = true /\ all_online (cpu_all_up_work_runs s')).
Proof.
  simpl. unfold set_enabled, param_set_bool.
  assert (Hworker : forall x, cpu_all_up_pending x = true ->
                              all_online (cpu_all_up_work_runs x)).
  { intros x Hx. unfold cpu_all_up_work_runs. rewrite Hx.
    apply cpu_all_up_spec. }
  destruct parsed as [[|]|]; simpl.
  - repeat split; try discriminate. apply new_calls_app. reflexivity.
  - repeat split; try (apply Hworker; reflexivity).
    apply new_calls_app. simpl. rewrite <- app_assoc. reflexivity.
  - destruct (enabled s) eqn:E; simpl; rewrite ?E.
    + repeat split; try discriminate. apply new_calls_app. reflexivity.
    + repeat split; try (apply Hworker; reflexivity).
      apply new_calls_app. simpl. rewrite <- app_assoc. reflexivity.
Qed.

Lemma set_enabled_effect_witness :
  cpu_all_up_pending (snd (set_enabled (Some false) screen_on_state)) = true
  /\ all_online (cpu_all_up_work_runs
                   (snd (set_enabled (Some false) screen_on_state))).
Proof.
  apply (set_enabled_effect (Some false) screen_on_state). reflexivity.
Defined.

(** ** From start-up on: no tick while the driver is disabled *)

Lemma asmp_work_fn_enabled pf s : enabled (asmp_work_fn pf s) = enabled s.
Proof.
  rewrite asmp_work_fn_stages.
  change (enabled (reschedule_asmp_workq
                     (hmp_handler pf (tick_limits pf s) (tick_middle pf s))))
    with (enabled (hmp_handler pf (tick_limits pf s) (tick_middle pf s))).
  destruct (hmp_handler_same_setup pf (tick_limits pf s) (tick_middle pf s))
    as (_ & -> & _).
  unfold tick_middle.
  destruct (little_engine_same_setup pf (tick_limits pf s) (tick_start s))
    as (_ & -> & _).
  reflexivity.
Qed.

Lemma driver_step_gated e s : tick_gated s -> tick_gated (driver_step e s).
Proof.
  intros Hg. unfold tick_gated in *. destruct e as [pf|ev|parsed|a sc n|]; simpl.
  - unfold timer_fires. destruct (asmp_work_pending s) eqn:Ep;
      [|intros _; exact Ep].
    rewrite asmp_work_fn_enabled. simpl. intros He.
    specialize (Hg He). discriminate.
  - destruct ev; simpl; try exact Hg.
    + unfold asmp_resume. simpl. destruct (enabled s) eqn:Ee; simpl.
      * rewrite Ee. discriminate.
      * intros _. apply Hg. reflexivity.
    + destruct (asmp_suspend_frame s) as (_ & -> & _ & _ & _ & ->).
      destruct (enabled s); [reflexivity|exact Hg].
  - unfold set_enabled, param_set_bool.
    destruct parsed as [[|]|]; simpl; try discriminate; try reflexivity.
    destruct (enabled s) eqn:Ee; simpl; rewrite ?Ee; try discriminate;
      reflexivity.
  - unfold store_one. destruct sc; simpl; exact Hg.
  - unfold cpu_all_up_work_runs. destruct (cpu_all_up_pending s); [|exact Hg].
    destruct (cpu_all_up_spec (set_all_up_pending false s))
      as (_ & _ & (_ & -> & _ & _ & ->) & _).
    exact Hg.
Qed.

Lemma driver_run_gated es s : tick_gated s -> tick_gated (driver_run es s).
Proof.
  revert s. induction es as [|e es IH]; intros s Hg; [exact Hg|].
  simpl. apply IH, driver_step_gated, Hg.
Qed.

(** [asmp_init] overwrites [max_cpus] with [nr_cpu_ids], fails with
    [-ENOMEM] when the workqueue cannot be allocated, and otherwise queues the
    first tick [ASMP_STARTDELAY] milliseconds ahead if the driver is enabled.
    From then on, whatever sequence of timer expiries, display events, writes
    to the enabled parameter or to the attributes, and runs of the
    [cpu_all_up] worker occurs: while the driver is disabled the tick is not
    queued, and a timer expiry changes nothing. *)
Theorem no_tick_while_disabled (workq_allocated : bool)
        (es : list driver_event) (s : asmp_state) :
  asmp_work_pending s = false ->
  let ret := fst (asmp_init workq_allocated s) in
  let s0 := snd (asmp_init workq_allocated s) in
  let s' := driver_run es s0 in
  ret = (if workq_allocated then 0 else - ENOMEM)
  /\ max_cpus (asmp_param s0) = Z.of_nat (nr_cpu_ids s)
  /\ new_calls s s0
     = (if workq_allocated && enabled s
        then [QueueDelayedWork ASMP_STARTDELAY] else [])
  /\ (enabled s' = false ->
      asmp_work_pending s' = false
      /\ forall pf, timer_fires pf s' = s').
Proof.
  intros Hp. simpl.
  assert (Hg0 : tick_gated (snd (asmp_init workq_allocated s))).
  { unfold asmp_init, tick_gated. destruct workq_allocated; simpl.
    - destruct (enabled s) eqn:Ee; simpl; [rewrite Ee; discriminate|].
      intros _. exact Hp.
    - intros _. exact Hp. }
  split; [destruct workq_allocated; reflexivity|].
  split; [unfold asmp_init; destruct workq_allocated; simpl;
          [destruct (enabled s)|]; reflexivity|].
  split.
  - unfold asmp_init. destruct workq_allocated; simpl.
    + destruct (enabled s); simpl.
      * apply new_calls_app. reflexivity.
      * apply new_calls_same. reflexivity.
    + apply new_calls_same. reflexivity.
  - intros He.
    pose proof (driver_run_gated es _ Hg0 He) as Hoff.
    split; [exact Hoff|]. intros pf. unfold timer_fires. rewrite Hoff.
    reflexivity.
Qed.

Lemma no_tick_while_disabled_witness :
  asmp_work_pending
    (driver_run [EnabledWritten (Some false); DisplayEvent LCD_EVENT_OFF_END;
                 DisplayEvent LCD_EVENT_ON_START; AllUpWorkRuns;
                 TimerExpires loaded_platform]
       (snd (asmp_init true (set_work_pending false little3_big2_state))))
  = false.
Proof.
  apply (no_tick_while_disabled true
           [EnabledWritten (Some false); DisplayEvent LCD_EVENT_OFF_END;
            DisplayEvent LCD_EVENT_ON_START; AllUpWorkRuns;
            TimerExpires loaded_platform]
           (set_work_pending false little3_big2_state));
    reflexivity.
Defined.

(** ** The sysfs attributes *)

(** A store on an attribute whose text holds no number returns [-EINVAL]
    and changes nothing; otherwise it returns [count] and writes the number,
    whatever it is, to the one parameter that the attribute names: every
    other parameter, the online mask, the counter, the flags and the log are
    as before. *)
Theorem store_one_effect (a : asmp_attr) (scanned : option Z) (count : Z)
        (s : asmp_state) :
  let ret := fst (store_one a scanned count s) in
  let s' := snd (store_one a scanned count s) in
  match scanned with
  | None => ret = - EINVAL /\ s' = s
  | Some input =>
      ret = count
      /\ param_of a (asmp_param s') = input
      /\ (forall a', a' <> a ->
                     param_of a' (asmp_param s') = param_of a' (asmp_param s))
      /\ delay (asmp_param s') = delay (asmp_param s)
      /\ s' = set_asmp_param (asmp_param s') s
  end.
Proof.
  simpl. destruct scanned as [input|]; simpl; [|split; reflexivity].
  split; [reflexivity|]. split; [destruct a; reflexivity|].
  split; [|split; reflexivity].
  intros a' Hne. destruct a, a'; try reflexivity; congruence.
Qed.

Lemma engine_no_down_at_min pf lim s :
  Z.of_nat (num_online_cluster_cpus pf CLUSTER_LITTLE s)
  <= min_cpus (asmp_param s) ->
  Forall (fun c => from_site little_down c = false)
         (new_calls s (little_engine pf lim s)).
Proof.
  intros H.
  destruct (little_engine_calls pf lim s)
    as [[_ ->] | [(_ & _ & _ & _ & ->) | (_ & _ & H' & _)]];
    [constructor|repeat constructor|lia].
Qed.

(** Raising the floor works from the next tick on: after a store to
    [min_cpus] of a number that is at least the current online count of the
    efficiency cluster, the next tick asks for no efficiency scale-down,
    whatever the load. *)
Theorem stored_min_cpus_blocks_scale_down (pf : platform) (input count : Z)
        (s : asmp_state) :
  Z.of_nat (num_online_cluster_cpus pf CLUSTER_LITTLE s) <= input ->
  let s' := snd (store_one attr_min_cpus (Some input) count s) in
  Forall (fun c => from_site little_down c = false)
         (new_calls s' (asmp_work_fn pf s')).
Proof.
  intros H. simpl. rewrite tick_new_calls, !Forall_app. split; [|split].
  - apply engine_no_down_at_min. exact H.
  - eapply Forall_impl;
      [apply (adds_new_calls _ _ _ (hmp_handler_sites pf _ _))|].
    intros c Hc. by_site c.
  - repeat constructor.
Qed.

Lemma stored_min_cpus_blocks_scale_down_witness :
  Forall (fun c => from_site little_down c = false)
         (new_calls
            (snd (store_one attr_min_cpus (Some 3) 2 little3_big2_state))
            (asmp_work_fn idle_platform
               (snd (store_one attr_min_cpus (Some 3) 2 little3_big2_state)))).
Proof.
  apply (stored_min_cpus_blocks_scale_down idle_platform 3 2 little3_big2_state).
  vm_compute. discriminate.
Defined.

(** ** Which cores the HMP trade takes offline *)

Lemma sampled_cores_seq pf cluster s :
  sampled_cores pf cluster s
  = List.filter
      (fun c => cpu_online c s
                && ((topology_physical_package_id pf c =? cluster)
                    && negb (c =? 0)%nat))
      (seq 0 (nr_cpu_ids s)).
Proof. unfold sampled_cores, for_each_online_cpu. apply filter_filter. Qed.

Lemma sampled_cores_NoDup pf cluster s : List.NoDup (sampled_cores pf cluster s).
Proof. rewrite sampled_cores_seq. apply List.NoDup_filter, List.seq_NoDup. Qed.

Lemma sampled_cores_cpu_down pf cluster site g s :
  sampled_cores pf cluster (cpu_down site g s)
  = List.filter (fun c => negb (c =? g)%nat) (sampled_cores pf cluster s).
Proof.
  rewrite !sampled_cores_seq, nr_cpu_ids_cpu_down, filter_filter.
  apply filter_length_ext. intros c _. rewrite cpu_online_cpu_down.
  destruct (Nat.eqb_spec c g); simpl; [rewrite andb_false_r; reflexivity|].
  rewrite andb_true_r. reflexivity.
Qed.

Lemma sampled_cores_cpu_up pf cluster site b s :
  b = 0%nat \/ topology_physical_package_id pf b <> cluster ->
  sampled_cores pf cluster (cpu_up site b s) = sampled_cores pf cluster s.
Proof.
  intros Hb. rewrite !sampled_cores_seq, nr_cpu_ids_cpu_up.
  apply filter_length_ext. intros c _. rewrite cpu_online_cpu_up.
  destruct (Nat.eqb_spec c b) as [->|]; [|reflexivity].
  destruct Hb as [-> | Hb].
  - simpl. rewrite !andb_false_r. reflexivity.
  - destruct (Z.eqb_spec (topology_physical_package_id pf b) cluster);
      [contradiction|]. simpl. rewrite !andb_false_r. reflexivity.
Qed.

Lemma filter_out_head (g : nat) (l : list nat) :
  List.NoDup (g :: l) -> List.filter (fun c => negb (c =? g)%nat) (g :: l) = l.
Proof.
  intros Hnd. inversion Hnd as [|? ? Hg _]; subst. simpl.
  rewrite Nat.eqb_refl. simpl.
  rewrite (filter_length_ext _ (fun _ => true)).
  - induction l as [|a l IH]; simpl; [reflexivity|]. f_equal. apply IH.
    + inversion Hnd as [|? ? _ H]; subst. inversion H; subst.
      constructor; [|assumption]. intros Hin. apply Hg. right. exact Hin.
    + intros Hin. apply Hg. right. exact Hin.
  - intros c Hc. destruct (Nat.eqb_spec c g) as [->|]; [contradiction|].
    reflexivity.
Qed.

Lemma count_le_sampled pf cluster s :
  (num_online_cluster_cpus pf cluster s
   <= S (length (sampled_cores pf cluster s)))%nat.
Proof.
  rewrite num_online_cluster_cpus_length. unfold online_in, sampled_cores.
  assert (H : forall l, List.NoDup l ->
              (length (List.filter
                         (fun cpu =>
                            Z.eqb (topology_physical_package_id pf cpu) cluster)
                         l)
               <= (if existsb (Nat.eqb 0) l then 1 else 0)
                  + length (List.filter
                              (fun cpu =>
                                 Z.eqb (topology_physical_package_id pf cpu)
                                       cluster
                                 && negb (Nat.eqb cpu 0)) l))%nat).
  { induction 1 as [|a l Ha Hnd IH]; [simpl; lia|].
    destruct a as [|a]; cbn [List.filter existsb Nat.eqb orb negb].
    - rewrite andb_false_r.
      destruct (existsb (Nat.eqb 0) l) eqn:Eex.
      + apply List.existsb_exists in Eex. destruct Eex as (x & Hx & E).
        apply Nat.eqb_eq in E. subst x. contradiction.
      + destruct (Z.eqb (topology_physical_package_id pf 0%nat) cluster);
          cbn [length Nat.add] in *;
          [apply le_n_S|apply Nat.le_le_succ_r]; exact IH.
    - rewrite andb_true_r.
      destruct (Z.eqb (topology_physical_package_id pf (S a)) cluster);
        cbn [length]; [rewrite Nat.add_succ_r; apply le_n_S|]; exact IH. }
  specialize (H (for_each_online_cpu s)
                (List.NoDup_filter _ (List.seq_NoDup _ _))).
  destruct (existsb _ _); lia.
Qed.

Lemma hmp_trade_down_order pf nr s :
  (nr - 2 <= length (sampled_cores pf CLUSTER_LITTLE s))%nat ->
  calls (hmp_trade_down pf nr s)
  = calls s ++ map (CpuDown hmp_down)
                   (take (nr - 2) (sampled_cores pf CLUSTER_LITTLE s))
  /\ sampled_cores pf CLUSTER_LITTLE (hmp_trade_down pf nr s)
     = drop (nr - 2) (sampled_cores pf CLUSTER_LITTLE s).
Proof.
  revert s. induction nr as [|n IH]; intros s Hlen; simpl.
  - rewrite app_nil_r. split; reflexivity.
  - destruct n as [|[|n]].
    1,2: simpl; rewrite app_nil_r; split; reflexivity.
    change (2 <? S (S (S n)))%nat with true. cbv iota.
    cbn [Nat.sub] in Hlen |- *.
    rewrite get_online_core_head.
    pose proof (sampled_cores_NoDup pf CLUSTER_LITTLE s) as Hnd.
    pose proof (sampled_cores_cpu_down pf CLUSTER_LITTLE hmp_down
                  (hd 0%nat (sampled_cores pf CLUSTER_LITTLE s)) s) as Hdown.
    destruct (sampled_cores pf CLUSTER_LITTLE s) as [|g rest];
      [simpl in Hlen; lia|].
    cbn [hd] in *. rewrite (filter_out_head g rest Hnd) in Hdown.
    destruct (IH (cpu_down hmp_down g s)) as [Ec Es].
    { rewrite Hdown. simpl in Hlen |- *. lia. }
    rewrite Hdown in Ec, Es. cbn [Nat.sub] in Ec, Es.
    rewrite Nat.sub_0_r in Ec, Es.
    split.
    + rewrite Ec. simpl. rewrite <- app_assoc. reflexivity.
    + rewrite Es. reflexivity.
Qed.

(** When the HMP handler trades (no performance core online, at least 4
    efficiency cores online), it asks for the core that [get_offline_core]
    returns for the performance cluster and then takes offline the
    lowest-numbered online efficiency cores other than core 0, in increasing
    order, two fewer than were online: the efficiency cores that stay online
    besides core 0 are the highest-numbered ones. *)
Theorem hmp_trade_takes_lowest_cores (pf : platform) (lim : rate_limits)
        (s : asmp_state) :
  num_online_cluster_cpus pf CLUSTER_BIG s = 0%nat ->
  MAX_CPU_PER_CLUSTERS
  <= Z.of_nat (num_online_cluster_cpus pf CLUSTER_LITTLE s) ->
  let nr := num_online_cluster_cpus pf CLUSTER_LITTLE s in
  let s' := hmp_handler pf lim s in
  new_calls s s'
  = CpuUp hmp_up (get_offline_core pf CLUSTER_BIG s)
    :: map (CpuDown hmp_down)
           (take (nr - 2) (sampled_cores pf CLUSTER_LITTLE s))
  /\ sampled_cores pf CLUSTER_LITTLE s'
     = drop (nr - 2) (sampled_cores pf CLUSTER_LITTLE s).
Proof.
  intros Hbig Hmax. simpl. unfold hmp_handler, hmp_trade.
  rewrite Hbig. simpl. rewrite Z.geb_leb.
  destruct (Z.leb_spec MAX_CPU_PER_CLUSTERS
              (Z.of_nat (num_online_cluster_cpus pf CLUSTER_LITTLE s)));
    [|lia].
  set (b := get_offline_core pf CLUSTER_BIG s).
  assert (Hb : b = 0%nat \/ topology_physical_package_id pf b <> CLUSTER_LITTLE).
  { destruct (get_offline_core_from_spec pf CLUSTER_BIG s
                (for_each_possible_cpu s)) as [[E _] | (_ & Hcl & _)].
    - left. exact E.
    - right. fold (get_offline_core pf CLUSTER_BIG s) in Hcl. fold b in Hcl.
      rewrite Hcl. discriminate. }
  pose proof (sampled_cores_cpu_up pf CLUSTER_LITTLE hmp_up b s Hb) as Eup.
  pose proof (count_le_sampled pf CLUSTER_LITTLE s) as Hle.
  destruct (hmp_trade_down_order pf
              (num_online_cluster_cpus pf CLUSTER_LITTLE s)
              (cpu_up hmp_up b s)) as [Ec Es].
  { rewrite Eup. lia. }
  rewrite Eup in Ec, Es. split; [|exact Es].
  apply new_calls_app. rewrite Ec. simpl. rewrite <- app_assoc. reflexivity.
Qed.

Lemma hmp_trade_takes_lowest_cores_witness :
  new_calls little4_state
            (hmp_handler (platform8 [])
               (compute_limits (platform8 []) little4_state) little4_state)
  = [CpuUp hmp_up 4; CpuDown hmp_down 1; CpuDown hmp_down 2]
  /\ sampled_cores (platform8 []) CLUSTER_LITTLE
       (hmp_handler (platform8 [])
          (compute_limits (platform8 []) little4_state) little4_state)
     = [3%nat].
Proof.
  apply (hmp_trade_takes_lowest_cores (platform8 [])
           (compute_limits (platform8 []) little4_state) little4_state).
  - reflexivity.
  - vm_compute. discriminate.
Defined.

(** On a platform without performance cores the HMP handler still trades:
    with core 0 online and at least 4 efficiency cores online, it asks for
    core 0, which is online already, and cuts the efficiency cluster down to
    2 cores. *)
Theorem hmp_trade_without_performance_cluster (pf : platform)
        (lim : rate_limits) (s : asmp_state) :
  (forall c, (c < nr_cpu_ids s)%nat ->
             topology_physical_package_id pf c <> CLUSTER_BIG) ->
  cpu_online 0 s = true ->
  MAX_CPU_PER_CLUSTERS
  <= Z.of_nat (num_online_cluster_cpus pf CLUSTER_LITTLE s) ->
  let s' := hmp_handler pf lim s in
  (exists downs, new_calls s s' = CpuUp hmp_up 0 :: downs
                 /\ length downs
                    = (num_online_cluster_cpus pf CLUSTER_LITTLE s - 2)%nat)
  /\ num_online_cluster_cpus pf CLUSTER_LITTLE s' = 2%nat
  /\ num_online_cluster_cpus pf CLUSTER_BIG s' = 0%nat
  /\ cpu_online 0 s' = true.
Proof.
  intros Hnobig Hon0 Hmax. simpl.
  assert (Hbig : num_online_cluster_cpus pf CLUSTER_BIG s = 0%nat).
  { rewrite num_online_cluster_cpus_length.
    destruct (online_in pf CLUSTER_BIG s) as [|c l] eqn:E; [reflexivity|].
    exfalso. assert (Hin : In c (online_in pf CLUSTER_BIG s))
      by (rewrite E; left; reflexivity).
    apply in_online_in in Hin. destruct Hin as [Hon Hcl].
    apply (Hnobig c); [apply cpu_online_lt; exact Hon|exact Hcl]. }
  assert (Eb : get_offline_core pf CLUSTER_BIG s = 0%nat).
  { destruct (get_offline_core_from_spec pf CLUSTER_BIG s
                (for_each_possible_cpu s)) as [[E _] | (Hin & Hcl & _)];
      [exact E|].
    exfalso. apply List.in_seq in Hin.
    apply (Hnobig (get_offline_core pf CLUSTER_BIG s)); [|exact Hcl].
    unfold get_offline_core. lia. }
  unfold hmp_handler, hmp_trade. rewrite Hbig. simpl. rewrite Z.geb_leb.
  destruct (Z.leb_spec MAX_CPU_PER_CLUSTERS
              (Z.of_nat (num_online_cluster_cpus pf CLUSTER_LITTLE s)));
    [|lia].
  rewrite Eb.
  assert (Hcount : forall cluster,
             num_online_cluster_cpus pf cluster (cpu_up hmp_up 0 s)
             = num_online_cluster_cpus pf cluster s).
  { intros cluster. apply count_cpu_up_other. left. exact Hon0. }
  destruct (hmp_trade_down_spec pf
              (num_online_cluster_cpus pf CLUSTER_LITTLE s)
              (cpu_up hmp_up 0 s))
    as ((l & El & _ & Ll) & Hc & Ho & _ & _ & H0); [rewrite Hcount; lia|].
  rewrite Hcount in Hc. unfold MAX_CPU_PER_CLUSTERS in *.
  split; [|split; [lia|split]].
  - exists l. split; [|exact Ll].
    apply new_calls_app. rewrite El. simpl. rewrite <- app_assoc. reflexivity.
  - rewrite Ho by discriminate. rewrite Hcount. exact Hbig.
  - rewrite H0, cpu_online_cpu_up. simpl.
    apply Nat.ltb_lt. apply cpu_online_lt. exact Hon0.
Qed.

Lemma hmp_trade_without_performance_cluster_witness :
  num_online_cluster_cpus (platform8 []) CLUSTER_LITTLE
    (hmp_handler (platform8 [])
       (compute_limits (platform8 []) four_core_state) four_core_state)
  = 2%nat.
Proof.
  apply (hmp_trade_without_performance_cluster (platform8 [])
           (compute_limits (platform8 []) four_core_state) four_core_state).
  - intros c Hc. do 4 (destruct c as [|c]; [vm_compute; discriminate|]).
    vm_compute in Hc. lia.
  - reflexivity.
  - vm_compute. discriminate.
Defined.
